(** * Sumsub webhook relay: a shallow embedding of the Node.js sources

    The development follows the repository file by file:
    - [JsString]: the [String.prototype] methods the code calls
      ([includes], [split], indexing of the split result);
    - [Buffer]: [buf.toString()], the UTF-8 decoder with U+FFFD for what is
      not UTF-8;
    - [Crypto]: Node's [crypto.createHmac('sha256', k).update(p).digest('hex')]
      and [crypto.timingSafeEqual];
    - the [Js] monad: a world (the [verificationCache] map, the console, the
      HTTP requests issued, the clock) threaded through code that can throw;
    - [Client1] and [Client2]: the two revisions of [src/SumsubApiClient.js];
    - [Server] (server.js) and [Server2] (the smaller express server);
    - [Api]: the functions of [src/SumsubApiClient.js] that call the
      provider ([createSignature] to [getApplicantDocs], [generate],
      [reGenerate], [getVerificationStatus], [getVerificationHistory]), in
      the [Run] monad over their own state;
    - [Links2]: the link routes of the smaller server;
    - [Gateway]: the authentication middleware, the admin routes and the
      health check of server.js.

    Then come sample inputs, the vocabulary the statements use, the lemmas
    about each layer, the claims of the specification, each settled by a
    theorem about the code above, and further properties of the code.

    Strings are modelled by their UTF-8 bytes (Rocq's [string]): searching
    for an ASCII marker and [Buffer.from(s, 'utf8').length] read the same on
    that representation.  Timestamps are milliseconds on the clock ([N])
    instead of ISO strings. *)

From Stdlib Require Import ZArith Ascii String List Bool Lia.
From stdpp Require Import base option list gmap strings pretty.

Local Open Scope string_scope.

(* ===================================================================== *)
(** ** JavaScript strings *)
(* ===================================================================== *)

Module JsString.

(** [s.startsWith(m)] *)
Fixpoint startsWith (m s : string) : bool :=
  match m, s with
  | EmptyString, _ => true
  | String a m', String b s' => if Ascii.eqb a b then startsWith m' s' else false
  | String _ _, EmptyString => false
  end.

(** [s.slice(n)] for [0 <= n] *)
Fixpoint slice (n : nat) (s : string) : string :=
  match n, s with
  | O, _ => s
  | S n', String _ s' => slice n' s'
  | S _, EmptyString => EmptyString
  end.

(** The first occurrence of [m] in [s], as the text before it and the text
    after it: what [s.indexOf(m)] locates. *)
Fixpoint cut (m s : string) : option (string * string) :=
  if startsWith m s then Some (EmptyString, slice (String.length m) s)
  else match s with
       | EmptyString => None
       | String c s' =>
           match cut m s' with
           | Some (p, r) => Some (String c p, r)
           | None => None
           end
       end.

(** [s.includes(m)] *)
Definition includes (m s : string) : bool :=
  match cut m s with Some _ => true | None => false end.

(** [s.split('')]: one string per code unit. *)
Fixpoint chars (s : string) : list string :=
  match s with
  | EmptyString => []
  | String c s' => String c EmptyString :: chars s'
  end.

(** The loop of [s.split(sep)] for a non-empty separator; every cut
    shortens the text, so [String.length s] rounds are enough
    (see [split_unfold]). *)
Fixpoint split_loop (rounds : nat) (sep s : string) : list string :=
  match cut sep s with
  | None => [s]
  | Some (p, r) =>
      match rounds with
      | O => [p]
      | S k => p :: split_loop k sep r
      end
  end.

(** [s.split(sep)] *)
Definition split (sep s : string) : list string :=
  match sep with
  | EmptyString => chars s
  | String _ _ => split_loop (String.length s) sep s
  end.

End JsString.

(* ===================================================================== *)
(** ** Buffers read as text *)
(* ===================================================================== *)

Module Buffer.

(** What a byte that opens a multi-byte sequence announces: how many bytes
    follow, and the bounds of the first of them (RFC 3629: no overlong
    forms, no surrogates, nothing above U+10FFFF). *)
Definition lead (b : nat) : option (nat * nat * nat) :=
  if (194 <=? b)%nat && (b <=? 223)%nat then Some (1, 128, 191)
  else if (b =? 224)%nat then Some (2, 160, 191)
  else if (b =? 237)%nat then Some (2, 128, 159)
  else if (225 <=? b)%nat && (b <=? 239)%nat then Some (2, 128, 191)
  else if (b =? 240)%nat then Some (3, 144, 191)
  else if (b =? 244)%nat then Some (3, 128, 143)
  else if (241 <=? b)%nat && (b <=? 243)%nat then Some (3, 128, 191)
  else None.

(** A sequence under way: the bytes read so far, how many are still to
    come, and the bounds of the next one. *)
Record Partial := {
  seen : string;
  needed : nat;
  lower : nat;
  upper : nat
}.

(** U+FFFD, as its UTF-8 bytes. *)
Definition replacement : string :=
  String (ascii_of_nat 239) (String (ascii_of_nat 191) (String (ascii_of_nat 189) "")).

(** The UTF-8 decoder of [buf.toString()], byte by byte: a well-formed
    sequence is kept, and what is not one is replaced by U+FFFD, once for
    every maximal part of it that starts a sequence; the byte that breaks a
    sequence is read again as the start of the next. *)
Fixpoint decode (st : option Partial) (s : string) : string :=
  match s with
  | EmptyString => match st with None => "" | Some _ => replacement end
  | String c s' =>
      let b := nat_of_ascii c in
      let afresh :=
        if (b <? 128)%nat then String c (decode None s')
        else match lead b with
             | Some (n, lo, hi) =>
                 decode (Some {| seen := String c ""; needed := n;
                                 lower := lo; upper := hi |}) s'
             | None => replacement +:+ decode None s'
             end in
      match st with
      | None => afresh
      | Some p =>
          if (lower p <=? b)%nat && (b <=? upper p)%nat then
            match needed p with
            | 0 | 1 => seen p +:+ String c (decode None s')
            | S n => decode (Some {| seen := seen p +:+ String c ""; needed := n;
                                     lower := 128; upper := 191 |}) s'
            end
          else replacement +:+ afresh
      end
  end.

(** [buf.toString()] for a Buffer [buf], on its bytes.  Strings are
    modelled by their UTF-8 bytes, so the result is the bytes of the string
    it returns; on the bytes of a string ([s.toString()] is [s]) it changes
    nothing, see [toString_utf8]. *)
Definition toString (buf : string) : string := decode None buf.

(** The bytes are well-formed UTF-8. *)
Fixpoint well_formed (st : option (nat * nat * nat)) (s : string) : bool :=
  match s with
  | EmptyString => match st with None => true | Some _ => false end
  | String c s' =>
      let b := nat_of_ascii c in
      match st with
      | None =>
          if (b <? 128)%nat then well_formed None s'
          else match lead b with
               | Some t => well_formed (Some t) s'
               | None => false
               end
      | Some (n, lo, hi) =>
          (lo <=? b)%nat && (b <=? hi)%nat
          && well_formed (match n with
                          | 0 | 1 => None
                          | S m => Some (m, 128, 191)%nat
                          end) s'
      end
  end.

Definition is_utf8 (s : string) : bool := well_formed None s.

End Buffer.

(** A JavaScript value that is a string or [undefined]. *)
Abbreviation undefined := (@None string).

(** [x || d] on a string-or-undefined [x]: the empty string is falsy too. *)
Definition or_else (x : option string) (d : string) : string :=
  match x with
  | Some (String c s) => String c s
  | Some EmptyString | None => d
  end.

(** [!x] for a string-or-undefined [x]. *)
Definition falsy (x : option string) : bool :=
  match x with
  | Some (String _ _) => false
  | Some EmptyString | None => true
  end.

(** A parameter declared [p = dflt]: the default stands in for [undefined]. *)
Definition default_param (arg dflt : option string) : option string :=
  match arg with
  | None => dflt
  | Some _ => arg
  end.

(** The delimiter both revisions of [handleWebhookEvent] look for. *)
Definition marker : string := ";externalUserId=".

(* ===================================================================== *)
(** ** Node's crypto: HMAC-SHA256 and the constant-time comparison *)
(* ===================================================================== *)

Module Crypto.
Local Open Scope Z_scope.

(** 32-bit words are [Z] in [0, 2^32); additions wrap. *)
Definition wrap32 (x : Z) : Z := x mod 2 ^ 32.
Definition add32 (x y : Z) : Z := wrap32 (x + y).
Definition rotr (n x : Z) : Z :=
    Z.lor (Z.shiftr x n) (wrap32 (Z.shiftl x (32 - n))).
Definition not32 (x : Z) : Z := Z.lxor x 0xffffffff.

Definition Ch (x y z : Z) : Z := Z.lxor (Z.land x y) (Z.land (not32 x) z).
Definition Maj (x y z : Z) : Z :=
    Z.lxor (Z.lxor (Z.land x y) (Z.land x z)) (Z.land y z).
Definition bsig0 (x : Z) : Z := Z.lxor (Z.lxor (rotr 2 x) (rotr 13 x)) (rotr 22 x).
Definition bsig1 (x : Z) : Z := Z.lxor (Z.lxor (rotr 6 x) (rotr 11 x)) (rotr 25 x).
Definition ssig0 (x : Z) : Z := Z.lxor (Z.lxor (rotr 7 x) (rotr 18 x)) (Z.shiftr x 3).
Definition ssig1 (x : Z) : Z := Z.lxor (Z.lxor (rotr 17 x) (rotr 19 x)) (Z.shiftr x 10).

(** FIPS 180-4 takes its constants from the primes: the round constants
    are the first 32 bits of the fractional parts of the cube roots of the
    first 64 primes, the initial hash value those of the square roots of the
    first 8. *)
Definition is_prime (n : Z) : bool :=
  (2 <=? n) && forallb (fun d => negb (n mod d =? 0))
                       (map Z.of_nat (seq 2 (Z.to_nat (Z.sqrt n) - 1))).

Definition primes64 : list Z :=
  firstn 64 (filter is_prime (map Z.of_nat (seq 2 310))).

(** The integer cube root, one bit at a time from bit [k - 1] down. *)
Fixpoint cbrt_from (k : nat) (n r : Z) : Z :=
  match k with
  | O => r
  | S k' =>
      let c := r + 2 ^ Z.of_nat k' in
      cbrt_from k' n (if c * c * c <=? n then c else r)
  end.

Definition frac_cbrt32 (p : Z) : Z := wrap32 (cbrt_from 40 (p * 2 ^ 96) 0).
Definition frac_sqrt32 (p : Z) : Z := wrap32 (Z.sqrt (p * 2 ^ 64)).

Definition K : list Z := Eval vm_compute in map frac_cbrt32 primes64.

(** The eight working variables / the chaining value. *)
Record Hash := mkHash { ha : Z; hb : Z; hc : Z; hd : Z; he : Z; hf : Z; hg : Z; hh : Z }.

Definition H0 : Hash :=
  Eval vm_compute in
    mkHash (frac_sqrt32 2) (frac_sqrt32 3) (frac_sqrt32 5) (frac_sqrt32 7)
           (frac_sqrt32 11) (frac_sqrt32 13) (frac_sqrt32 17) (frac_sqrt32 19).

(** Message schedule: 16 block words extended to 64. *)
Fixpoint schedule (more : nat) (w : list Z) : list Z :=
  match more with
  | O => w
  | S k =>
      let t := length w in
      let at_ (i : nat) := nth (t - i) w 0 in
      schedule k (w ++ [add32 (add32 (ssig1 (at_ 2%nat)) (at_ 7%nat))
                               (add32 (ssig0 (at_ 15%nat)) (at_ 16%nat))])
  end.

Definition round (s : Hash) (kw : Z * Z) : Hash :=
  let t1 := add32 (add32 (add32 (hh s) (bsig1 (he s))) (Ch (he s) (hf s) (hg s)))
                  (add32 (fst kw) (snd kw)) in
  let t2 := add32 (bsig0 (ha s)) (Maj (ha s) (hb s) (hc s)) in
  mkHash (add32 t1 t2) (ha s) (hb s) (hc s) (add32 (hd s) t1) (he s) (hf s) (hg s).

Definition compress (h : Hash) (block : list Z) : Hash :=
  let s := fold_left round (combine K (schedule 48 block)) h in
  mkHash (add32 (ha h) (ha s)) (add32 (hb h) (hb s)) (add32 (hc h) (hc s))
         (add32 (hd h) (hd s)) (add32 (he h) (he s)) (add32 (hf h) (hf s))
         (add32 (hg h) (hg s)) (add32 (hh h) (hh s)).

(** Big-endian packing of bytes into words and back. *)
Fixpoint words_of_bytes (bs : list Z) : list Z :=
  match bs with
  | b0 :: b1 :: b2 :: b3 :: rest =>
      (Z.shiftl b0 24 + Z.shiftl b1 16 + Z.shiftl b2 8 + b3) :: words_of_bytes rest
  | _ => []
  end.

Definition bytes_of_word (w : Z) : list Z :=
  [ Z.land (Z.shiftr w 24) 255; Z.land (Z.shiftr w 16) 255;
    Z.land (Z.shiftr w 8) 255; Z.land w 255 ].

Definition bytes_of_hash (h : Hash) : list Z :=
  bytes_of_word (ha h) ++ bytes_of_word (hb h) ++ bytes_of_word (hc h) ++
  bytes_of_word (hd h) ++ bytes_of_word (he h) ++ bytes_of_word (hf h) ++
  bytes_of_word (hg h) ++ bytes_of_word (hh h).

(** Padding: 0x80, zeros up to 56 mod 64, the bit length on 8 bytes. *)
Definition pad (msg : list Z) : list Z :=
  let len := Z.of_nat (length msg) in
  let zeros := Z.to_nat ((55 - len) mod 64) in
  msg ++ [0x80] ++ repeat 0 zeros
      ++ bytes_of_word (Z.shiftr (8 * len) 32) ++ bytes_of_word (wrap32 (8 * len)).

Fixpoint blocks (n : nat) (ws : list Z) : list (list Z) :=
  match n with
  | O => []
  | S k => firstn 16 ws :: blocks k (skipn 16 ws)
  end.

Definition sha256 (msg : list Z) : Hash :=
  let ws := words_of_bytes (pad msg) in
  fold_left compress (blocks (length ws / 16) ws) H0.

(** HMAC (RFC 2104) with a 64-byte block. *)
Definition hmac_key (key : list Z) : list Z :=
  let k := if (64 <? Z.of_nat (length key)) then bytes_of_hash (sha256 key) else key in
  k ++ repeat 0 (64 - length k)%nat.

Definition hmac_sha256 (key msg : list Z) : Hash :=
  let k := hmac_key key in
  let inner := sha256 (map (Z.lxor 0x36) k ++ msg) in
  sha256 (map (Z.lxor 0x5c) k ++ bytes_of_hash inner).

(** [.digest('hex')]: lower-case, two digits per byte. *)
Definition hex_digit (n : Z) : ascii :=
  if n <? 10 then ascii_of_N (Z.to_N (48 + n)) else ascii_of_N (Z.to_N (87 + n)).

Definition nibble (w : Z) (i : Z) : ascii := hex_digit (Z.land (Z.shiftr w (4 * i)) 15).

Definition hex_word (w : Z) (rest : string) : string :=
  String (nibble w 7) (String (nibble w 6) (String (nibble w 5) (String (nibble w 4)
  (String (nibble w 3) (String (nibble w 2) (String (nibble w 1) (String (nibble w 0)
  rest))))))).

Definition hex (h : Hash) : string :=
  hex_word (ha h) (hex_word (hb h) (hex_word (hc h) (hex_word (hd h)
  (hex_word (he h) (hex_word (hf h) (hex_word (hg h) (hex_word (hh h)
  EmptyString))))))).

(** [Buffer.from(s, 'utf8')]: the bytes of the string. *)
Fixpoint buffer_from (s : string) : list Z :=
  match s with
  | EmptyString => []
  | String c s' => Z.of_N (N_of_ascii c) :: buffer_from s'
  end.

(** [crypto.createHmac('sha256', key).update(payload).digest('hex')] *)
Definition createHmac_sha256_hex (key payload : string) : string :=
  hex (hmac_sha256 (buffer_from key) (buffer_from payload)).

(** [crypto.timingSafeEqual(a, b)] on buffers of one length: every byte
    pair is visited and the differences are or-ed together. *)
Fixpoint diff_bits (a b : list Z) (acc : Z) : Z :=
  match a, b with
  | x :: a', y :: b' => diff_bits a' b' (Z.lor acc (Z.lxor x y))
  | _, _ => acc
  end.

Definition timingSafeEqual (a b : list Z) : bool := diff_bits a b 0 =? 0.

End Crypto.

(* ===================================================================== *)
(** ** Data: provider events, payloads, cache entries *)
(* ===================================================================== *)

(** The [reviewResult] object of a provider event; a missing key reads
    [undefined] ([None]). *)
Record ReviewResult := {
  rr_reviewStatus : option string;
  rr_levelName : option string;
  rr_rejectLabels : option (list string)
}.

(** [{}] *)
Definition empty_object : ReviewResult :=
  {| rr_reviewStatus := None; rr_levelName := None; rr_rejectLabels := None |}.

(** A parsed webhook body, [JSON.parse(rawBody)], read as an object with
    string fields. *)
Record Event := {
  ev_type : option string;
  ev_applicantId : option string;
  ev_reviewResult : option ReviewResult;
  ev_inspectionId : option string
}.

(** Objects built by the first revision of SumsubApiClient.js. *)
Module Payload1.
(** [webhookPayload], lines 192-209 *)
Record WebhookPayload := {
    type : option string;
    applicantId : string;
    externalUserId : option string;
    inspectionId : option string;
    reviewStatus : string;
    reviewResult : ReviewResult;
    levelName : string;
    createdAt : N;
    originalEvent : Event
  }.

(** [verificationData], lines 238-242: the payload's fields spread, plus
    two. *)
Record VerificationData := {
    payload : WebhookPayload;
    djangoResponse : string;
    processedAt : N
  }.
End Payload1.

(** Objects built by the second revision of SumsubApiClient.js. *)
Module Payload2.
(** the body posted at lines 651-657 *)
Record Forwarded := {
    type : option string;
    applicantId : string;
    externalUserId : string;
    reviewStatus : option string;
    reviewResult : option ReviewResult
  }.

(** [verificationData], lines 666-673 *)
Record VerificationData := {
    vd_applicantId : string;
    vd_externalUserId : string;
    eventType : option string;
    status : string;
    receivedAt : N;
    details : Event
  }.
End Payload2.

(** A value of the [verificationCache] map. *)
Inductive CacheEntry :=
| Verified1 (v : Payload1.VerificationData)
| Verified2 (v : Payload2.VerificationData).

(** What [handleWebhookEvent] resolves to: [{status: 'processed', ...}] in
    either revision, or nothing when the second revision falls off the end
    of its [try] block. *)
Inductive HandlerResult :=
| Processed1 (djangoResponse : string) (verificationData : Payload1.VerificationData)
| Processed2 (djangoResponse : string)
| NoResult.

(* ===================================================================== *)
(** ** The world the handlers run in *)
(* ===================================================================== *)

Inductive Level := LOG | WARN | ERROR.

(** One [console.log] / [console.warn] / [console.error] call: its message
    and the string values printed with it. *)
Record LogLine := {
  level : Level;
  text : string;
  fields : list (option string)
}.

Inductive ErrorName := Error | TypeError | ReferenceError | SyntaxError.

Record AxiosResponse := { res_status : nat; res_data : string }.

(** A thrown JavaScript error; [err_response] is axios's [error.response]. *)
Record JsError := {
  name : ErrorName;
  message : string;
  err_response : option AxiosResponse
}.

Definition new_Error (msg : string) : JsError :=
  {| name := Error; message := msg; err_response := None |}.

(** The JSON body of an outbound POST. *)
Inductive Body :=
| Json1 (p : Payload1.WebhookPayload)
| Json2 (p : Payload2.Forwarded)
| JsonEmpty
| JsonResult (r : HandlerResult).

(** An [axios.post(url, body, {timeout})] call (headers are not modelled). *)
Record Request := {
  url : string;
  body : Body;
  timeout : option N
}.

(** How the downstream answers: the promise axios returns settles after
    [elapsed] milliseconds, fulfilled with a response (a 2xx status, under
    axios's default [validateStatus]) or rejected with an error message (a
    timeout, a network error, a status outside 2xx). *)
Inductive Settled :=
| Fulfilled (r : AxiosResponse)
| Rejected (msg : string) (r : option AxiosResponse).

Record Reply := { elapsed : N; settled : Settled }.

(** The process environment and the network: the k-th request (counting
    from 0) gets the reply [network k request]. *)
Record Env := {
  SUMSUB_WEBHOOK_SECRET : option string;
  DEBUG_WEBHOOK : option string;
  DJANGO_API_BASE_URL : option string;
  network : nat -> Request -> Reply
}.

Record World := {
  verificationCache : gmap (option string) CacheEntry;
  console : list LogLine;          (* oldest first *)
  requests : list Request;         (* oldest first *)
  now : N;
  unhandledRejections : list JsError
}.

Inductive Completion (A : Type) :=
| Return (a : A)
| Throw (e : JsError).
Arguments Return {A} a.
Arguments Throw {A} e.

(** Code that reads and writes the world and may throw. *)
Definition Js (A : Type) : Type := World -> Completion A * World.

Definition ret {A} (a : A) : Js A := fun w => (Return a, w).

Definition throw {A} (e : JsError) : Js A := fun w => (Throw e, w).

Definition bind {A B} (m : Js A) (k : A -> Js B) : Js B :=
  fun w => match m w with
           | (Return a, w') => k a w'
           | (Throw e, w') => (Throw e, w')
           end.

Notation "x <- m ;; k" := (bind m (fun x => k))
  (at level 100, m at next level, right associativity).
Notation "m ;;; k" := (bind m (fun _ => k))
  (at level 100, right associativity).

(** [try { body } catch (error) { handler }] *)
Definition try_catch {A} (body : Js A) (handler : JsError -> Js A) : Js A :=
  fun w => match body w with
           | (Return a, w') => (Return a, w')
           | (Throw e, w') => handler e w'
           end.

(** The world after one more console line. *)
Definition logged (lvl : Level) (msg : string) (vals : list (option string)) (w : World)
    : World :=
  {| verificationCache := verificationCache w;
     console := console w ++ [ {| level := lvl; text := msg; fields := vals |} ];
     requests := requests w;
     now := now w;
     unhandledRejections := unhandledRejections w |}.

Definition console_emit (lvl : Level) (msg : string) (vals : list (option string)) : Js unit :=
  fun w => (Return tt, logged lvl msg vals w).

Definition console_log := console_emit LOG.
Definition console_warn := console_emit WARN.
Definition console_error := console_emit ERROR.

(** [new Date()] *)
Definition Date_now : Js N := fun w => (Return (now w), w).

(** The world after [verificationCache.set(key, value)]. *)
Definition cached (key : option string) (value : CacheEntry) (w : World) : World :=
  {| verificationCache := <[ key := value ]> (verificationCache w);
     console := console w;
     requests := requests w;
     now := now w;
     unhandledRejections := unhandledRejections w |}.

(** [verificationCache.set(key, value)] *)
Definition cache_set (key : option string) (value : CacheEntry) : Js unit :=
  fun w => (Return tt, cached key value w).

(** The world once a request has been issued and its promise has settled:
    the request is on record and the clock has advanced. *)
Definition issued (env : Env) (u : string) (b : Body) (t : option N) (w : World) : World :=
  let rq := {| url := u; body := b; timeout := t |} in
  {| verificationCache := verificationCache w;
     console := console w;
     requests := requests w ++ [rq];
     now := (now w + elapsed (network env (length (requests w)) rq))%N;
     unhandledRejections := unhandledRejections w |}.

(** [await axios.post(url, body, {timeout})]: the request is issued, the
    clock advances while the promise is pending, and a rejection is thrown.
    The promise is taken to settle; one that stays pending for ever, which a
    request without a timeout allows, is not modelled: what is proved of an
    outcome holds of the runs in which every request settles. *)
Definition axios_post (env : Env) (u : string) (b : Body) (t : option N) : Js AxiosResponse :=
  fun w =>
    let rq := {| url := u; body := b; timeout := t |} in
    (match settled (network env (length (requests w)) rq) with
     | Fulfilled r => Return r
     | Rejected msg r => Throw {| name := Error; message := msg; err_response := r |}
     end, issued env u b t w).

(** A promise that has settled by the time its caller looks at it. *)
Inductive Promise (A : Type) :=
| Resolved (a : A)
| Failed (e : JsError).
Arguments Resolved {A} a.
Arguments Failed {A} e.

(** The world once a rejected promise has been dropped unhandled. *)
Definition dropped (e : JsError) (w : World) : World :=
  {| verificationCache := verificationCache w;
     console := console w;
     requests := requests w;
     now := now w;
     unhandledRejections := unhandledRejections w ++ [e] |}.

(** Calling an [async] function that contains no [await], without awaiting
    the result: its body runs to completion, the caller gets the promise,
    and a rejection nobody handles is left to the runtime.  The model
    follows the caller's own control flow and keeps the rejection on record;
    what the runtime then does with it (a warning up to Node 14, the end of
    the process from Node 15 on unless configured otherwise) is not
    modelled. *)
Definition call_without_await {A} (m : Js A) : Js (Promise A) :=
  fun w => match m w with
           | (Return a, w') => (Return (Resolved a), w')
           | (Throw e, w') => (Return (Failed e), dropped e w')
           end.

(** [!p] for a promise [p]: an object is never falsy. *)
Definition not_promise {A} (p : Promise A) : bool := false.

(** [x.method(...)] with [x] undefined throws before the call. *)
Definition receiver (x : option string) (method : string) : Js string :=
  match x with
  | Some s => ret s
  | None => throw {| name := TypeError;
                     message := "Cannot read properties of undefined (reading '"
                                  +:+ method +:+ "')";
                     err_response := None |}
  end.

(** Calling a function no declaration of the module defines. *)
Definition not_defined {A} (f : string) : Js A :=
  throw {| name := ReferenceError; message := f +:+ " is not defined";
           err_response := None |}.

(** [`${x}`] *)
Definition show (x : option string) : string :=
  match x with Some s => s | None => "undefined" end.

(** [s.toUpperCase()], on ASCII letters (other bytes are kept: the mapping
    of letters outside ASCII is not modelled). *)
Definition upper (c : ascii) : ascii :=
  let n := nat_of_ascii c in
  if (97 <=? n)%nat && (n <=? 122)%nat then ascii_of_nat (n - 32) else c.

Fixpoint toUpperCase (s : string) : string :=
  match s with
  | EmptyString => EmptyString
  | String c s' => String (upper c) (toUpperCase s')
  end.

(** [`${DJANGO_API_BASE_URL}`] in the client: the environment variable. *)
Definition base_url (env : Env) : string := show (DJANGO_API_BASE_URL env).

(* ===================================================================== *)
(** ** SumsubApiClient.js: signature verification (both revisions) *)
(* ===================================================================== *)

(** Lines 140-176 (and, word for word, 604-640).  The third parameter
    defaults to the module's [SUMSUB_WEBHOOK_SECRET] when the caller passes
    [undefined].  [rawBody] is a string (server.js) or a Buffer (the smaller
    server), given by its bytes; what is hashed is [rawBody.toString()]. *)
Definition verifyWebhookSignature (env : Env)
    (rawBody : string) (receivedSignature webhookSecret : option string) : Js bool :=
  let webhookSecret := default_param webhookSecret (SUMSUB_WEBHOOK_SECRET env) in
  if falsy webhookSecret then
    console_warn "⚠️ Webhook verification skipped - no secret key set" [] ;;;
    ret true
  else if falsy receivedSignature then
    console_error "⚠️ Missing x-payload-digest header" [] ;;;
    throw (new_Error "Missing x-payload-digest header")
  else
    try_catch
      (let payload := Buffer.toString rawBody in
       let computedDigest := Crypto.createHmac_sha256_hex (show webhookSecret) payload in
       let receivedBuffer := Crypto.buffer_from (show receivedSignature) in
       let computedBuffer := Crypto.buffer_from computedDigest in
       if negb (length receivedBuffer =? length computedBuffer)%nat
          || negb (Crypto.timingSafeEqual receivedBuffer computedBuffer)
       then
         console_error "Signature verification failed:"
                       [receivedSignature; Some computedDigest] ;;;
         throw (new_Error "Invalid webhook signature")
       else ret true)
      (fun error =>
         console_error "Error during signature verification:" [Some (message error)] ;;;
         throw error).

(* ===================================================================== *)
(** ** SumsubApiClient.js, first revision (lines 1-452) *)
(* ===================================================================== *)

Module Client1.
Import Payload1.

(** Lines 187-189:
    [applicantId.includes(';externalUserId=')
       ? applicantId.split(';externalUserId=')[1] : applicantId] *)
Definition externalUserId_of (applicantId : string) : option string :=
  if JsString.includes marker applicantId
  then JsString.split marker applicantId !! 1%nat
  else Some applicantId.

(** Lines 186 and 192-209: the destructuring of the event and the
    [webhookPayload] object literal. *)
Definition webhookPayload_of (event : Event) (applicantId : string) (createdAt : N)
    : WebhookPayload :=
  let reviewResult := default empty_object (ev_reviewResult event) in
  {| type := ev_type event;
     applicantId := applicantId;
     externalUserId := externalUserId_of applicantId;
     inspectionId := ev_inspectionId event;
     reviewStatus := or_else (rr_reviewStatus reviewResult) "pending";
     reviewResult := reviewResult;
     levelName := or_else (rr_levelName reviewResult) "kyc_verification";
     createdAt := createdAt;
     originalEvent := event |}.

Section WithEnv.
Variable env : Env.

(** Lines 327-331 *)
Definition handleCompletedVerification (userId : option string) (event : Event) : Js unit :=
  console_log ("Handling completed verification for " +:+ show userId) [].

(** Lines 333-339 *)
Definition handleRejectedVerification (userId : option string) (event : Event) : Js unit :=
  console_log ("Handling rejected verification for " +:+ show userId) [] ;;;
  let reasons :=
    or_else (String.concat ", " <$> (ev_reviewResult event ≫= rr_rejectLabels)) "unknown" in
  console_log ("Rejection reasons: " +:+ reasons) [].

(** Lines 342-368 *)
Definition handleNewApplicant (userId : option string) (event : Event) : Js string :=
  try_catch
    (response <- axios_post env (base_url env +:+ "/kyc/verifications/initiate/")
                            JsonEmpty None ;;
     if (res_status response =? 401)%nat then
       throw (new_Error "Invalid Django service token - check .env configuration")
     else ret (res_data response))
    (fun error =>
       console_error ("Auth failed for " +:+ show userId +:+ ":") [Some (message error)] ;;;
       throw error).

(** Lines 370-389 *)
Definition storeFailedWebhook (failedWebhook : WebhookPayload) (error : JsError) : Js unit :=
  console_warn "Storing failed webhook for retry:"
               [type failedWebhook; Some (applicantId failedWebhook); None].

(** Line 283: [`[${type.toUpperCase()}] ${externalUserId}`] *)
Definition logPrefix (t : string) (externalUserId : option string) : string :=
  "[" +:+ toUpperCase t +:+ "] " +:+ show externalUserId.

(** Lines 282-324.  [handlePendingVerification], [handleOnHoldVerification]
    and [handleUnknownEvent] are called but declared nowhere. *)
Definition processWebhookEvent (type : option string) (externalUserId : option string)
    (reviewStatus : option string) (originalEvent : Event) : Js unit :=
  t <- receiver type "toUpperCase" ;;
  let logPrefix := logPrefix t externalUserId in
  try_catch
    (console_log (logPrefix +:+ " - Processing event") [] ;;;
     (if String.eqb t "applicantReviewed" then
        console_log (logPrefix +:+ " - Review status: " +:+ show reviewStatus) [] ;;;
        if bool_decide (reviewStatus = Some "completed") then
          handleCompletedVerification externalUserId originalEvent
        else if bool_decide (reviewStatus = Some "rejected") then
          handleRejectedVerification externalUserId originalEvent
        else ret tt
      else if String.eqb t "applicantPending" then
        console_log (logPrefix +:+ " - Verification pending") [] ;;;
        not_defined "handlePendingVerification"
      else if String.eqb t "applicantCreated" then
        console_log (logPrefix +:+ " - New applicant created") [] ;;;
        _ <- handleNewApplicant externalUserId originalEvent ;; ret tt
      else if String.eqb t "applicantOnHold" then
        console_log (logPrefix +:+ " - Verification on hold") [] ;;;
        not_defined "handleOnHoldVerification"
      else
        console_warn (logPrefix +:+ " - Unhandled event type") [] ;;;
        not_defined "handleUnknownEvent") ;;;
     console_log (logPrefix +:+ " - Event processed successfully") [])
    (fun error =>
       console_error (logPrefix +:+ " - Event processing failed:") [Some (message error)] ;;;
       throw error).

(** Lines 179-279 *)
Definition handleWebhookEvent (event : Event) : Js HandlerResult :=
  console_log "Processing SumSub webhook event:" [ev_type event; ev_applicantId event] ;;;
  let type := ev_type event in
  let reviewResult := default empty_object (ev_reviewResult event) in
  applicantId <- receiver (ev_applicantId event) "includes" ;;
  let externalUserId := externalUserId_of applicantId in
  createdAt <- Date_now ;;
  let webhookPayload := webhookPayload_of event applicantId createdAt in
  try_catch
    (console_log "Forwarding webhook to Django with payload:"
                 [type; Some applicantId; Some (reviewStatus webhookPayload)] ;;;
     response <- axios_post env (base_url env +:+ "/kyc/webhook/sumsub/")
                            (Json1 webhookPayload) (Some 40000%N) ;;
     console_log "Webhook forwarded successfully. Django response:"
                 [Some (res_data response)] ;;;
     processedAt <- Date_now ;;
     let verificationData :=
       {| payload := webhookPayload;
          djangoResponse := res_data response;
          processedAt := processedAt |} in
     cache_set externalUserId (Verified1 verificationData) ;;;
     console_log ("Cached verification data for " +:+ show externalUserId) [] ;;;
     processWebhookEvent type externalUserId (rr_reviewStatus reviewResult) event ;;;
     ret (Processed1 (res_data response) verificationData))
    (fun error =>
       console_error "Webhook processing failed:" [Some (message error)] ;;;
       storeFailedWebhook webhookPayload error ;;;
       throw (new_Error ("Webhook processing failed: " +:+ message error))).

End WithEnv.
End Client1.

(* ===================================================================== *)
(** ** SumsubApiClient.js, second revision (lines 452-809) *)
(* ===================================================================== *)

Module Client2.
Import Payload2.

(** Line 647: [applicantId.split(';externalUserId=')[1] || applicantId] *)
Definition externalUserId_of (applicantId : string) : string :=
  or_else (JsString.split marker applicantId !! 1%nat) applicantId.

Section WithEnv.
Variable env : Env.

(** Lines 559-567 *)
Definition storeFailedWebhook (type : option string) (applicantId : string) : Js unit :=
  console_warn "Storing failed webhook for retry:" [type; Some applicantId].

(** Lines 643-729 *)
Definition handleWebhookEvent (event : Event) : Js HandlerResult :=
  console_log "Processing SumSub webhook event:" [ev_type event] ;;;
  let type := ev_type event in
  let reviewResult := ev_reviewResult event in
  applicantId <- receiver (ev_applicantId event) "split" ;;
  let externalUserId := externalUserId_of applicantId in
  let reviewStatus := reviewResult ≫= rr_reviewStatus in
  try_catch
    (response <- axios_post env (base_url env +:+ "webhook/")
                   (Json2 {| type := type;
                             applicantId := applicantId;
                             externalUserId := externalUserId;
                             reviewStatus := reviewStatus;
                             reviewResult := reviewResult |}) None ;;
     console_log "Webhook forwarded successfully:" [] ;;;
     if (res_status response =? 200)%nat then
       console_log "Event processed successfully by Django" [] ;;;
       receivedAt <- Date_now ;;
       let verificationData :=
         {| vd_applicantId := applicantId;
            vd_externalUserId := externalUserId;
            eventType := type;
            status := or_else reviewStatus "unknown";
            receivedAt := receivedAt;
            details := event |} in
       cache_set (Some externalUserId) (Verified2 verificationData) ;;;
       (if bool_decide (type = Some "applicantReviewed") then
          console_log ("Applicant " +:+ externalUserId +:+ " reviewed with status: "
                         +:+ show reviewStatus) [] ;;;
          if bool_decide (reviewStatus = Some "completed") then
            console_log ("Verification completed for " +:+ externalUserId) []
          else if bool_decide (reviewStatus = Some "rejected") then
            console_log ("Verification rejected for " +:+ externalUserId) []
          else ret tt
        else if bool_decide (type = Some "applicantPending") then
          console_log ("Applicant " +:+ externalUserId +:+ " is pending review") []
        else if bool_decide (type = Some "applicantCreated") then
          console_log ("New applicant created: " +:+ externalUserId) []
        else if bool_decide (type = Some "applicantOnHold") then
          console_log ("Applicant " +:+ externalUserId +:+ " verification on hold") []
        else
          console_log ("Unhandled event type: " +:+ show type) []) ;;;
       ret (Processed2 (res_data response))
     else ret NoResult)
    (fun error =>
       console_error "Error forwarding webhook:" [Some (message error)] ;;;
       storeFailedWebhook type applicantId ;;;
       throw error).

End WithEnv.
End Client2.

(* ===================================================================== *)
(** ** The webhook endpoints *)
(* ===================================================================== *)

(** An inbound POST /sumsub-webhook once its raw body has been read:
    the body as received, the [x-payload-digest] header, and what
    [JSON.parse] makes of the body ([None]: it throws a SyntaxError). *)
Record Inbound := {
  rawBody : string;
  x_payload_digest : option string;
  parsed : option Event
}.

(** What [res.status(code).send(text)] or [res.status(code).json({error,
    details})] sends back. *)
Inductive Sent :=
| Text (s : string)
| JsonError (error : string) (details : option string).

Record Outbound := { code : nat; sent : Sent }.

(** [JSON.parse(rawBody)]; the message stands for the one of Node's
    SyntaxError, whose text depends on the input. *)
Definition JSON_parse (req : Inbound) : Js Event :=
  match parsed req with
  | Some ev => ret ev
  | None => throw {| name := SyntaxError;
                     message := "Unexpected token in JSON";
                     err_response := None |}
  end.

(** server.js (the same handler, line for line, is in the second copy of
    the server). *)
Module Server.
Section WithClient.
Variable env : Env.
(** [import { handleWebhookEvent } from './src/SumsubApiClient.js'] *)
Variable handleWebhookEvent : Event -> Js HandlerResult.

(** Line 11 *)
Definition DJANGO_API_BASE_URL : string := "https://cheetahx.onrender.com".

(** Lines 338-363 *)
Definition forwardToDjango (data : HandlerResult) : Js AxiosResponse :=
  try_catch
    (response <- axios_post env (DJANGO_API_BASE_URL +:+ "/kyc/webhook/sumsub/")
                            (JsonResult data) (Some 5000%N) ;;
     console_log "Forwarded to Django:" [] ;;;
     ret response)
    (fun error =>
       console_error "Django forwarding failed:" [Some (message error)] ;;;
       throw error).

(** Lines 365-371 *)
Definition storeFailedWebhook (payload : Event) : Js unit :=
  console_warn "Storing failed webhook for retry:"
               [ev_type payload; ev_applicantId payload].

(** Lines 104-112: the body of [if (!isValid)]. *)
Definition reject_invalid (req : Inbound) (webhookSecret : option string) : Js Outbound :=
  let computedSignature :=
    Crypto.createHmac_sha256_hex (show webhookSecret) (rawBody req) in
  console_error "Invalid webhook signature"
                [x_payload_digest req; Some computedSignature] ;;;
  ret {| code := 403; sent := JsonError "Invalid webhook signature" None |}.

(** Lines 78-149, with the body of [if (!isValid)] as a parameter. *)
Definition sumsub_webhook_with (on_invalid : Inbound -> option string -> Js Outbound)
    (req : Inbound) : Js Outbound :=
  try_catch
    (let receivedSignature := x_payload_digest req in
     let webhookSecret := SUMSUB_WEBHOOK_SECRET env in
     if falsy webhookSecret then
       throw (new_Error "SUMSUB_WEBHOOK_SECRET is not configured")
     else if bool_decide (DEBUG_WEBHOOK env = Some "true") then
       console_warn "⚠️ Webhook verification bypassed for debugging" [] ;;;
       parsed <- JSON_parse req ;;
       console_log "Debug webhook payload:" [ev_type parsed; ev_applicantId parsed] ;;;
       result <- handleWebhookEvent parsed ;;
       _ <- forwardToDjango result ;;
       ret {| code := 200; sent := Text "Webhook received (debug mode)" |}
     else
       (* no [await]: [isValid] is the promise *)
       isValid <- call_without_await
                    (verifyWebhookSignature env (rawBody req) receivedSignature
                                            webhookSecret) ;;
       if not_promise isValid then on_invalid req webhookSecret
       else
         payload <- JSON_parse req ;;
         console_log "Received webhook:" [ev_type payload; ev_applicantId payload] ;;;
         result <- handleWebhookEvent payload ;;
         try_catch
           (_ <- forwardToDjango result ;;
            ret {| code := 200; sent := Text "Webhook processed successfully" |})
           (fun djangoError =>
              storeFailedWebhook payload ;;;
              ret {| code := 200;
                     sent := JsonError "Webhook received but Django processing failed"
                                       (Some (message djangoError)) |}))
    (fun error =>
       console_error "❌ Webhook processing error:" [Some (message error)] ;;;
       if JsString.includes "Invalid webhook signature" (message error) then
         ret {| code := 403; sent := JsonError (message error) None |}
       else
         ret {| code := 200;
                sent := JsonError (message error)
                          (Some "Webhook received but encountered processing error") |}).

(** The second handler of [app.post('/sumsub-webhook', ...)]. *)
Definition sumsub_webhook : Inbound -> Js Outbound :=
  sumsub_webhook_with reject_invalid.

End WithClient.
End Server.

(** The smaller express server (its webhook route is lines 16-56). *)
Module Server2.
Section WithClient.
Variable env : Env.
Variable handleWebhookEvent : Event -> Js HandlerResult.

(** Line 13: [process.env.DJANGO_API_BASE_URL || 'http://localhost:8000/api'] *)
Definition DJANGO_API_BASE_URL : string :=
  or_else (DJANGO_API_BASE_URL env) "http://localhost:8000/api".

(** Lines 17-55, with the body of [if (!isValid)] as a parameter. *)
Definition sumsub_webhook_with (on_invalid : Js Outbound) (req : Inbound) : Js Outbound :=
  try_catch
    (let receivedSignature := x_payload_digest req in
     let webhookSecret := SUMSUB_WEBHOOK_SECRET env in
     if bool_decide (DEBUG_WEBHOOK env = Some "true") then
       console_warn "⚠️ Webhook verification bypassed for debugging" [] ;;;
       parsed <- JSON_parse req ;;
       result <- handleWebhookEvent parsed ;;
       _ <- axios_post env (DJANGO_API_BASE_URL +:+ "/verifications/")
                       (JsonResult result) None ;;
       ret {| code := 200; sent := Text "Webhook received (debug mode)" |}
     else
       isValid <- verifyWebhookSignature env (rawBody req) receivedSignature
                                         webhookSecret ;;
       if negb isValid then on_invalid
       else
         payload <- JSON_parse req ;;
         result <- handleWebhookEvent payload ;;
         _ <- axios_post env (DJANGO_API_BASE_URL +:+ "/verifications/")
                         (JsonResult result) None ;;
         ret {| code := 200; sent := Text "Webhook received" |})
    (fun error =>
       console_error "❌ Webhook error:" [Some (message error)] ;;;
       ret {| code := 400;
              sent := JsonError (message error)
                        (Some "Check server logs for more info") |}).

(** Lines 33-35: [throw new Error('Invalid webhook signature')] *)
Definition sumsub_webhook : Inbound -> Js Outbound :=
  sumsub_webhook_with (throw (new_Error "Invalid webhook signature")).

End WithClient.
End Server2.

(* ===================================================================== *)
(** ** Sample inputs *)
(* ===================================================================== *)

(** A downstream that acknowledges every request after 7 ms. *)
Definition reply_ok : Reply :=
  {| elapsed := 7; settled := Fulfilled {| res_status := 200; res_data := "ok" |} |}.

(** A downstream that never answers: axios gives up after its timeout.  The
    message is the one of a request that sets the 40 s timeout of the first
    revision's forward; for a request with another timeout, or with none, it
    stands for any rejection. *)
Definition reply_timeout : Reply :=
  {| elapsed := 40000; settled := Rejected "timeout of 40000ms exceeded" None |}.

Definition env_up : Env :=
  {| SUMSUB_WEBHOOK_SECRET := Some "s3cret";
     DEBUG_WEBHOOK := None;
     DJANGO_API_BASE_URL := Some "https://django.example";
     network := fun _ _ => reply_ok |}.

Definition env_down : Env :=
  {| SUMSUB_WEBHOOK_SECRET := Some "s3cret";
     DEBUG_WEBHOOK := None;
     DJANGO_API_BASE_URL := Some "https://django.example";
     network := fun _ _ => reply_timeout |}.

(** No [SUMSUB_WEBHOOK_SECRET] in the environment. *)
Definition env_no_secret : Env :=
  {| SUMSUB_WEBHOOK_SECRET := None;
     DEBUG_WEBHOOK := None;
     DJANGO_API_BASE_URL := Some "https://django.example";
     network := fun _ _ => reply_ok |}.

(** A freshly started process at time 1000. *)
Definition world0 : World :=
  {| verificationCache := ∅;
     console := [];
     requests := [];
     now := 1000;
     unhandledRejections := [] |}.

Definition review_completed : ReviewResult :=
  {| rr_reviewStatus := Some "completed"; rr_levelName := None; rr_rejectLabels := None |}.

(** The scenario event of the specification. *)
Definition event_reviewed : Event :=
  {| ev_type := Some "applicantReviewed";
     ev_applicantId := Some "app_1;externalUserId=user_42";
     ev_reviewResult := Some review_completed;
     ev_inspectionId := None |}.

Definition event_bogus : Event :=
  {| ev_type := Some "applicantBogus";
     ev_applicantId := Some "app_1;externalUserId=user_42";
     ev_reviewResult := None;
     ev_inspectionId := None |}.

(** An applicant identifier that stops at the marker. *)
Definition event_no_subject : Event :=
  {| ev_type := Some "applicantReviewed";
     ev_applicantId := Some "app_1;externalUserId=";
     ev_reviewResult := Some review_completed;
     ev_inspectionId := None |}.

(** The double quote, and a JSON member with a string value. *)
Definition dquote : string := String (ascii_of_nat 34) "".

Definition member (key value : string) : string :=
  dquote +:+ key +:+ dquote +:+ ":" +:+ dquote +:+ value +:+ dquote.

(** The bytes of [event_reviewed] on the wire. *)
Definition sample_body : string :=
  "{" +:+ member "type" "applicantReviewed" +:+ ","
      +:+ member "applicantId" "app_1;externalUserId=user_42" +:+ ","
      +:+ dquote +:+ "reviewResult" +:+ dquote +:+ ":{"
      +:+ member "reviewStatus" "completed" +:+ "}}".

(** A body that is not UTF-8: a brace, the byte FF, a brace. *)
Definition body_not_utf8 : string := String "{" (String (ascii_of_nat 255) "}").

(** A delivery of [event_reviewed] signed with the shared secret. *)
Definition inbound_signed : Inbound :=
  {| rawBody := sample_body;
     x_payload_digest := Some (Crypto.createHmac_sha256_hex "s3cret" sample_body);
     parsed := Some event_reviewed |}.

(** The same delivery with a digest that is not the payload's. *)
Definition inbound_forged : Inbound :=
  {| rawBody := sample_body;
     x_payload_digest := Some "deadbeef";
     parsed := Some event_reviewed |}.

(* ===================================================================== *)
(** ** Vocabulary of the statements *)
(* ===================================================================== *)

(** [m] occurs in [s] with [p] before it and [r] after it, and nowhere
      further to the left. *)
Definition first_at (m s p r : string) : Prop :=
  s = p +:+ m +:+ r /\
  forall p' r', s = p' +:+ m +:+ r' -> String.length p <= String.length p'.

(** [m] does not occur in [s]. *)
Definition absent (m s : string) : Prop :=
  forall p r, s <> p +:+ m +:+ r.

(** From [w] to [w'] the cache is untouched, and the console and the list
    of requests have only grown. *)
Definition quiet (w w' : World) : Prop :=
  verificationCache w' = verificationCache w /\
  requests w `prefix_of` requests w' /\
  console w `prefix_of` console w'.

(** Whatever the starting world and the outcome, [m] is quiet. *)
Definition is_quiet {A} (m : Js A) : Prop := forall w, quiet w (snd (m w)).

(** The POST of lines 218-230 for an event received at time [t]. *)
Definition forward1 (env : Env) (event : Event) (applicantId : string) (t : N) : Request :=
  {| url := base_url env +:+ "/kyc/webhook/sumsub/";
     body := Json1 (Client1.webhookPayload_of event applicantId t);
     timeout := Some 40000%N |}.

(** The record of lines 238-242. *)
Definition verificationData1 (event : Event) (applicantId : string) (t : N)
    (response : AxiosResponse) (processedAt : N) : Payload1.VerificationData :=
  {| Payload1.payload := Client1.webhookPayload_of event applicantId t;
     Payload1.djangoResponse := res_data response;
     Payload1.processedAt := processedAt |}.

(** The world up to the POST: two console lines and the request. *)
Definition forwarded1 (env : Env) (event : Event) (applicantId : string) (w : World) : World :=
  let p := Client1.webhookPayload_of event applicantId (now w) in
  issued env (base_url env +:+ "/kyc/webhook/sumsub/") (Json1 p) (Some 40000%N)
    (logged LOG "Forwarding webhook to Django with payload:"
            [Payload1.type p; Some applicantId; Some (Payload1.reviewStatus p)]
       (logged LOG "Processing SumSub webhook event:"
               [ev_type event; ev_applicantId event] w)).

(** The world of the [catch] block once it has logged and "stored". *)
Definition failed1 (event : Event) (applicantId : string) (msg : string) (w : World)
    : World :=
  logged WARN "Storing failed webhook for retry:" [ev_type event; Some applicantId; None]
    (logged ERROR "Webhook processing failed:" [Some msg] w).

(** The world right after the cache write of line 244 and its log line. *)
Definition stored1 (env : Env) (event : Event) (applicantId : string) (response : AxiosResponse)
    (w : World) : World :=
  let w1 := forwarded1 env event applicantId w in
  let key := Client1.externalUserId_of applicantId in
  logged LOG ("Cached verification data for " +:+ show key) []
    (cached key (Verified1 (verificationData1 event applicantId (now w) response (now w1)))
       (logged LOG "Webhook forwarded successfully. Django response:"
               [Some (res_data response)] w1)).

(** The provider types the [switch] statements name. *)
Definition known_types : list string :=
  ["applicantReviewed"; "applicantPending"; "applicantCreated"; "applicantOnHold"].

(** The POST of lines 651-657. *)
Definition forward2 (env : Env) (event : Event) (applicantId : string) : Request :=
  {| url := base_url env +:+ "webhook/";
     body := Json2 {| Payload2.type := ev_type event;
                      Payload2.applicantId := applicantId;
                      Payload2.externalUserId := Client2.externalUserId_of applicantId;
                      Payload2.reviewStatus := ev_reviewResult event ≫= rr_reviewStatus;
                      Payload2.reviewResult := ev_reviewResult event |};
     timeout := None |}.

(** The type carried by the body of a request. *)
Definition forwarded_type (rq : Request) : option string :=
  match body rq with
  | Json1 p => Payload1.type p
  | Json2 p => Payload2.type p
  | JsonEmpty | JsonResult _ => None
  end.

(** The type stored in a cache entry. *)
Definition cached_type (entry : option CacheEntry) : option string :=
  match entry with
  | Some (Verified1 v) => Payload1.type (Payload1.payload v)
  | Some (Verified2 v) => Payload2.eventType v
  | None => None
  end.

(** The [createdAt] of the first-revision record cached under [key]. *)
Definition createdAt_at (w : World) (key : option string) : option N :=
  match verificationCache w !! key with
  | Some (Verified1 v) => Some (Payload1.createdAt (Payload1.payload v))
  | _ => None
  end.

(** Whenever [m] returns, the value satisfies [P] (it may also throw). *)
Definition yields {A} (P : A -> Prop) (m : Js A) : Prop :=
  forall w, match fst (m w) with Return a => P a | Throw _ => True end.

(** [m] never throws, and the value it returns satisfies [P]. *)
Definition answers {A} (P : A -> Prop) (m : Js A) : Prop :=
  forall w, match fst (m w) with Return a => P a | Throw _ => False end.

(** The second POST of server.js (lines 338-351): the handler's result. *)
Definition forward_result (result : HandlerResult) : Request :=
  {| url := Server.DJANGO_API_BASE_URL +:+ "/kyc/webhook/sumsub/";
     body := JsonResult result;
     timeout := Some 5000%N |}.

(** The record of lines 666-673. *)
Definition verificationData2 (event : Event) (applicantId : string) (receivedAt : N)
    : Payload2.VerificationData :=
  {| Payload2.vd_applicantId := applicantId;
     Payload2.vd_externalUserId := Client2.externalUserId_of applicantId;
     Payload2.eventType := ev_type event;
     Payload2.status := or_else (ev_reviewResult event ≫= rr_reviewStatus) "unknown";
     Payload2.receivedAt := receivedAt;
     Payload2.details := event |}.

(* ===================================================================== *)
(** ** SumsubApiClient.js: the provider API (lines 17-138 and 393-440) *)
(* ===================================================================== *)

(** The functions that talk to the provider keep their own record of what
    they did: the state is the module's [verificationCache], the console,
    the [fetch] calls made so far and the clock.  They throw errors that
    carry [status] and [response], so the monad is stated once for any state
    and any kind of error. *)
Inductive Outcome (E A : Type) :=
| Ok (a : A)
| Raise (e : E).
Arguments Ok {E A} a.
Arguments Raise {E A} e.

Definition Run (S E A : Type) : Type := S -> Outcome E A * S.

Definition run_ret {S E A} (a : A) : Run S E A := fun w => (Ok a, w).

Definition run_throw {S E A} (e : E) : Run S E A := fun w => (Raise e, w).

Definition run_bind {S E A B} (m : Run S E A) (k : A -> Run S E B) : Run S E B :=
  fun w => match m w with
           | (Ok a, w') => k a w'
           | (Raise e, w') => (Raise e, w')
           end.

Notation "x <~ m ;; k" := (run_bind m (fun x => k))
  (at level 100, m at next level, right associativity).
Notation "m ~;; k" := (run_bind m (fun _ => k))
  (at level 100, right associativity).

(** [try { body } catch (error) { handler }] *)
Definition run_try {S E A} (body : Run S E A) (handler : E -> Run S E A) : Run S E A :=
  fun w => match body w with
           | (Ok a, w') => (Ok a, w')
           | (Raise e, w') => handler e w'
           end.

Module Api.

(** [encodeURIComponent] on the UTF-8 bytes of a string: letters, digits
    and [- _ . ! ~ * ' ( )] are kept, every other byte becomes [%XX] with
    upper-case digits. *)
Definition unreserved (c : ascii) : bool :=
  let n := nat_of_ascii c in
  ((48 <=? n) && (n <=? 57) || (65 <=? n) && (n <=? 90) || (97 <=? n) && (n <=? 122)
   || existsb (Nat.eqb n) [45; 95; 46; 33; 126; 42; 39; 40; 41])%nat.

Definition percent (c : ascii) (rest : string) : string :=
  let n := Z.of_nat (nat_of_ascii c) in
  String "%" (String (upper (Crypto.hex_digit (n / 16)))
             (String (upper (Crypto.hex_digit (n mod 16))) rest)).

Fixpoint encodeURIComponent (s : string) : string :=
  match s with
  | EmptyString => EmptyString
  | String c s' =>
      if unreserved c then String c (encodeURIComponent s')
      else percent c (encodeURIComponent s')
  end.

(** [JSON.stringify] of a string: the quote and the backslash are escaped,
    control characters are written [\b \f \n \r \t] or [\u00XX]. *)
Definition json_escape (c : ascii) : string :=
  let n := nat_of_ascii c in
  if (n =? 34)%nat then String (ascii_of_nat 92) dquote
  else if (n =? 92)%nat then "\\"
  else if (n =? 8)%nat then "\b"
  else if (n =? 12)%nat then "\f"
  else if (n =? 10)%nat then "\n"
  else if (n =? 13)%nat then "\r"
  else if (n =? 9)%nat then "\t"
  else if (n <? 32)%nat then
    "\u00" +:+ String (Crypto.hex_digit (Z.of_nat n / 16))
                 (String (Crypto.hex_digit (Z.of_nat n mod 16)) "")
  else String c "".

Fixpoint json_chars (s : string) : string :=
  match s with
  | EmptyString => EmptyString
  | String c s' => json_escape c +:+ json_chars s'
  end.

Definition JSON_string (s : string) : string := dquote +:+ json_chars s +:+ dquote.

(** The [options] of [getWebSDKLink]: [{}] or [{lang, fixedFlow}]. *)
Record Options := {
  lang : option string;
  fixedFlow : option bool
}.

(** [{}] *)
Definition no_options : Options := {| lang := None; fixedFlow := None |}.

(** [requestBody], lines 86-89: [{externalUserId: userId, ...options}]. *)
Record RequestBody := {
  externalUserId : option string;
  options : Options
}.

Definition JSON_bool (b : bool) : string := if b then "true" else "false".

(** [JSON.stringify(requestBody)]: keys in insertion order, a key whose
    value is [undefined] left out. *)
Definition JSON_stringify (b : RequestBody) : string :=
  let member (key : string) (value : option string) : option string :=
    v ← value; Some (JSON_string key +:+ ":" +:+ v) in
  "{" +:+ String.concat ","
            (omap id [ member "externalUserId" (JSON_string <$> externalUserId b);
                       member "lang" (JSON_string <$> lang (options b));
                       member "fixedFlow" (JSON_bool <$> fixedFlow (options b)) ])
      +:+ "}".

(** A parsed response body, taken to be an object: the fields this module
    reads of it; a missing key reads [undefined]. *)
Record Json := {
  j_url : option string;
  j_reviewStatus : option string;
  j_description : option string
}.

(** A thrown error; lines 69-70 add [status] and [response] to the ones
    [sumsubRequest] makes. *)
Record ApiError := {
  e_name : string;
  e_message : string;
  e_status : option nat;
  e_response : option Json
}.

Definition new_Error (msg : string) : ApiError :=
  {| e_name := "Error"; e_message := msg; e_status := None; e_response := None |}.

(** A rejection that comes from a library (node-fetch, crypto): it has a
    name and a message, no [status] and no [response]. *)
Record Failure := { f_name : string; f_message : string }.

Definition library_error (f : Failure) : ApiError :=
  {| e_name := f_name f; e_message := f_message f;
     e_status := None; e_response := None |}.

(** The headers [createSignature] returns ([Accept] and [Content-Type] are
    the constant 'application/json'). *)
Record Headers := {
  X_App_Access_Ts : N;
  X_App_Access_Sig : string;
  X_App_Token : option string
}.

(** A [fetch(fullUrl, options)] call. *)
Record Call := {
  c_url : string;
  c_method : string;
  c_headers : Headers;
  c_body : option string;
  c_timeout : N
}.

(** What [response.json()] gives: the parsed body, or a rejection when the
    body is not JSON. *)
Inductive Parsed :=
| IsJson (j : Json)
| NotJson (failure : Failure).

(** A response of node-fetch: its status, its [url], its body. *)
Record Response := {
  r_status : nat;
  r_url : string;
  r_json : Parsed
}.

Inductive Fetched :=
| Responded (r : Response)
| Unreachable (failure : Failure).

(** How the provider answers: the promise of [fetch] settles after [took]
    milliseconds, with a response of any status or with a rejection (no
    connection, a timeout). *)
Record Reply := { took : N; fetched : Fetched }.

(** The configuration read at lines 9-11, and the provider: the k-th call
    (counting from 0) gets the reply [provider k call]. *)
Record Env := {
  SUMSUB_APP_TOKEN : option string;
  SUMSUB_SECRET_KEY : option string;
  SUMSUB_BASE_URL : option string;
  provider : nat -> Call -> Reply
}.

(** A value of [verificationCache]: what a webhook handler stored, what
    [getWebSDKLink] stores (with [status: 'pending']), or an entry
    [checkUserStatus] has spread and given a new [status] and
    [lastChecked]. *)
Inductive Cached :=
| Webhook (e : CacheEntry)
| Link (url : option string) (createdAt : N) (levelName : option string)
| Checked (base : Cached) (status : string) (lastChecked : N).

(** [{...entry, status, lastChecked}]: the two keys are overwritten when
    the entry has them already. *)
Definition restamp (entry : Cached) (status : string) (lastChecked : N) : Cached :=
  match entry with
  | Checked base _ _ => Checked base status lastChecked
  | _ => Checked entry status lastChecked
  end.

(** [entry.status] *)
Definition status_of (entry : Cached) : option string :=
  match entry with
  | Webhook (Verified1 _) => None
  | Webhook (Verified2 v) => Some (Payload2.status v)
  | Link _ _ _ => Some "pending"
  | Checked _ s _ => Some s
  end.

Record State := {
  verificationCache : gmap (option string) Cached;
  console : list LogLine;          (* oldest first *)
  fetches : list Call;             (* oldest first *)
  clock : N
}.

Definition Io : Type -> Type := Run State ApiError.

Definition console_emit (lvl : Level) (msg : string) (vals : list (option string))
    : Io unit :=
  fun w => (Ok tt, {| verificationCache := verificationCache w;
                      console := console w ++ [ {| level := lvl; text := msg;
                                                   fields := vals |} ];
                      fetches := fetches w;
                      clock := clock w |}).

Definition console_log := console_emit LOG.
Definition console_error := console_emit ERROR.

(** [Date.now()], [new Date()] *)
Definition Date_now : Io N := fun w => (Ok (clock w), w).

(** [verificationCache.set(key, value)] *)
Definition cache_set (key : option string) (value : Cached) : Io unit :=
  fun w => (Ok tt, {| verificationCache := <[ key := value ]> (verificationCache w);
                      console := console w;
                      fetches := fetches w;
                      clock := clock w |}).

(** [verificationCache.delete(key)] *)
Definition cache_delete (key : option string) : Io unit :=
  fun w => (Ok tt, {| verificationCache := delete key (verificationCache w);
                      console := console w;
                      fetches := fetches w;
                      clock := clock w |}).

(** [verificationCache.get(key)], [undefined] when there is none. *)
Definition cache_get (key : option string) : Io (option Cached) :=
  fun w => (Ok (verificationCache w !! key), w).

(** The state once a call has been made and its promise has settled. *)
Definition called (env : Env) (c : Call) (w : State) : State :=
  {| verificationCache := verificationCache w;
     console := console w;
     fetches := fetches w ++ [c];
     clock := (clock w + took (provider env (length (fetches w)) c))%N |}.

(** [await fetch(fullUrl, options)] *)
Definition fetch (env : Env) (c : Call) : Io Response :=
  fun w => (match fetched (provider env (length (fetches w)) c) with
            | Responded r => Ok r
            | Unreachable f => Raise (library_error f)
            end, called env c w).

(** [response.ok] *)
Definition ok (r : Response) : bool := ((200 <=? r_status r) && (r_status r <? 300))%nat.

(** [await response.json()] *)
Definition json (r : Response) : Io Json :=
  match r_json r with
  | IsJson j => run_ret j
  | NotJson f => run_throw (library_error f)
  end.

(** [await response.text()] at line 65, where [response.json()] has just
    failed: node-fetch hands a body out once, and [json()] has taken it, so
    this second read is rejected. *)
Definition text_after_json (r : Response) : Io string :=
  run_throw (library_error {| f_name := "TypeError";
                               f_message := "body used already for: " +:+ r_url r |}).

(** [crypto.createHmac('sha256', key)] with [key] undefined. *)
Definition invalid_key : ApiError :=
  library_error
    {| f_name := "TypeError";
       f_message := "The " +:+ dquote +:+ "key" +:+ dquote
                      +:+ " argument must be of type string or an instance of ArrayBuffer, Buffer, TypedArray, DataView, KeyObject, or CryptoKey. Received undefined" |}.

Section WithEnv.
Variable env : Env.

(** Lines 17-35.  No caller passes a [FormData], so [data] is a request
    body or [null]; the two [update] calls sign the concatenation. *)
Definition createSignature (url method : string) (data : option RequestBody) : Io Headers :=
  now <~ Date_now ;;
  let ts := (now / 1000)%N in
  match SUMSUB_SECRET_KEY env with
  | None => run_throw invalid_key
  | Some key =>
      let signed := pretty ts +:+ toUpperCase method +:+ url
                      +:+ match data with
                          | Some d => JSON_stringify d
                          | None => ""
                          end in
      run_ret {| X_App_Access_Ts := ts;
                 X_App_Access_Sig := Crypto.createHmac_sha256_hex key signed;
                 X_App_Token := SUMSUB_APP_TOKEN env |}
  end.

(** Lines 37-82. *)
Definition sumsubRequest (url method : string) (body : option RequestBody) : Io Json :=
  if falsy (Some url) then run_throw (new_Error "Request URL cannot be empty")
  else
    headers <~ createSignature url method body ;;
    let options (fullUrl : string) : Call :=
      {| c_url := fullUrl; c_method := method; c_headers := headers;
         c_body := JSON_stringify <$> body; c_timeout := 15000 |} in
    run_try
      (let fullUrl := show (SUMSUB_BASE_URL env) +:+ url in
       console_log ("Making SumSub request to: " +:+ method +:+ " " +:+ fullUrl) [] ~;;
       response <~ fetch env (options fullUrl) ;;
       if negb (ok response) then
         errorData <~ run_try (json response)
                        (fun e => description <~ text_after_json response ;;
                                  run_ret {| j_url := None; j_reviewStatus := None;
                                             j_description := Some description |}) ;;
         run_throw {| e_name := "Error";
                      e_message := "Sumsub API error: " +:+ pretty (r_status response)
                                     +:+ " - "
                                     +:+ or_else (j_description errorData) "Unknown error";
                      e_status := Some (r_status response);
                      e_response := Some errorData |}
       else json response)
      (fun error =>
         console_error ("Sumsub API request failed: " +:+ method +:+ " " +:+ url)
                       [Some (e_message error)] ~;;
         run_throw error).

(** Lines 84-103. *)
Definition getWebSDKLink (levelName userId : option string) (options : Options) : Io Json :=
  let url := "/resources/sdkIntegrations/levels/"
               +:+ encodeURIComponent (show levelName) +:+ "/websdkLink" in
  let requestBody := {| externalUserId := userId; options := options |} in
  console_log ("Creating WebSDK link for " +:+ show userId +:+ " with level "
                 +:+ show levelName) [] ~;;
  response <~ sumsubRequest url "POST" (Some requestBody) ;;
  createdAt <~ Date_now ;;
  cache_set userId (Link (j_url response) createdAt levelName) ~;;
  run_ret response.

(** Lines 105-117. *)
Definition resetUserProfile (userId : option string) : Io Json :=
  if falsy userId then run_throw (new_Error "User ID is required for profile reset")
  else
    let url := "/resources/applicants/" +:+ encodeURIComponent (show userId) +:+ "/reset" in
    response <~ sumsubRequest url "POST" None ;;
    cache_delete userId ~;;
    run_ret response.

(** Lines 119-133. *)
Definition checkUserStatus (userId : option string) : Io Json :=
  let url := "/resources/applicants/-;externalUserId="
               +:+ encodeURIComponent (show userId) +:+ "/one" in
  response <~ sumsubRequest url "GET" None ;;
  entry <~ cache_get userId ;;
  match entry with
  | Some old =>
      lastChecked <~ Date_now ;;
      cache_set userId (restamp old (or_else (j_reviewStatus response) "unknown") lastChecked)
  | None => run_ret tt
  end ~;;
  run_ret response.

(** Lines 135-138. *)
Definition getApplicantDocs (userId : option string) : Io Json :=
  let url := "/resources/applicants/-;externalUserId="
               +:+ encodeURIComponent (show userId) +:+ "/requiredIdDocsStatus" in
  sumsubRequest url "GET" None.

(** Lines 393-407. *)
Definition generate (userId levelName : option string) : Io (option string) :=
  let levelName := default_param levelName (Some "kyc_verification") in
  run_try
    (let externalUserId := Some ("user_" +:+ show userId) in
     response <~ getWebSDKLink levelName externalUserId
                   {| lang := Some "en"; fixedFlow := Some true |} ;;
     run_ret (j_url response))
    (fun error =>
       console_error "Error generating verification link:" [Some (e_message error)] ~;;
       run_throw error).

(** Lines 409-427. *)
Definition reGenerate (userId levelName : option string) : Io (option string) :=
  let levelName := default_param levelName (Some "kyc_verification") in
  run_try
    (if falsy userId then run_throw (new_Error "User ID is required for regeneration")
     else
       console_log ("Attempting to regenerate verification for user: " +:+ show userId) [] ~;;
       resetUserProfile userId ~;;
       response <~ getWebSDKLink levelName userId no_options ;;
       run_ret (j_url response))
    (fun error =>
       console_error "Error regenerating verification link:" [Some (e_message error)] ~;;
       run_throw error).

(** Lines 430-435: the cached entry, or the provider's answer. *)
Definition getVerificationStatus (userId : option string) : Io (Cached + Json) :=
  entry <~ cache_get userId ;;
  match entry with
  | Some c => run_ret (inl c)
  | None => response <~ checkUserStatus userId ;; run_ret (inr response)
  end.

(** Lines 437-440. *)
Definition getVerificationHistory (userId : option string) : Io Json :=
  let url := "/resources/applicants/-;externalUserId="
               +:+ encodeURIComponent (show userId) +:+ "/status" in
  sumsubRequest url "GET" None.

End WithEnv.
End Api.

(* ===================================================================== *)
(** ** The smaller server: the link routes (lines 64-85) *)
(* ===================================================================== *)

Module Links2.

(** What a link route sends back: [res.json({ url })], or
    [res.status(500).json({ error: error.message })]. *)
Inductive LinkAnswer :=
| LinkUrl (url : option string)
| LinkError (status : nat) (error : string).

Section WithClient.
(** The [generate] and [reGenerate] the server imports. *)
Variable generate reGenerate : option string -> option string -> Api.Io (option string).

(** Lines 64-73; [userId] and [levelName] are the members of [req.body],
    [undefined] when the body has none. *)
Definition generate_sumsub_link (userId levelName : option string) : Api.Io LinkAnswer :=
  run_try
    (url <~ generate userId levelName ;;
     run_ret (LinkUrl url))
    (fun error =>
       Api.console_error "Error generating SumSub link:" [Some (Api.e_message error)] ~;;
       run_ret (LinkError 500 (Api.e_message error))).

(** Lines 75-84. *)
Definition regenerate_sumsub_link (userId levelName : option string) : Api.Io LinkAnswer :=
  run_try
    (url <~ reGenerate userId levelName ;;
     run_ret (LinkUrl url))
    (fun error =>
       Api.console_error "Error regenerating SumSub link:" [Some (Api.e_message error)] ~;;
       run_ret (LinkError 500 (Api.e_message error))).

End WithClient.
End Links2.

(* ===================================================================== *)
(** ** server.js: authentication, the admin routes, the health check *)
(* ===================================================================== *)

Module Gateway.

(** An [axios.get(url, {headers: {Authorization}, timeout})] call. *)
Record Get := {
  g_url : string;
  g_authorization : option string;
  g_timeout : option N
}.

(** The environment these routes read, and Django: the k-th GET (counting
    from 0) is settled with the reply [django k get], unless it sets no
    timeout and [unanswered k get] holds: Django then never answers, and the
    promise of axios never settles.  A GET that sets a timeout is always
    settled: when no answer comes in time axios rejects it, and that
    rejection is its reply. *)
Record Env := {
  DJANGO_ADMIN_TOKEN : option string;
  NODE_ENV : option string;
  SUMSUB_WEBHOOK_SECRET : option string;
  django : nat -> Get -> Reply;
  unanswered : nat -> Get -> bool
}.

(** A value of the server's own [verificationCache] (line 276). *)
Record Entry := { data : string; timestamp : N }.

Record State := {
  verificationCache : gmap string Entry;
  console : list LogLine;          (* oldest first *)
  gets : list Get;                 (* oldest first *)
  clock : N
}.

(** Why the code of a route stops short: an error is thrown, or a promise
    it awaits never settles. *)
Inductive Halt :=
| Thrown (e : JsError)
| Pending.

Definition Web : Type -> Type := Run State Halt.

(** [throw error] *)
Definition throw {A} (e : JsError) : Web A := run_throw (Thrown e).

(** [try { body } catch (error) { handler }]: a promise that never settles
    throws nothing, and the handler is not run. *)
Definition try_catch {A} (body : Web A) (handler : JsError -> Web A) : Web A :=
  run_try body (fun h => match h with
                         | Thrown e => handler e
                         | Pending => run_throw Pending
                         end).

(** What a route sends: Django's data as it came ([res.json(data)]); an
    [{error, details}] object; the object of line 385, which is made of
    Django's error data; the two objects of the health check. *)
Inductive Content :=
| Payload (data : string)
| Problem (error : string) (details : option string)
| Relayed (data : string)
| Health (django webhook cache : string)
| Degraded (error : string).

Record Answer := { status : nat; content : Content }.

(** What a middleware does: it lets the request through, with what it has
    attached to it, or it answers. *)
Inductive Verdict :=
| Next (attached : string)
| Stop (a : Answer).

Definition console_error (msg : string) (vals : list (option string)) : Web unit :=
  fun w => (Ok tt, {| verificationCache := verificationCache w;
                      console := console w ++ [ {| level := ERROR; text := msg;
                                                   fields := vals |} ];
                      gets := gets w;
                      clock := clock w |}).

(** [Date.now()] *)
Definition Date_now : Web N := fun w => (Ok (clock w), w).

(** [verificationCache.get(key)], [undefined] when there is none. *)
Definition cache_get (key : string) : Web (option Entry) :=
  fun w => (Ok (verificationCache w !! key), w).

(** [verificationCache.set(key, value)] *)
Definition cache_set (key : string) (value : Entry) : Web unit :=
  fun w => (Ok tt, {| verificationCache := <[ key := value ]> (verificationCache w);
                      console := console w;
                      gets := gets w;
                      clock := clock w |}).

(** [verificationCache.size] *)
Definition cache_size : Web nat := fun w => (Ok (size (verificationCache w)), w).

(** The state once a GET has been issued and its promise has settled. *)
Definition asked (env : Env) (g : Get) (w : State) : State :=
  {| verificationCache := verificationCache w;
     console := console w;
     gets := gets w ++ [g];
     clock := (clock w + elapsed (django env (length (gets w)) g))%N |}.

(** The state once a GET has been issued that is never settled. *)
Definition left_waiting (g : Get) (w : State) : State :=
  {| verificationCache := verificationCache w;
     console := console w;
     gets := gets w ++ [g];
     clock := clock w |}.

(** Whether the k-th GET is one that never settles. *)
Definition never_settles (env : Env) (k : nat) (g : Get) : bool :=
  match g_timeout g with
  | None => unanswered env k g
  | Some _ => false
  end.

(** [await axios.get(url, config)]: a rejection is thrown; without a
    timeout the wait may never end. *)
Definition axios_get (env : Env) (u : string) (authorization : option string)
    (t : option N) : Web AxiosResponse :=
  fun w =>
    let g := {| g_url := u; g_authorization := authorization; g_timeout := t |} in
    if never_settles env (length (gets w)) g then (Raise Pending, left_waiting g w)
    else
      (match settled (django env (length (gets w)) g) with
       | Fulfilled r => Ok r
       | Rejected msg r =>
           Raise (Thrown {| name := Error; message := msg; err_response := r |})
       end, asked env g w).

(** [authHeader?.startsWith('Bearer ')] negated: [undefined] has no
    method to call and [!undefined] holds. *)
Definition no_bearer (authHeader : option string) : bool :=
  match authHeader with
  | Some h => negb (JsString.startsWith "Bearer " h)
  | None => true
  end.

Definition unauthorized (details : string) : Answer :=
  {| status := 401; content := Problem "Unauthorized" (Some details) |}.

(** The second copy of the server, lines 15-34: the middleware looks at
    the header only, and attaches the token. *)
Definition authenticateUser_local (authorization : option string) : Verdict :=
  let authHeader := authorization in
  if no_bearer authHeader then
    Stop (unauthorized "Missing or invalid Authorization header")
  else
    let token := JsString.split " " (show authHeader) !! 1%nat in
    if falsy token then Stop (unauthorized "No access token provided")
    else Next (show token).

Section WithEnv.
Variable env : Env.

(** server.js, lines 15-47: the token is checked with Django; what is
    attached to the request is read off the data of Django's answer. *)
Definition authenticateUser (authorization : option string) : Web Verdict :=
  try_catch
    (let authHeader := authorization in
     if no_bearer authHeader then
       run_ret (Stop (unauthorized "Missing or invalid Authorization header"))
     else
       let token := JsString.split " " (show authHeader) !! 1%nat in
       response <~ axios_get env "https://cheetahx.onrender.com/api/auth/validate-token/"
                     (Some ("Bearer " +:+ show token)) None ;;
       if negb (res_status response =? 200)%nat then throw (new_Error "Invalid token")
       else run_ret (Next (res_data response)))
    (fun error =>
       console_error "Authentication error:" [Some (message error)] ~;;
       run_ret (Stop (unauthorized "Invalid or expired token"))).

(** Lines 373-395. *)
Definition handleDjangoError (error : JsError) (context : string) : Web Answer :=
  console_error ("Error " +:+ context +:+ ":")
    [Some (message error); pretty <$> (res_status <$> err_response error);
     res_data <$> err_response error] ~;;
  match err_response error with
  | Some response =>
      let statusCode := res_status response in
      if (statusCode =? 404)%nat then
        run_ret {| status := 404; content := Problem "Not found" None |}
      else
        run_ret {| status := statusCode; content := Relayed (res_data response) |}
  | None =>
      run_ret {| status := 500;
                 content := Problem "Internal server error"
                              (if bool_decide (NODE_ENV env = Some "development")
                               then Some (message error) else None) |}
  end.

(** [Date.now() - cached.timestamp < 30000] *)
Definition fresh (now : N) (cached : Entry) : bool :=
  (Z.of_N now - Z.of_N (timestamp cached) <? 30000)%Z.

(** Lines 282-300 and, with another key and another URL, 311-329: a cached
    answer younger than 30 seconds is sent again; otherwise Django is asked,
    and its answer is cached with the time it came in and sent. *)
Definition through_cache (cacheKey url : string) : Web Answer :=
  let ask : Web Answer :=
    response <~ axios_get env url (Some ("Bearer " +:+ show (DJANGO_ADMIN_TOKEN env))) None ;;
    now <~ Date_now ;;
    cache_set cacheKey {| data := res_data response; timestamp := now |} ~;;
    run_ret {| status := 200; content := Payload (res_data response) |} in
  entry <~ cache_get cacheKey ;;
  match entry with
  | Some cached =>
      now <~ Date_now ;;
      if fresh now cached
      then run_ret {| status := 200; content := Payload (data cached) |}
      else ask
  | None => ask
  end.

(** GET /admin/verifications, lines 278-304. *)
Definition admin_verifications : Web Answer :=
  try_catch
    (through_cache "all_verifications"
       (Server.DJANGO_API_BASE_URL +:+ "/kyc/verifications/"))
    (fun error => handleDjangoError error "fetching verifications").

(** GET /admin/verifications/:userId, lines 306-333. *)
Definition admin_verification (userId : string) : Web Answer :=
  try_catch
    (through_cache ("verification_" +:+ userId)
       (Server.DJANGO_API_BASE_URL +:+ "/kyc/verifications/" +:+ userId +:+ "/"))
    (fun error => handleDjangoError error "fetching verification").

(** GET /health, lines 400-421; [uptime] is left out of the answer. *)
Definition health : Web Answer :=
  try_catch
    (djangoHealth <~ try_catch
                       (response <~ axios_get env
                                      (Server.DJANGO_API_BASE_URL +:+ "/kyc/health/")
                                      None (Some 3000%N) ;;
                        run_ret (res_status response))
                       (fun _ => run_ret 503) ;;
     entries <~ cache_size ;;
     run_ret {| status := 200;
                content := Health
                             (if (djangoHealth =? 200)%nat then "healthy" else "unavailable")
                             (if falsy (SUMSUB_WEBHOOK_SECRET env)
                              then "not_configured" else "configured")
                             (if (0 <? entries)%nat then "active" else "inactive") |})
    (fun error =>
       run_ret {| status := 503; content := Degraded (message error) |}).

End WithEnv.
End Gateway.

(* ===================================================================== *)
(** ** Vocabulary of the statements on the provider API and on server.js *)
(* ===================================================================== *)

(** The text [createSignature] signs for a call: the time stamp, the
    method in upper case, the path, and the body when there is one. *)
Definition signed_text (ts : N) (method path : string) (body : option string) : string :=
  pretty ts +:+ toUpperCase method +:+ path +:+ default "" body.

(** Every character of [s] satisfies [p]. *)
Fixpoint all_chars (p : ascii -> bool) (s : string) : bool :=
  match s with
  | EmptyString => true
  | String c s' => p c && all_chars p s'
  end.

(** The key under which [generate] caches the link of [userId]. *)
Definition generated_key (userId : option string) : option string :=
  Some ("user_" +:+ show userId).

(** The call [sumsubRequest] makes from state [w] when the secret is
    [key]: lines 43-52 and 55. *)
Definition call_of (env : Api.Env) (key url method : string)
    (body : option Api.RequestBody) (w : Api.State) : Api.Call :=
  let sent := Api.JSON_stringify <$> body in
  let ts := (Api.clock w / 1000)%N in
  {| Api.c_url := show (Api.SUMSUB_BASE_URL env) +:+ url;
     Api.c_method := method;
     Api.c_headers :=
       {| Api.X_App_Access_Ts := ts;
          Api.X_App_Access_Sig :=
            Crypto.createHmac_sha256_hex key (signed_text ts method url sent);
          Api.X_App_Token := Api.SUMSUB_APP_TOKEN env |};
     Api.c_body := sent;
     Api.c_timeout := 15000 |}.

(** [m] throws from [w] without a call to the provider and without a
    change to the cache. *)
Definition refused {A} (m : Api.Io A) (w : Api.State) : Prop :=
  (exists e, fst (m w) = Raise e) /\
  Api.fetches (snd (m w)) = Api.fetches w /\
  Api.verificationCache (snd (m w)) = Api.verificationCache w.

(** The level a link is made for when the caller names [levelName]. *)
Definition level_of (levelName : option string) : option string :=
  default_param levelName (Some "kyc_verification").

(** The paths of the reset and of the link request. *)
Definition reset_path (userId : option string) : string :=
  "/resources/applicants/" +:+ Api.encodeURIComponent (show userId) +:+ "/reset".

Definition link_path (levelName : option string) : string :=
  "/resources/sdkIntegrations/levels/" +:+ Api.encodeURIComponent (show levelName)
    +:+ "/websdkLink".

(** The byte two upper-case hexadecimal digits stand for. *)
Definition from_hex (hi lo : ascii) : ascii :=
  let value (d : ascii) : nat :=
    let n := nat_of_ascii d in
    if (n <=? 57)%nat then n - 48 else n - 55 in
  ascii_of_nat (16 * value hi + value lo).

(** A character [encodeURIComponent] may put out: an unreserved one, or
    the percent sign. *)
Definition url_safe (c : ascii) : bool := Api.unreserved c || Ascii.eqb c "%".


(** The cache key of GET /admin/verifications/:userId. *)
Definition verification_key (userId : string) : string := "verification_" +:+ userId.

(** The GET an admin route makes for [url]. *)
Definition admin_get (env : Gateway.Env) (url : string) : Gateway.Get :=
  {| Gateway.g_url := url;
     Gateway.g_authorization := Some ("Bearer " +:+ show (Gateway.DJANGO_ADMIN_TOKEN env));
     Gateway.g_timeout := None |}.

(** The status [handleDjangoError] answers with for a rejection that
    carries [response]. *)
Definition relayed_status (response : option AxiosResponse) : nat :=
  match response with
  | Some r => res_status r
  | None => 500
  end.

(** [a] is Django's data, sent with status 200. *)
Definition sends (a : Gateway.Answer) (d : string) : Prop :=
  a = {| Gateway.status := 200; Gateway.content := Gateway.Payload d |}.

(** The shape the two admin routes share: the cache in front of Django,
    and [handleDjangoError] behind it. *)
Definition admin_route (env : Gateway.Env) (key url context : string)
    : Gateway.Web Gateway.Answer :=
  Gateway.try_catch (Gateway.through_cache env key url)
    (fun error => Gateway.handleDjangoError env error context).

(* ===================================================================== *)
(** ** Sample inputs for the provider API *)
(* ===================================================================== *)

(** The body of a link answer. *)
Definition link_json : Api.Json :=
  {| Api.j_url := Some "https://in.sumsub.com/websdk/p/abc";
     Api.j_reviewStatus := None;
     Api.j_description := None |}.

(** The body of an error answer. *)
Definition error_json : Api.Json :=
  {| Api.j_url := None;
     Api.j_reviewStatus := None;
     Api.j_description := Some "Applicant not found" |}.

(** An answer with [status] and [body] after 120 ms. *)
Definition answer (status : nat) (body : Api.Parsed) : Api.Reply :=
  {| Api.took := 120;
     Api.fetched := Api.Responded {| Api.r_status := status;
                                     Api.r_url := "https://api.sumsub.com/";
                                     Api.r_json := body |} |}.

(** A gateway's 502 page: not JSON. *)
Definition bad_gateway : Api.Reply :=
  answer 502 (Api.NotJson {| Api.f_name := "FetchError";
                             Api.f_message := "invalid json response body" |}).

(** A provider that answers every call with a link. *)
Definition api_up : Api.Env :=
  {| Api.SUMSUB_APP_TOKEN := Some "t0ken";
     Api.SUMSUB_SECRET_KEY := Some "k3y";
     Api.SUMSUB_BASE_URL := Some "https://api.sumsub.com";
     Api.provider := fun _ _ => answer 200 (Api.IsJson link_json) |}.

(** A provider that answers the first call and is behind a failing gateway
    from then on. *)
Definition api_flaky : Api.Env :=
  {| Api.SUMSUB_APP_TOKEN := Some "t0ken";
     Api.SUMSUB_SECRET_KEY := Some "k3y";
     Api.SUMSUB_BASE_URL := Some "https://api.sumsub.com";
     Api.provider := fun k _ => match k with
                                | 0 => answer 200 (Api.IsJson link_json)
                                | _ => bad_gateway
                                end |}.

(** A provider that knows no applicant. *)
Definition api_404 : Api.Env :=
  {| Api.SUMSUB_APP_TOKEN := Some "t0ken";
     Api.SUMSUB_SECRET_KEY := Some "k3y";
     Api.SUMSUB_BASE_URL := Some "https://api.sumsub.com";
     Api.provider := fun _ _ => answer 404 (Api.IsJson error_json) |}.

(** No [SUMSUB_SECRET_KEY] in the environment. *)
Definition api_no_key : Api.Env :=
  {| Api.SUMSUB_APP_TOKEN := Some "t0ken";
     Api.SUMSUB_SECRET_KEY := None;
     Api.SUMSUB_BASE_URL := Some "https://api.sumsub.com";
     Api.provider := fun _ _ => answer 200 (Api.IsJson link_json) |}.

(** A freshly started process. *)
Definition state0 : Api.State :=
  {| Api.verificationCache := ∅;
     Api.console := [];
     Api.fetches := [];
     Api.clock := 1700000000123 |}.

(** A process that has a link for user 42 in its cache. *)
Definition state_linked : Api.State :=
  {| Api.verificationCache :=
       {[ Some "42" := Api.Link (Some "https://in.sumsub.com/websdk/p/old") 1700000000000
                         (Some "kyc_verification") ]};
     Api.console := [];
     Api.fetches := [];
     Api.clock := 1700000000123 |}.

(** Django answers every GET with the same list after 30 ms. *)
Definition gateway_up : Gateway.Env :=
  {| Gateway.DJANGO_ADMIN_TOKEN := Some "adm1n";
     Gateway.NODE_ENV := None;
     Gateway.SUMSUB_WEBHOOK_SECRET := Some "s3cret";
     Gateway.django := fun _ _ =>
       {| elapsed := 30; settled := Fulfilled {| res_status := 200; res_data := "[]" |} |};
     Gateway.unanswered := fun _ _ => false |}.

(** Django answers 503 to every GET. *)
Definition gateway_503 : Gateway.Env :=
  {| Gateway.DJANGO_ADMIN_TOKEN := Some "adm1n";
     Gateway.NODE_ENV := None;
     Gateway.SUMSUB_WEBHOOK_SECRET := Some "s3cret";
     Gateway.django := fun _ _ =>
       {| elapsed := 30;
          settled := Rejected "Request failed with status code 503"
                       (Some {| res_status := 503; res_data := "down" |}) |};
     Gateway.unanswered := fun _ _ => false |}.

(** Django accepts the connection and never answers. *)
Definition gateway_silent : Gateway.Env :=
  {| Gateway.DJANGO_ADMIN_TOKEN := Some "adm1n";
     Gateway.NODE_ENV := None;
     Gateway.SUMSUB_WEBHOOK_SECRET := Some "s3cret";
     Gateway.django := fun _ g =>
       {| elapsed := default 0%N (Gateway.g_timeout g);
          settled := Rejected ("timeout of " +:+ pretty (default 0%N (Gateway.g_timeout g))
                                 +:+ "ms exceeded") None |};
     Gateway.unanswered := fun _ _ => true |}.

(** A freshly started server. *)
Definition gateway0 : Gateway.State :=
  {| Gateway.verificationCache := ∅;
     Gateway.console := [];
     Gateway.gets := [];
     Gateway.clock := 1700000000000 |}.

(* ===================================================================== *)
(** * Properties *)
(* ===================================================================== *)

(** ** Strings: [cut] finds the first occurrence, [split] is its iteration *)

Section StringFacts.
Import JsString.

Lemma append_length (a b : string) :
  String.length (a +:+ b) = (String.length a + String.length b)%nat.
Proof. induction a as [|c a IH]; simpl; [reflexivity | now rewrite IH]. Qed.

Lemma append_cons (x : ascii) (a b : string) :
  String x a +:+ b = String x (a +:+ b).
Proof. reflexivity. Qed.

Lemma append_assoc (a b c : string) : (a +:+ b) +:+ c = a +:+ (b +:+ c).
Proof.
    induction a as [|x a IH]; [reflexivity|].
    now rewrite !append_cons, IH.
Qed.

Lemma append_empty_r (a : string) : a +:+ "" = a.
Proof.
    induction a as [|x a IH]; [reflexivity|].
    now rewrite append_cons, IH.
Qed.

(** Two splittings of one string at the same position coincide. *)
Lemma append_inj_length (a a' b b' : string) :
  a +:+ b = a' +:+ b' -> String.length a = String.length a' -> a = a' /\ b = b'.
Proof.
  revert a'; induction a as [|x a IH]; intros [|y a'] E L; simpl in *;
    try discriminate; [now split|].
  injection E as -> E. injection L as L.
  destruct (IH _ E L) as [-> ->]. now split.
Qed.

Lemma startsWith_append (m r : string) : startsWith m (m +:+ r) = true.
Proof.
    induction m as [|c m IH]; simpl; [reflexivity|].
    now rewrite Ascii.eqb_refl.
Qed.

Lemma slice_append (m r : string) : slice (String.length m) (m +:+ r) = r.
Proof. induction m as [|c m IH]; simpl; [reflexivity | exact IH]. Qed.

Lemma startsWith_inv (m s : string) :
  startsWith m s = true -> s = m +:+ slice (String.length m) s.
Proof.
  revert s; induction m as [|c m IH]; intros s H; simpl in *; [reflexivity|].
  destruct s as [|d s]; [discriminate|].
  destruct (Ascii.eqb_spec c d) as [->|]; [|discriminate].
  rewrite append_cons. f_equal. now apply IH.
Qed.

Lemma startsWith_false (m s r : string) : startsWith m s = false -> s <> m +:+ r.
Proof. intros H ->. now rewrite startsWith_append in H. Qed.

(** The equation [cut] satisfies, one character at a time. *)
Lemma cut_unfold (m s : string) :
  cut m s =
    if startsWith m s then Some ("", slice (String.length m) s)
    else match s with
         | EmptyString => None
         | String c s' =>
             match cut m s' with
             | Some (p, r) => Some (String c p, r)
             | None => None
             end
         end.
Proof. destruct s; reflexivity. Qed.

Lemma cut_Some (m s p r : string) : cut m s = Some (p, r) -> first_at m s p r.
Proof.
    revert p r; induction s as [|c s IH]; intros p r; rewrite cut_unfold.
    - destruct (startsWith m "") eqn:E; [|discriminate].
      intros [= <- <-]. split; [now apply startsWith_inv | simpl; lia].
    - destruct (startsWith m (String c s)) eqn:E.
      + intros [= <- <-]. split; [now apply startsWith_inv | simpl; lia].
      + destruct (cut m s) as [[p0 r0]|] eqn:C; [|discriminate].
        intros [= <- <-]. destruct (IH _ _ eq_refl) as [-> Hmin].
        split; [reflexivity|].
        intros [|d p'] r' Heq; simpl in Heq.
        * exfalso. now apply (startsWith_false _ _ _ E Heq).
        * injection Heq as _ Heq. simpl. apply Hmin in Heq. lia.
Qed.

Lemma cut_None (m s : string) : cut m s = None -> absent m s.
Proof.
    induction s as [|c s IH]; rewrite cut_unfold.
    - destruct (startsWith m "") eqn:E; [discriminate|].
      intros _ [|d p] r Heq; simpl in Heq; [|discriminate].
      now apply (startsWith_false _ _ _ E Heq).
    - destruct (startsWith m (String c s)) eqn:E; [discriminate|].
      destruct (cut m s) as [[p0 r0]|] eqn:C; [discriminate|].
      intros _ [|d p] r Heq; simpl in Heq.
      + now apply (startsWith_false _ _ _ E Heq).
      + injection Heq as _ Heq. exact (IH eq_refl _ _ Heq).
Qed.

Lemma first_at_cut (m s p r : string) : first_at m s p r -> cut m s = Some (p, r).
Proof.
    intros [Heq Hmin]. destruct (cut m s) as [[p0 r0]|] eqn:C.
    - destruct (cut_Some _ _ _ _ C) as [Heq0 Hmin0].
      assert (L : String.length p0 = String.length p).
      { apply Nat.le_antisymm; [exact (Hmin0 _ _ Heq) | exact (Hmin _ _ Heq0)]. }
      rewrite Heq in Heq0. symmetry in Heq0.
      destruct (append_inj_length _ _ _ _ Heq0 L) as [-> Hr].
      apply String.app_inj in Hr. now subst.
    - exfalso. exact (cut_None _ _ C _ _ Heq).
Qed.

Lemma absent_cut (m s : string) : absent m s -> cut m s = None.
Proof.
    intros H. destruct (cut m s) as [[p r]|] eqn:C; [|reflexivity].
    exfalso. exact (H _ _ (proj1 (cut_Some _ _ _ _ C))).
Qed.

Lemma includes_true (m s : string) :
  includes m s = true <-> exists p r, s = p +:+ m +:+ r.
Proof.
  unfold includes. split.
  - destruct (cut m s) as [[p r]|] eqn:C; [|discriminate].
    intros _. exists p, r. exact (proj1 (cut_Some _ _ _ _ C)).
  - intros (p & r & Heq). destruct (cut m s) eqn:C; [reflexivity|].
    exfalso. exact (cut_None _ _ C _ _ Heq).
Qed.

Lemma includes_false (m s : string) : includes m s = false <-> absent m s.
Proof.
    unfold includes. split.
    - destruct (cut m s) eqn:C; [discriminate|]. intros _. now apply cut_None.
    - intros H. now rewrite (absent_cut _ _ H).
Qed.

(** The rounds given to [split_loop] are enough: more do not change it. *)
Lemma split_loop_enough (c : ascii) (m : string) (n n' : nat) (s : string) :
  String.length s <= n -> String.length s <= n' ->
  split_loop n (String c m) s = split_loop n' (String c m) s.
Proof.
  revert n' s; induction n as [|n IH]; intros n' s Hn Hn'.
  - destruct s; simpl in Hn; [|lia]. destruct n'; reflexivity.
  - destruct n' as [|n'].
    + destruct s; simpl in Hn'; [|lia]. reflexivity.
    + simpl. destruct (cut (String c m) s) as [[p r]|] eqn:C; [|reflexivity].
      f_equal. apply cut_Some in C. destruct C as [-> _].
      rewrite append_length in Hn, Hn'. simpl in Hn, Hn'.
      rewrite append_length in Hn, Hn'.
      apply IH; lia.
Qed.

(** [s.split(sep)] cuts at the first separator and splits the rest. *)
Lemma split_unfold (c : ascii) (m s : string) :
  split (String c m) s =
    match cut (String c m) s with
    | None => [s]
    | Some (p, r) => p :: split (String c m) r
    end.
Proof.
  unfold split. destruct (String.length s) as [|n] eqn:L.
  - destruct s; [|discriminate]. simpl.
    destruct (cut (String c m) "") as [[p r]|] eqn:C; [|reflexivity].
    apply cut_Some in C. destruct C as [C _]. destruct p; discriminate.
  - simpl. destruct (cut (String c m) s) as [[p r]|] eqn:C; [|reflexivity].
    f_equal. apply split_loop_enough; [|lia].
    apply cut_Some in C. destruct C as [-> _].
    rewrite append_length in L. simpl in L. rewrite append_length in L. lia.
Qed.

(** [s.split(sep)[1]]: the text between the first separator and the next
    one (or the end); [undefined] without a separator. *)
Lemma split_second (c : ascii) (m s : string) :
  split (String c m) s !! 1%nat =
    match cut (String c m) s with
    | None => None
    | Some (_, r) =>
        match cut (String c m) r with
        | None => Some r
        | Some (q, _) => Some q
        end
    end.
Proof.
  rewrite split_unfold. destruct (cut (String c m) s) as [[p r]|]; [|reflexivity].
  rewrite split_unfold. now destruct (cut (String c m) r) as [[q r']|].
Qed.

End StringFacts.


(** ** Buffers: decoding well-formed UTF-8 changes nothing *)

Section BufferFacts.

Lemma decode_well_formed (s : string) (st : option (nat * nat * nat)) :
  Buffer.well_formed st s = true ->
  match st with
  | None => Buffer.decode None s = s
  | Some (n, lo, hi) =>
      forall pre,
        Buffer.decode (Some {| Buffer.seen := pre; Buffer.needed := n;
                               Buffer.lower := lo; Buffer.upper := hi |}) s
        = pre +:+ s
  end.
Proof.
  revert st. induction s as [|c s IH]; intros [[[n lo] hi]|]; cbn [Buffer.well_formed];
    try discriminate; [reflexivity| |].
  - intros H pre. apply andb_true_iff in H as [R H].
    cbn [Buffer.decode Buffer.seen Buffer.needed Buffer.lower Buffer.upper]. rewrite R.
    destruct n as [|[|n]].
    + specialize (IH None H). cbn beta iota in IH. now rewrite IH.
    + specialize (IH None H). cbn beta iota in IH. now rewrite IH.
    + specialize (IH (Some (S n, 128, 191)) H). cbn beta iota in IH.
      rewrite IH, append_assoc. reflexivity.
  - cbn [Buffer.decode]. destruct (nat_of_ascii c <? 128)%nat.
    + intros H. specialize (IH None H). cbn beta iota in IH. now rewrite IH.
    + destruct (Buffer.lead (nat_of_ascii c)) as [[[n lo] hi]|]; [|discriminate].
      intros H. specialize (IH (Some (n, lo, hi)) H). cbn beta iota in IH.
      now rewrite IH.
Qed.

(** [toString] is the identity on well-formed UTF-8, the bytes of any
    string among them. *)
Lemma toString_utf8 (s : string) : Buffer.is_utf8 s = true -> Buffer.toString s = s.
Proof. intros H. exact (decode_well_formed s None H). Qed.

End BufferFacts.

(** ** Crypto: what the comparison needs of the digest *)

Section CryptoFacts.
Import Crypto.

(** The model against published digests: FIPS 180-4's "abc", and RFC 4231's
    test case 2 for HMAC. *)
Example sha256_abc :
  hex (sha256 (buffer_from "abc"))
  = "ba7816bf8f01cfea414140de5dae2223b00361a396177a9cb410ff61f20015ad".
Proof. vm_compute. reflexivity. Qed.

Example hmac_rfc4231_case2 :
  createHmac_sha256_hex "Jefe" "what do ya want for nothing?"
  = "5bdcc146bf60754e6a042426089575c75a003f089d2739839dec58b964ec3843".
Proof. vm_compute. reflexivity. Qed.

Example round_constants_ends :
  nth 0 K 0%Z = 0x428a2f98%Z /\ nth 63 K 0%Z = 0xc67178f2%Z /\ length K = 64%nat.
Proof. vm_compute. repeat split; reflexivity. Qed.

(** A hex digest is 64 characters, whatever was hashed. *)
Lemma hex_length (h : Hash) : String.length (hex h) = 64%nat.
Proof. destruct h. reflexivity. Qed.

Lemma buffer_from_length (s : string) : length (buffer_from s) = String.length s.
Proof. induction s as [|c s IH]; simpl; [reflexivity | now rewrite IH]. Qed.

Lemma diff_bits_same (b : list Z) (acc : Z) : diff_bits b b acc = acc.
Proof.
  revert acc; induction b as [|x b IH]; intros acc; simpl; [reflexivity|].
  now rewrite Z.lxor_nilpotent, Z.lor_0_r.
Qed.

Lemma timingSafeEqual_refl (b : list Z) : timingSafeEqual b b = true.
Proof. unfold timingSafeEqual. now rewrite diff_bits_same. Qed.

Lemma diff_bits_zero (a b : list Z) (acc : Z) :
  length a = length b -> diff_bits a b acc = 0%Z -> acc = 0%Z /\ a = b.
Proof.
  revert b acc; induction a as [|x a IH]; intros [|y b] acc L H; simpl in *;
    try discriminate; [now split|].
  injection L as L. destruct (IH _ _ L H) as [Hacc ->].
  apply Z.lor_eq_0_iff in Hacc. destruct Hacc as [-> Hxy].
  apply Z.lxor_eq in Hxy. now subst.
Qed.

(** On buffers of one length the comparison accepts equal contents only. *)
Lemma timingSafeEqual_eq (a b : list Z) :
  length a = length b -> timingSafeEqual a b = true -> a = b.
Proof.
  unfold timingSafeEqual. intros L H. apply Z.eqb_eq in H.
  exact (proj2 (diff_bits_zero _ _ _ L H)).
Qed.

Lemma buffer_from_inj (s t : string) : buffer_from s = buffer_from t -> s = t.
Proof.
  revert t; induction s as [|c s IH]; intros [|d t] H; simpl in H;
    try discriminate; [reflexivity|].
  injection H as Hc H. apply N2Z.inj in Hc.
  f_equal; [|now apply IH].
  rewrite <- (ascii_N_embedding c), <- (ascii_N_embedding d). now rewrite Hc.
Qed.

Lemma digest_truthy (key payload : string) :
  falsy (Some (createHmac_sha256_hex key payload)) = false.
Proof.
  unfold createHmac_sha256_hex. destruct (hmac_sha256 _ _). reflexivity.
Qed.


Lemma digest_length (key payload : string) :
  length (buffer_from (createHmac_sha256_hex key payload)) = 64%nat.
Proof. rewrite buffer_from_length. apply hex_length. Qed.

End CryptoFacts.

(** ** verifyWebhookSignature, case by case *)

Section VerifyFacts.
Variable env : Env.

(** No secret: a warning, and [true]. *)
Lemma verify_skipped (rawBody : string) (sig secret : option string) (w : World) :
  falsy (default_param secret (SUMSUB_WEBHOOK_SECRET env)) = true ->
  verifyWebhookSignature env rawBody sig secret w =
    (Return true, logged WARN "⚠️ Webhook verification skipped - no secret key set" [] w).
Proof. intros H. unfold verifyWebhookSignature. now rewrite H. Qed.

(** A secret but no digest header. *)
Lemma verify_missing (rawBody : string) (sig secret : option string) (w : World) :
  falsy (default_param secret (SUMSUB_WEBHOOK_SECRET env)) = false ->
  falsy sig = true ->
  verifyWebhookSignature env rawBody sig secret w =
    (Throw (new_Error "Missing x-payload-digest header"),
     logged ERROR "⚠️ Missing x-payload-digest header" [] w).
Proof. intros H1 H2. unfold verifyWebhookSignature. now rewrite H1, H2. Qed.

(** The digest of the payload, read as text, under the secret. *)
Lemma verify_match (rawBody s : string) (secret : option string) (w : World) :
  falsy (default_param secret (SUMSUB_WEBHOOK_SECRET env)) = false ->
  s = Crypto.createHmac_sha256_hex
        (show (default_param secret (SUMSUB_WEBHOOK_SECRET env)))
        (Buffer.toString rawBody) ->
  verifyWebhookSignature env rawBody (Some s) secret w = (Return true, w).
Proof.
  intros H1 ->. unfold verifyWebhookSignature. rewrite H1, digest_truthy.
  unfold try_catch. cbn [show].
  now rewrite Nat.eqb_refl, timingSafeEqual_refl.
Qed.

(** Anything else: two error lines, and the error is thrown. *)
Lemma verify_mismatch (rawBody s : string) (secret : option string) (w : World) :
  falsy (default_param secret (SUMSUB_WEBHOOK_SECRET env)) = false ->
  falsy (Some s) = false ->
  s <> Crypto.createHmac_sha256_hex
         (show (default_param secret (SUMSUB_WEBHOOK_SECRET env)))
         (Buffer.toString rawBody) ->
  verifyWebhookSignature env rawBody (Some s) secret w =
    (Throw (new_Error "Invalid webhook signature"),
     logged ERROR "Error during signature verification:" [Some "Invalid webhook signature"]
       (logged ERROR "Signature verification failed:"
          [Some s; Some (Crypto.createHmac_sha256_hex
                           (show (default_param secret (SUMSUB_WEBHOOK_SECRET env)))
                           (Buffer.toString rawBody))]
          w)).
Proof.
  intros H1 H2 Hne. unfold verifyWebhookSignature. rewrite H1, H2.
  unfold try_catch. cbn [show].
  destruct (negb _ || negb _) eqn:T; [reflexivity|].
  exfalso. apply Hne. apply orb_false_elim in T. destruct T as [T1 T2].
  apply negb_false_iff in T1, T2. apply Nat.eqb_eq in T1.
  apply buffer_from_inj. now apply timingSafeEqual_eq.
Qed.

End VerifyFacts.

(** ** The monad, one step at a time *)

Lemma bind_Return {A B} (m : Js A) (k : A -> Js B) (w w' : World) (a : A) :
  m w = (Return a, w') -> bind m k w = k a w'.
Proof. intros H. unfold bind. now rewrite H. Qed.

Lemma bind_Throw {A B} (m : Js A) (k : A -> Js B) (w w' : World) (e : JsError) :
  m w = (Throw e, w') -> bind m k w = (Throw e, w').
Proof. intros H. unfold bind. now rewrite H. Qed.

Lemma try_catch_Return {A} (m : Js A) (h : JsError -> Js A) (w w' : World) (a : A) :
  m w = (Return a, w') -> try_catch m h w = (Return a, w').
Proof. intros H. unfold try_catch. now rewrite H. Qed.

Lemma try_catch_Throw {A} (m : Js A) (h : JsError -> Js A) (w w' : World) (e : JsError) :
  m w = (Throw e, w') -> try_catch m h w = h e w'.
Proof. intros H. unfold try_catch. now rewrite H. Qed.

(** ** Frames: code that never writes the cache *)

Lemma quiet_refl (w : World) : quiet w w.
Proof. repeat split; reflexivity. Qed.

Lemma quiet_trans (a b c : World) : quiet a b -> quiet b c -> quiet a c.
Proof.
  intros (C1 & R1 & L1) (C2 & R2 & L2). repeat split.
  - now rewrite C2.
  - now transitivity (requests b).
  - now transitivity (console b).
Qed.

Create HintDb quiet.

Lemma quiet_ret {A} (a : A) : is_quiet (ret a).
Proof. intros w. apply quiet_refl. Qed.

Lemma quiet_throw {A} (e : JsError) : is_quiet (@throw A e).
Proof. intros w. apply quiet_refl. Qed.

Lemma quiet_bind {A B} (m : Js A) (k : A -> Js B) :
  is_quiet m -> (forall a, is_quiet (k a)) -> is_quiet (bind m k).
Proof.
  intros Hm Hk w. unfold bind. specialize (Hm w).
  destruct (m w) as [[a|e] w1]; simpl in *; [|exact Hm].
  exact (quiet_trans _ _ _ Hm (Hk a w1)).
Qed.

Lemma quiet_try_catch {A} (m : Js A) (h : JsError -> Js A) :
  is_quiet m -> (forall e, is_quiet (h e)) -> is_quiet (try_catch m h).
Proof.
  intros Hm Hh w. unfold try_catch. specialize (Hm w).
  destruct (m w) as [[a|e] w1]; simpl in *; [exact Hm|].
  exact (quiet_trans _ _ _ Hm (Hh e w1)).
Qed.

Lemma quiet_console_emit (lvl : Level) (msg : string) (vals : list (option string)) :
  is_quiet (console_emit lvl msg vals).
Proof.
  intros w. repeat split; simpl; [reflexivity|]. now apply prefix_app_r.
Qed.

Lemma quiet_Date_now : is_quiet Date_now.
Proof. intros w. apply quiet_refl. Qed.

Lemma quiet_axios_post (env : Env) (u : string) (b : Body) (t : option N) :
  is_quiet (axios_post env u b t).
Proof.
  intros w. repeat split; simpl; try reflexivity; now apply prefix_app_r.
Qed.

Lemma quiet_receiver (x : option string) (method : string) : is_quiet (receiver x method).
Proof. destruct x; [apply quiet_ret | apply quiet_throw]. Qed.

Lemma quiet_not_defined {A} (f : string) : is_quiet (@not_defined A f).
Proof. apply quiet_throw. Qed.

Lemma quiet_if {A} (b : bool) (m1 m2 : Js A) :
  is_quiet m1 -> is_quiet m2 -> is_quiet (if b then m1 else m2).
Proof. now destruct b. Qed.

#[local] Hint Resolve quiet_ret quiet_throw quiet_console_emit quiet_Date_now
  quiet_axios_post quiet_receiver quiet_not_defined : quiet.

(** Walks the syntax of a computation built from the pieces above. *)
Ltac quiet_walk :=
  repeat first
    [ progress intros
    | apply quiet_bind
    | apply quiet_try_catch
    | apply quiet_if
    | solve [ unfold console_log, console_warn, console_error; auto with quiet ] ].

Lemma quiet_processWebhookEvent (env : Env) (type externalUserId reviewStatus : option string)
    (originalEvent : Event) :
  is_quiet (Client1.processWebhookEvent env type externalUserId reviewStatus originalEvent).
Proof.
  unfold Client1.processWebhookEvent, Client1.handleCompletedVerification,
    Client1.handleRejectedVerification, Client1.handleNewApplicant.
  quiet_walk.
Qed.

Lemma quiet_verifyWebhookSignature (env : Env) (rawBody : string) (sig secret : option string) :
  is_quiet (verifyWebhookSignature env rawBody sig secret).
Proof. unfold verifyWebhookSignature. quiet_walk. Qed.

(** ** handleWebhookEvent (first revision): forward, then cache *)

Section Client1Facts.
Import Payload1.
Variable env : Env.

Ltac js := cbv beta iota zeta delta
  [bind ret throw try_catch console_log console_warn console_error Date_now receiver].

Lemma handleWebhookEvent1_rejected (ev : Event) (a msg : string) (r : option AxiosResponse)
    (w : World) :
  ev_applicantId ev = Some a ->
  settled (network env (length (requests w)) (forward1 env ev a (now w))) = Rejected msg r ->
  Client1.handleWebhookEvent env ev w =
    (Throw (new_Error ("Webhook processing failed: " +:+ msg)),
     failed1 ev a msg (forwarded1 env ev a w)).
Proof.
  intros Ha Hr. unfold Client1.handleWebhookEvent, Client1.storeFailedWebhook.
  unfold failed1, forwarded1, forward1 in *.
  rewrite !Ha. js. unfold console_emit, axios_post.
  cbn [logged issued now requests fst snd] in *.
  rewrite Hr. reflexivity.
Qed.

Lemma handleWebhookEvent1_fulfilled (ev : Event) (a : string) (resp : AxiosResponse)
    (w : World) :
  ev_applicantId ev = Some a ->
  settled (network env (length (requests w)) (forward1 env ev a (now w))) = Fulfilled resp ->
  let w1 := forwarded1 env ev a w in
  let w3 := stored1 env ev a resp w in
  let vd := verificationData1 ev a (now w) resp (now w1) in
  Client1.handleWebhookEvent env ev w =
    match Client1.processWebhookEvent env (ev_type ev) (Client1.externalUserId_of a)
            (rr_reviewStatus (default empty_object (ev_reviewResult ev))) ev w3 with
    | (Return _, w4) => (Return (Processed1 (res_data resp) vd), w4)
    | (Throw e, w4) =>
        (Throw (new_Error ("Webhook processing failed: " +:+ message e)),
         failed1 ev a (message e) w4)
    end.
Proof.
  intros Ha Hr w1 w3 vd. subst w1 w3 vd.
  unfold Client1.handleWebhookEvent, Client1.storeFailedWebhook.
  unfold stored1, failed1, forwarded1, forward1, verificationData1 in *.
  rewrite !Ha. js. unfold console_emit, axios_post, cache_set.
  cbn [logged issued cached now requests fst snd] in *.
  rewrite Hr. cbn [logged issued cached now requests fst snd].
  destruct (Client1.processWebhookEvent _ _ _ _ _ _) as [[[]|e] w4]; reflexivity.
Qed.

End Client1Facts.

Section Client1Worlds.
Import Payload1.
Variable env : Env.

Lemma now_forwarded1 (ev : Event) (a : string) (w : World) :
  now (forwarded1 env ev a w)
  = (now w + elapsed (network env (length (requests w)) (forward1 env ev a (now w))))%N.
Proof. reflexivity. Qed.

Lemma requests_forwarded1 (ev : Event) (a : string) (w : World) :
  requests (forwarded1 env ev a w) = (requests w ++ [forward1 env ev a (now w)])%list.
Proof.
  reflexivity.
Qed.

Lemma cache_forwarded1 (ev : Event) (a : string) (w : World) :
  verificationCache (forwarded1 env ev a w) = verificationCache w.
Proof.
  reflexivity.
Qed.

Lemma console_forwarded1 (ev : Event) (a : string) (w : World) :
  console (forwarded1 env ev a w) =
    (console w ++
      [ {| level := LOG; text := "Processing SumSub webhook event:";
           fields := [ev_type ev; ev_applicantId ev] |};
        {| level := LOG; text := "Forwarding webhook to Django with payload:";
           fields := [ev_type ev; Some a;
                      Some (reviewStatus (Client1.webhookPayload_of ev a (now w)))] |} ])%list.
Proof.
  unfold forwarded1, issued, axios_post, logged. cbn [console_emit snd console].
  now rewrite <- app_assoc.
Qed.

(** What [handleWebhookEvent] leaves behind when the forward is fulfilled:
    the cache holds the new record, and the forward is among the requests. *)
Lemma handleWebhookEvent1_fulfilled_world (ev : Event) (a : string) (resp : AxiosResponse)
    (w : World) :
  ev_applicantId ev = Some a ->
  settled (network env (length (requests w)) (forward1 env ev a (now w))) = Fulfilled resp ->
  quiet (stored1 env ev a resp w) (snd (Client1.handleWebhookEvent env ev w)).
Proof.
  intros Ha Hr. rewrite (handleWebhookEvent1_fulfilled env ev a resp w Ha Hr).
  pose proof (quiet_processWebhookEvent env (ev_type ev) (Client1.externalUserId_of a)
                (rr_reviewStatus (default empty_object (ev_reviewResult ev))) ev
                (stored1 env ev a resp w)) as Hq.
  destruct (Client1.processWebhookEvent _ _ _ _ _ _) as [[[]|e] w4]; simpl in Hq |- *;
    [exact Hq|].
  eapply quiet_trans; [exact Hq|]. unfold failed1.
  eapply quiet_trans; apply quiet_console_emit.
Qed.

End Client1Worlds.

(** ** Unknown event types *)

(** Membership in a list written [(... ++ [x]) ++ [y]]. *)
Ltac in_tail :=
  repeat first
    [ apply elem_of_app; right; apply list_elem_of_singleton; reflexivity
    | apply elem_of_app; left ].

Section UnknownTypes.
Variable env : Env.

Lemma console_logged (lvl : Level) (msg : string) (vals : list (option string)) (w : World) :
  console (logged lvl msg vals w)
  = (console w ++ [ {| level := lvl; text := msg; fields := vals |} ])%list.
Proof. reflexivity. Qed.

Lemma unknown_type_tests (t : string) :
  t ∉ known_types ->
  String.eqb t "applicantReviewed" = false /\ String.eqb t "applicantPending" = false /\
  String.eqb t "applicantCreated" = false /\ String.eqb t "applicantOnHold" = false.
Proof.
  unfold known_types. rewrite !not_elem_of_cons. intros (H1 & H2 & H3 & H4 & _).
  now rewrite !String.eqb_neq.
Qed.

Lemma processWebhookEvent_unknown (t : string) (eid rs : option string) (ev : Event)
    (w : World) :
  t ∉ known_types ->
  Client1.processWebhookEvent env (Some t) eid rs ev w =
    (Throw {| name := ReferenceError; message := "handleUnknownEvent is not defined";
              err_response := None |},
     logged ERROR (Client1.logPrefix t eid +:+ " - Event processing failed:")
            [Some "handleUnknownEvent is not defined"]
       (logged WARN (Client1.logPrefix t eid +:+ " - Unhandled event type") []
          (logged LOG (Client1.logPrefix t eid +:+ " - Processing event") [] w))).
Proof.
  intros H. destruct (unknown_type_tests t H) as (H1 & H2 & H3 & H4).
  unfold Client1.processWebhookEvent. cbn [receiver]. unfold bind at 1. cbn [ret].
  rewrite H1, H2, H3, H4. reflexivity.
Qed.

Lemma handleWebhookEvent2_unknown (ev : Event) (a t : string) (resp : AxiosResponse)
    (w : World) :
  ev_type ev = Some t -> t ∉ known_types -> ev_applicantId ev = Some a ->
  settled (network env (length (requests w)) (forward2 env ev a)) = Fulfilled resp ->
  res_status resp = 200%nat ->
  let out := Client2.handleWebhookEvent env ev w in
  fst out = Return (Processed2 (res_data resp)) /\
  requests (snd out) = (requests w ++ [forward2 env ev a])%list /\
  console (snd out) =
    (console w ++
       [ {| level := LOG; text := "Processing SumSub webhook event:"; fields := [Some t] |};
         {| level := LOG; text := "Webhook forwarded successfully:"; fields := [] |};
         {| level := LOG; text := "Event processed successfully by Django"; fields := [] |};
         {| level := LOG; text := "Unhandled event type: " +:+ t; fields := [] |} ])%list /\
  cached_type (verificationCache (snd out) !! Some (Client2.externalUserId_of a)) = Some t.
Proof.
  intros Ht Hk Ha Hr Hs out. subst out.
  destruct (unknown_type_tests t Hk) as (H1 & H2 & H3 & H4).
  apply String.eqb_neq in H1, H2, H3, H4.
  unfold Client2.handleWebhookEvent, forward2 in *. rewrite Ht, Ha in *.
  cbv beta iota zeta delta
    [bind ret throw try_catch console_log console_warn console_error Date_now receiver].
  unfold console_emit, axios_post, cache_set.
  cbn [logged issued cached now requests console verificationCache fst snd].
  rewrite Hr. cbn [logged issued cached now requests console verificationCache fst snd].
  rewrite Hs. cbn [Nat.eqb].
  rewrite !bool_decide_eq_false_2 by congruence.
  cbn [logged issued cached now requests console verificationCache fst snd show].
  repeat split.
  - now rewrite <- !app_assoc.
  - now rewrite lookup_insert_eq.
Qed.

End UnknownTypes.

(* ===================================================================== *)
(** * The claims *)
(* ===================================================================== *)

(** C1 (amended): in [handleWebhookEvent] the forward to the downstream
    comes first and the cache is written only once it is fulfilled.  The
    forward is always attempted; when it is rejected (a failure or a
    timeout) the handler throws "Webhook processing failed: ..." and the
    cache is exactly what it was; when it is fulfilled the cache holds, under
    the event's externalUserId, a record carrying the downstream's
    response. *)
Theorem cache_written_after_fulfilled_forward
    (env : Env) (ev : Event) (a : string) (w : World) :
  ev_applicantId ev = Some a ->
  let rq := forward1 env ev a (now w) in
  let rp := network env (length (requests w)) rq in
  let out := Client1.handleWebhookEvent env ev w in
  (requests w ++ [rq])%list `prefix_of` requests (snd out) /\
  match settled rp with
  | Rejected msg _ =>
      fst out = Throw (new_Error ("Webhook processing failed: " +:+ msg)) /\
      verificationCache (snd out) = verificationCache w
  | Fulfilled resp =>
      verificationCache (snd out) =
        <[ Client1.externalUserId_of a :=
             Verified1 (verificationData1 ev a (now w) resp (now w + elapsed rp)%N) ]>
          (verificationCache w)
  end.
Proof.
  intros Ha rq rp out. subst out.
  destruct (settled rp) as [resp|msg r] eqn:Hr; subst rp rq.
  - destruct (handleWebhookEvent1_fulfilled_world env ev a resp w Ha Hr) as (Hc & Hq & _).
    split.
    + etransitivity; [|exact Hq]. unfold stored1, cached, logged.
      cbn [console_emit cache_set snd requests]. now rewrite requests_forwarded1.
    + rewrite Hc. unfold stored1, cached, logged.
      cbn [console_emit cache_set snd verificationCache].
      now rewrite cache_forwarded1, now_forwarded1.
  - rewrite (handleWebhookEvent1_rejected env ev a msg r w Ha Hr).
    cbn [fst snd]. unfold failed1, logged. cbn [console_emit snd requests verificationCache].
    rewrite requests_forwarded1, cache_forwarded1. repeat split; reflexivity.
Qed.

(** The amended C1 at the scenario event with the downstream timing out. *)
Lemma cache_written_after_fulfilled_forward_witness :
  fst (Client1.handleWebhookEvent env_down event_reviewed world0)
  = Throw (new_Error "Webhook processing failed: timeout of 40000ms exceeded") /\
  verificationCache (snd (Client1.handleWebhookEvent env_down event_reviewed world0))
  = verificationCache world0.
Proof.
  exact (proj2 (cache_written_after_fulfilled_forward env_down event_reviewed
                  "app_1;externalUserId=user_42" world0 eq_refl)).
Defined.

(** C1 as stated fails: a delivery with a valid digest and a well-formed
    event is answered 200 by server.js while the downstream times out, the
    forward has been attempted, and the cache has no record for the
    subject. *)
Lemma timeout_leaves_no_cache_record :
  let out := Server.sumsub_webhook env_down (Client1.handleWebhookEvent env_down)
               inbound_signed world0 in
  fst (verifyWebhookSignature env_down (rawBody inbound_signed)
         (x_payload_digest inbound_signed) (SUMSUB_WEBHOOK_SECRET env_down) world0)
  = Return true /\
  Client1.externalUserId_of "app_1;externalUserId=user_42" = Some "user_42" /\
  length (requests (snd out)) = 1%nat /\
  verificationCache (snd out) !! Some "user_42" = None.
Proof. vm_compute. repeat split; reflexivity. Qed.

(** C7 (amended): the cache write is a plain [Map.set] of a record built
    afresh from the event, so handling the same event twice (both forwards
    fulfilled) leaves a record that agrees with the first one on type,
    applicantId, externalUserId, inspectionId, reviewStatus, reviewResult,
    levelName and originalEvent; createdAt is stamped again with the clock of
    the second run (it is not preserved), and djangoResponse and processedAt
    are those of the second forward. *)
Theorem replay_rebuilds_record
    (env : Env) (ev : Event) (a : string) (r1 r2 : AxiosResponse) (w : World) :
  ev_applicantId ev = Some a ->
  let w1 := snd (Client1.handleWebhookEvent env ev w) in
  let w2 := snd (Client1.handleWebhookEvent env ev w1) in
  settled (network env (length (requests w)) (forward1 env ev a (now w))) = Fulfilled r1 ->
  settled (network env (length (requests w1)) (forward1 env ev a (now w1))) = Fulfilled r2 ->
  exists v1 v2 : Payload1.VerificationData,
    verificationCache w1 !! Client1.externalUserId_of a = Some (Verified1 v1) /\
    verificationCache w2 !! Client1.externalUserId_of a = Some (Verified1 v2) /\
    let p1 := Payload1.payload v1 in
    let p2 := Payload1.payload v2 in
    Payload1.type p2 = Payload1.type p1 /\
    Payload1.applicantId p2 = Payload1.applicantId p1 /\
    Payload1.externalUserId p2 = Payload1.externalUserId p1 /\
    Payload1.inspectionId p2 = Payload1.inspectionId p1 /\
    Payload1.reviewStatus p2 = Payload1.reviewStatus p1 /\
    Payload1.reviewResult p2 = Payload1.reviewResult p1 /\
    Payload1.levelName p2 = Payload1.levelName p1 /\
    Payload1.originalEvent p2 = Payload1.originalEvent p1 /\
    Payload1.createdAt p1 = now w /\
    Payload1.createdAt p2 = now w1 /\
    Payload1.djangoResponse v2 = res_data r2 /\
    Payload1.processedAt v2
    = (now w1 + elapsed (network env (length (requests w1)) (forward1 env ev a (now w1))))%N.
Proof.
  intros Ha w1 w2 H1 H2.
  pose proof (cache_eq1 := handleWebhookEvent1_fulfilled_world env ev a r1 w Ha H1).
  pose proof (cache_eq2 := handleWebhookEvent1_fulfilled_world env ev a r2 w1 Ha H2).
  destruct cache_eq1 as (C1 & _). destruct cache_eq2 as (C2 & _).
  fold w1 in C1. fold w2 in C2.
  eexists _, _. split; [|split].
  - rewrite C1. unfold stored1, cached, logged.
    cbn [console_emit cache_set snd verificationCache]. apply lookup_insert_eq.
  - rewrite C2. unfold stored1, cached, logged.
    cbn [console_emit cache_set snd verificationCache]. apply lookup_insert_eq.
  - repeat split; reflexivity.
Qed.

(** The amended C7 at the scenario event, the downstream acknowledging
    both forwards. *)
Lemma replay_rebuilds_record_witness :
  exists v1 v2 : Payload1.VerificationData,
    verificationCache (snd (Client1.handleWebhookEvent env_up event_reviewed world0))
      !! Some "user_42" = Some (Verified1 v1) /\
    verificationCache
      (snd (Client1.handleWebhookEvent env_up event_reviewed
              (snd (Client1.handleWebhookEvent env_up event_reviewed world0))))
      !! Some "user_42" = Some (Verified1 v2) /\
    Payload1.reviewStatus (Payload1.payload v2) = Payload1.reviewStatus (Payload1.payload v1).
Proof.
  destruct (replay_rebuilds_record env_up event_reviewed "app_1;externalUserId=user_42"
              {| res_status := 200; res_data := "ok" |}
              {| res_status := 200; res_data := "ok" |} world0 eq_refl eq_refl eq_refl)
    as (v1 & v2 & L1 & L2 & _ & _ & _ & _ & E & _).
  exists v1, v2. split; [exact L1 | split; [exact L2 | exact E]].
Defined.

(** C7 as stated fails: handling the scenario event a second time, 7 ms
    later, replaces the record's createdAt (1000) by the later time. *)
Lemma replay_restamps_createdAt :
  let w1 := snd (Client1.handleWebhookEvent env_up event_reviewed world0) in
  let w2 := snd (Client1.handleWebhookEvent env_up event_reviewed w1) in
  createdAt_at w1 (Some "user_42") = Some 1000%N /\
  createdAt_at w2 (Some "user_42") = Some 1007%N.
Proof. vm_compute. split; reflexivity. Qed.

(** C8 (amended): for an event whose type is a string outside the four
    known ones, once the forward to the downstream is fulfilled (with status
    200 in the second revision) the handler logs an "Unhandled event type"
    line, and the body that was forwarded and the record that is cached carry
    the provider's type unchanged, so they cannot be taken for one of the four
    known types. *)
Theorem unknown_type_passes_through
    (env : Env) (ev : Event) (a t : string) (resp : AxiosResponse) (w : World) :
  ev_type ev = Some t -> t ∉ known_types -> ev_applicantId ev = Some a ->
  (settled (network env (length (requests w)) (forward1 env ev a (now w))) = Fulfilled resp ->
   let w' := snd (Client1.handleWebhookEvent env ev w) in
   {| level := WARN;
      text := Client1.logPrefix t (Client1.externalUserId_of a) +:+ " - Unhandled event type";
      fields := [] |} ∈ console w' /\
   forward1 env ev a (now w) ∈ requests w' /\
   forwarded_type (forward1 env ev a (now w)) = Some t /\
   cached_type (verificationCache w' !! Client1.externalUserId_of a) = Some t) /\
  (settled (network env (length (requests w)) (forward2 env ev a)) = Fulfilled resp ->
   res_status resp = 200%nat ->
   let w' := snd (Client2.handleWebhookEvent env ev w) in
   {| level := LOG; text := "Unhandled event type: " +:+ t; fields := [] |} ∈ console w' /\
   forward2 env ev a ∈ requests w' /\
   forwarded_type (forward2 env ev a) = Some t /\
   cached_type (verificationCache w' !! Some (Client2.externalUserId_of a)) = Some t).
Proof.
  intros Ht Hk Ha. split.
  - intros Hr w'. subst w'.
    rewrite (handleWebhookEvent1_fulfilled env ev a resp w Ha Hr), Ht.
    rewrite (processWebhookEvent_unknown env t _ _ ev _ Hk). cbn [snd].
    unfold failed1. rewrite !console_logged.
    repeat split.
    + in_tail.
    + unfold logged, stored1, cached, logged.
      cbn [console_emit cache_set snd requests]. rewrite requests_forwarded1.
      in_tail.
    + exact Ht.
    + unfold logged, stored1, cached, logged.
      cbn [console_emit cache_set snd verificationCache].
      rewrite lookup_insert_eq. exact Ht.
  - intros Hr Hs w'. subst w'.
    destruct (handleWebhookEvent2_unknown env ev a t resp w Ht Hk Ha Hr Hs)
      as (_ & Hq & Hc & Hv).
    rewrite Hq, Hc. repeat split.
    + apply elem_of_app. right. rewrite !elem_of_cons. tauto.
    + in_tail.
    + exact Ht.
    + exact Hv.
Qed.

(** The amended C8 at an "applicantBogus" event, the downstream up. *)
Lemma unknown_type_passes_through_witness :
  {| level := WARN; text := "[APPLICANTBOGUS] user_42 - Unhandled event type"; fields := [] |}
    ∈ console (snd (Client1.handleWebhookEvent env_up event_bogus world0)) /\
  cached_type (verificationCache (snd (Client1.handleWebhookEvent env_up event_bogus world0))
                 !! Some "user_42") = Some "applicantBogus" /\
  {| level := LOG; text := "Unhandled event type: applicantBogus"; fields := [] |}
    ∈ console (snd (Client2.handleWebhookEvent env_up event_bogus world0)).
Proof.
  assert (Hk : "applicantBogus" ∉ known_types).
  { apply (bool_decide_unpack _). vm_compute. exact I. }
  destruct (unknown_type_passes_through env_up event_bogus "app_1;externalUserId=user_42"
              "applicantBogus" {| res_status := 200; res_data := "ok" |} world0
              eq_refl Hk eq_refl) as [H1 H2].
  destruct (H1 eq_refl) as (L1 & _ & _ & C1).
  destruct (H2 eq_refl eq_refl) as (L2 & _).
  split; [exact L1 | split; [exact C1 | exact L2]].
Defined.

(** C8 as stated fails: with the downstream timing out, an event of
    unknown type is handled without any unknown-type line on the console, in
    either revision. *)
Lemma unknown_type_unsignalled_on_timeout :
  map text (console (snd (Client1.handleWebhookEvent env_down event_bogus world0)))
  = [ "Processing SumSub webhook event:";
      "Forwarding webhook to Django with payload:";
      "Webhook processing failed:";
      "Storing failed webhook for retry:" ] /\
  map text (console (snd (Client2.handleWebhookEvent env_down event_bogus world0)))
  = [ "Processing SumSub webhook event:";
      "Error forwarding webhook:";
      "Storing failed webhook for retry:" ].
Proof. vm_compute. split; reflexivity. Qed.

Section SubjectId.
Import JsString.

Lemma marker_absent_in_empty : absent marker "".
Proof. apply cut_None. reflexivity. Qed.

(** Both revisions, in terms of [cut]. *)
Lemma externalUserId_of_cut (a : string) :
  Client1.externalUserId_of a =
    match cut marker a with
    | None => Some a
    | Some (_, r) =>
        match cut marker r with
        | None => Some r
        | Some (q, _) => Some q
        end
    end /\
  Client2.externalUserId_of a =
    match cut marker a with
    | None => a
    | Some (_, r) =>
        match cut marker r with
        | None => or_else (Some r) a
        | Some (q, _) => or_else (Some q) a
        end
    end.
Proof.
  unfold Client1.externalUserId_of, Client2.externalUserId_of, includes.
  pose proof (split_second ";" "externalUserId=" a) as S2.
  change (String ";" "externalUserId=") with marker in S2. rewrite !S2.
  destruct (cut marker a) as [[p r]|]; [|now split].
  destruct (cut marker r) as [[q r']|]; now split.
Qed.

End SubjectId.

(** C6 (amended): when the applicant identifier does not contain
    ';externalUserId=' it is the subjectId itself; when it does, the
    subjectId is the text after the first occurrence of the marker up to the
    next occurrence of the marker, which is the entire remainder exactly when
    the remainder holds no further marker (the second revision falls back to
    the whole identifier when that text is empty). *)
Theorem externalUserId_is_second_segment (a : string) :
  (absent marker a ->
   Client1.externalUserId_of a = Some a /\ Client2.externalUserId_of a = a) /\
  (forall p r, first_at marker a p r ->
     (absent marker r ->
      Client1.externalUserId_of a = Some r /\
      Client2.externalUserId_of a = or_else (Some r) a) /\
     (forall q r', first_at marker r q r' ->
        Client1.externalUserId_of a = Some q /\
        Client2.externalUserId_of a = or_else (Some q) a)).
Proof.
  destruct (externalUserId_of_cut a) as [E1 E2]. split.
  - intros H. rewrite E1, E2, (absent_cut _ _ H). now split.
  - intros p r Hf. rewrite E1, E2, (first_at_cut _ _ _ _ Hf). split.
    + intros H. rewrite (absent_cut _ _ H). now split.
    + intros q r' Hq. rewrite (first_at_cut _ _ _ _ Hq). now split.
Qed.

(** The amended C6 at the scenario identifier: the marker occurs once,
    after "app_1", and the remainder "user_42" is the subjectId. *)
Lemma externalUserId_is_second_segment_witness :
  Client1.externalUserId_of "app_1;externalUserId=user_42" = Some "user_42" /\
  Client2.externalUserId_of "app_1;externalUserId=user_42" = "user_42".
Proof.
  refine (proj1 (proj2 (externalUserId_is_second_segment "app_1;externalUserId=user_42")
                   "app_1" "user_42" _) _).
  - apply cut_Some. reflexivity.
  - apply cut_None. reflexivity.
Defined.

(** C6 as stated fails: in "a;externalUserId=b;externalUserId=c" the
    first marker comes after "a" and the entire remainder is
    "b;externalUserId=c", yet both revisions take "b". *)
Lemma externalUserId_stops_at_second_marker :
  first_at marker "a;externalUserId=b;externalUserId=c" "a" "b;externalUserId=c" /\
  Client1.externalUserId_of "a;externalUserId=b;externalUserId=c" = Some "b" /\
  Client2.externalUserId_of "a;externalUserId=b;externalUserId=c" = "b".
Proof.
  split; [apply cut_Some; reflexivity | split; reflexivity].
Qed.

(** C9 (amended): normalization has no MissingSubjectId outcome.  For
    every applicant identifier string the first revision produces a
    subjectId, and that subjectId is empty exactly when the identifier is
    empty or its first marker is followed at once by the end of the string or
    by another marker; the second revision then substitutes the whole
    applicant identifier, so its subjectId is empty only for the empty
    identifier. *)
Theorem externalUserId_never_missing (a : string) :
  (exists s, Client1.externalUserId_of a = Some s) /\
  (Client1.externalUserId_of a = Some "" <->
     a = "" \/
     exists p r, first_at marker a p r /\ (r = "" \/ exists r', r = marker +:+ r')) /\
  (Client2.externalUserId_of a = "" <-> a = "").
Proof.
  destruct (externalUserId_of_cut a) as [E1 E2]. rewrite E1, E2.
  destruct (JsString.cut marker a) as [[p r]|] eqn:Ca.
  - pose proof (cut_Some _ _ _ _ Ca) as Hf.
    assert (Hne : a <> "").
    { intros ->. now rewrite (absent_cut _ _ marker_absent_in_empty) in Ca. }
    destruct (JsString.cut marker r) as [[q r']|] eqn:Cr.
    + pose proof (cut_Some _ _ _ _ Cr) as [Hr Hmin]. split; [eauto|]. split.
      * split.
        -- intros [= ->]. right. exists p, r. split; [exact Hf|]. right. now exists r'.
        -- intros [->|(p0 & r0 & Hf0 & Hr0)]; [contradiction|].
           rewrite (first_at_cut _ _ _ _ Hf0) in Ca. injection Ca as -> ->.
           destruct Hr0 as [->|[r1 Hr1]].
           ++ now rewrite (absent_cut _ _ marker_absent_in_empty) in Cr.
           ++ specialize (Hmin "" r1 Hr1). destruct q; [reflexivity | simpl in Hmin; lia].
      * destruct q; simpl; split; intros H; try contradiction; auto; discriminate.
    + split; [eauto|]. split.
      * split.
        -- intros [= ->]. right. exists p, "". split; [exact Hf | now left].
        -- intros [->|(p0 & r0 & Hf0 & Hr0)]; [contradiction|].
           rewrite (first_at_cut _ _ _ _ Hf0) in Ca. injection Ca as -> ->.
           destruct Hr0 as [->|[r1 Hr1]]; [reflexivity|].
           exfalso. exact (cut_None _ _ Cr "" r1 Hr1).
      * destruct r; simpl; split; intros H; try contradiction; auto; discriminate.
  - split; [eauto|]. split; [|reflexivity]. split.
    + intros [= ->]. now left.
    + intros [->|(p0 & r0 & Hf0 & _)]; [reflexivity|].
      now rewrite (first_at_cut _ _ _ _ Hf0) in Ca.
Qed.

(** C9 as stated fails: an identifier that stops at the marker yields the
    empty subjectId in the first revision, and the event is forwarded and
    cached under it instead of being rejected; the second revision takes the
    whole composite identifier. *)
Lemma empty_subject_is_accepted :
  let out := Client1.handleWebhookEvent env_up event_no_subject world0 in
  Client1.externalUserId_of "app_1;externalUserId=" = Some "" /\
  (exists v, fst out = Return (Processed1 "ok" v) /\
             Payload1.externalUserId (Payload1.payload v) = Some "") /\
  is_Some (verificationCache (snd out) !! Some "") /\
  Client2.externalUserId_of "app_1;externalUserId=" = "app_1;externalUserId=".
Proof.
  vm_compute. split; [reflexivity|]. split; [eexists; split; reflexivity|].
  split; [eexists; reflexivity | reflexivity].
Qed.




(** C2 (amended): with the shared secret unset (undefined or empty),
    [verifyWebhookSignature] logs the warning "Webhook verification skipped -
    no secret key set" and returns true, the value it returns for a matching
    signature, whatever the payload and the claimed signature.  The handler of
    server.js refuses an unset secret on its own, before verification is
    called: it throws "SUMSUB_WEBHOOK_SECRET is not configured", which its
    catch block answers with status 200 and that error, without parsing,
    caching or forwarding anything. *)
Theorem unset_secret_verifies_true (env : Env) :
  falsy (SUMSUB_WEBHOOK_SECRET env) = true ->
  (forall (rawBody : string) (sig secret : option string) (w : World),
     falsy secret = true ->
     verifyWebhookSignature env rawBody sig secret w =
       (Return true, logged WARN "⚠️ Webhook verification skipped - no secret key set" [] w)) /\
  (forall (client : Event -> Js HandlerResult) (req : Inbound) (w : World),
     Server.sumsub_webhook env client req w =
       (Return {| code := 200;
                  sent := JsonError "SUMSUB_WEBHOOK_SECRET is not configured"
                            (Some "Webhook received but encountered processing error") |},
        logged ERROR "❌ Webhook processing error:"
               [Some "SUMSUB_WEBHOOK_SECRET is not configured"] w)).
Proof.
  intros Henv. split.
  - intros rawBody sig secret w Hs. apply verify_skipped.
    destruct secret as [[|c s]|]; [reflexivity | discriminate | exact Henv].
  - intros client req w.
    unfold Server.sumsub_webhook, Server.sumsub_webhook_with, try_catch.
    rewrite Henv. reflexivity.
Qed.

(** The amended C2 in an environment without SUMSUB_WEBHOOK_SECRET, for
    a forged digest. *)
Lemma unset_secret_verifies_true_witness :
  verifyWebhookSignature env_no_secret sample_body (Some "deadbeef") None world0 =
    (Return true, logged WARN "⚠️ Webhook verification skipped - no secret key set" [] world0).
Proof.
  exact (proj1 (unset_secret_verifies_true env_no_secret eq_refl)
           sample_body (Some "deadbeef") None world0 eq_refl).
Defined.

(** C2 as stated fails: without a secret a forged digest gets the plain
    [true] that the genuine digest gets under the secret; the outcome is not
    a distinguishable one. *)
Lemma unset_secret_is_plain_success :
  fst (verifyWebhookSignature env_no_secret sample_body (Some "deadbeef") None world0)
  = Return true /\
  fst (verifyWebhookSignature env_no_secret sample_body (Some "deadbeef") None world0)
  = fst (verifyWebhookSignature env_up (rawBody inbound_signed)
           (x_payload_digest inbound_signed) None world0).
Proof. vm_compute. split; reflexivity. Qed.

(** C10: [verifyWebhookSignature] returns true or throws, and never
    returns false; so the [if (!isValid)] branch of either endpoint is dead
    code: whatever stands in that branch, the handler behaves the same. *)
Theorem verify_never_returns_false
    (env : Env) (payload : string) (sig secret : option string) (w : World) :
  (fst (verifyWebhookSignature env payload sig secret w) = Return true \/
   exists e, fst (verifyWebhookSignature env payload sig secret w) = Throw e) /\
  (forall client on_invalid req,
     Server.sumsub_webhook_with env client on_invalid req w
     = Server.sumsub_webhook env client req w) /\
  (forall client on_invalid req,
     Server2.sumsub_webhook_with env client on_invalid req w
     = Server2.sumsub_webhook env client req w).
Proof.
  assert (V : forall body s k w0,
             fst (verifyWebhookSignature env body s k w0) = Return true \/
             exists e, fst (verifyWebhookSignature env body s k w0) = Throw e).
  { intros body s k w0.
    destruct (falsy (default_param k (SUMSUB_WEBHOOK_SECRET env))) eqn:Hk.
    - left. now rewrite verify_skipped.
    - destruct (falsy s) eqn:Hs.
      + right. rewrite verify_missing by assumption. eauto.
      + destruct s as [s|]; [|discriminate].
        destruct (String.string_dec s
                    (Crypto.createHmac_sha256_hex
                       (show (default_param k (SUMSUB_WEBHOOK_SECRET env)))
                       (Buffer.toString body)))
          as [->|Hne].
        * left. now rewrite (verify_match env body _ k w0 Hk eq_refl).
        * right. rewrite verify_mismatch by assumption. eauto. }
  split; [apply V|]. split.
  - intros client on_invalid req. reflexivity.
  - intros client on_invalid req.
    unfold Server2.sumsub_webhook, Server2.sumsub_webhook_with, try_catch.
    destruct (bool_decide _); [reflexivity|].
    pose proof (V (rawBody req) (x_payload_digest req) (SUMSUB_WEBHOOK_SECRET env) w) as Hv.
    destruct (verifyWebhookSignature env (rawBody req) (x_payload_digest req)
                (SUMSUB_WEBHOOK_SECRET env) w) as [[b|e'] w1] eqn:E.
    + assert (b = true) as -> by (destruct Hv as [[= ->]|[e He]]; [reflexivity|discriminate]).
      now rewrite !(bind_Return _ _ _ _ _ E).
    + now rewrite !(bind_Throw _ _ _ _ _ E).
Qed.

(** ** The two endpoints on a failed check and on a failed delivery *)

Section Endpoints.
Variable env : Env.
Variable client : Event -> Js HandlerResult.

(** Verification reads the request and writes the console, nothing else. *)
Lemma verify_world (payload : string) (sig secret : option string) (w : World) :
  let w' := snd (verifyWebhookSignature env payload sig secret w) in
  verificationCache w' = verificationCache w /\ requests w' = requests w /\ now w' = now w.
Proof.
  unfold verifyWebhookSignature.
  destruct (falsy (default_param secret (SUMSUB_WEBHOOK_SECRET env))); [now repeat split|].
  destruct (falsy sig); [now repeat split|].
  unfold try_catch. destruct (negb _ || negb _); now repeat split.
Qed.

(** The smaller server stops at a failed check: status 400 with the
    error's message, and neither the cache nor the network is touched. *)
Lemma server2_halts_on_failed_check (req : Inbound) (e : JsError) (w w1 : World) :
  DEBUG_WEBHOOK env <> Some "true" ->
  verifyWebhookSignature env (rawBody req) (x_payload_digest req)
    (SUMSUB_WEBHOOK_SECRET env) w = (Throw e, w1) ->
  Server2.sumsub_webhook env client req w =
    (Return {| code := 400;
               sent := JsonError (message e) (Some "Check server logs for more info") |},
     logged ERROR "❌ Webhook error:" [Some (message e)] w1) /\
  verificationCache w1 = verificationCache w /\ requests w1 = requests w.
Proof.
  intros Hd Hv. split.
  - unfold Server2.sumsub_webhook, Server2.sumsub_webhook_with.
    rewrite bool_decide_eq_false_2 by exact Hd.
    erewrite try_catch_Throw; [reflexivity|].
    now apply bind_Throw.
  - pose proof (verify_world (rawBody req) (x_payload_digest req)
                  (SUMSUB_WEBHOOK_SECRET env) w) as H.
    rewrite Hv in H. simpl in H. tauto.
Qed.

(** The smaller server answers 400 whenever the client's handler throws,
    a failed delivery included. *)
Lemma server2_surfaces_client_failure (req : Inbound) (ev : Event) (e : JsError)
    (w w1 w2 : World) :
  DEBUG_WEBHOOK env <> Some "true" ->
  verifyWebhookSignature env (rawBody req) (x_payload_digest req)
    (SUMSUB_WEBHOOK_SECRET env) w = (Return true, w1) ->
  parsed req = Some ev ->
  client ev w1 = (Throw e, w2) ->
  Server2.sumsub_webhook env client req w =
    (Return {| code := 400;
               sent := JsonError (message e) (Some "Check server logs for more info") |},
     logged ERROR "❌ Webhook error:" [Some (message e)] w2).
Proof.
  intros Hd Hv Hp Hc.
  unfold Server2.sumsub_webhook, Server2.sumsub_webhook_with.
  rewrite bool_decide_eq_false_2 by exact Hd.
  erewrite try_catch_Throw; [reflexivity|].
  erewrite bind_Return by exact Hv. cbn [negb].
  unfold JSON_parse. rewrite Hp.
  erewrite bind_Return by reflexivity.
  now apply bind_Throw.
Qed.

(** server.js answers 200 when the client's handler throws, unless the
    message contains "Invalid webhook signature". *)
Lemma server_accepts_client_failure (req : Inbound) (ev : Event) (e : JsError)
    (w w1 w2 : World) :
  falsy (SUMSUB_WEBHOOK_SECRET env) = false ->
  DEBUG_WEBHOOK env <> Some "true" ->
  verifyWebhookSignature env (rawBody req) (x_payload_digest req)
    (SUMSUB_WEBHOOK_SECRET env) w = (Return true, w1) ->
  parsed req = Some ev ->
  client ev (logged LOG "Received webhook:" [ev_type ev; ev_applicantId ev] w1)
    = (Throw e, w2) ->
  JsString.includes "Invalid webhook signature" (message e) = false ->
  Server.sumsub_webhook env client req w =
    (Return {| code := 200;
               sent := JsonError (message e)
                         (Some "Webhook received but encountered processing error") |},
     logged ERROR "❌ Webhook processing error:" [Some (message e)] w2).
Proof.
  intros Hs Hd Hv Hp Hc Hm.
  unfold Server.sumsub_webhook, Server.sumsub_webhook_with.
  rewrite Hs, bool_decide_eq_false_2 by exact Hd.
  erewrite try_catch_Throw.
  - unfold bind, console_error, console_emit, ret, logged. cbn [snd]. now rewrite Hm.
  - erewrite bind_Return; [|unfold call_without_await; now rewrite Hv].
    cbn [not_promise]. unfold JSON_parse. rewrite Hp.
    erewrite bind_Return by reflexivity.
    erewrite bind_Return by reflexivity.
    now apply bind_Throw.
Qed.

(** server.js goes on after a failed check: the rejection is dropped and
    the client's handler runs on the parsed body; what it did to the cache
    and the requests it issued are still there when the handler is done. *)
Lemma server_runs_client_after_failed_check (req : Inbound) (ev : Event) (e : JsError)
    (w w1 : World) :
  falsy (SUMSUB_WEBHOOK_SECRET env) = false ->
  DEBUG_WEBHOOK env <> Some "true" ->
  verifyWebhookSignature env (rawBody req) (x_payload_digest req)
    (SUMSUB_WEBHOOK_SECRET env) w = (Throw e, w1) ->
  parsed req = Some ev ->
  quiet (snd (client ev (logged LOG "Received webhook:" [ev_type ev; ev_applicantId ev]
                           (dropped e w1))))
        (snd (Server.sumsub_webhook env client req w)).
Proof.
  intros Hs Hd Hv Hp.
  unfold Server.sumsub_webhook, Server.sumsub_webhook_with.
  rewrite Hs, bool_decide_eq_false_2 by exact Hd.
  unfold try_catch at 1.
  erewrite bind_Return; [|unfold call_without_await; now rewrite Hv].
  cbn [not_promise]. unfold JSON_parse. rewrite Hp.
  erewrite bind_Return by reflexivity.
  erewrite bind_Return by reflexivity.
  fold (dropped e w1).
  change (snd (console_log "Received webhook:" [ev_type ev; ev_applicantId ev] (dropped e w1)))
    with (logged LOG "Received webhook:" [ev_type ev; ev_applicantId ev] (dropped e w1)).
  unfold bind at 1.
  destruct (client ev _) as [[r|e'] w2]; cbn [snd].
  - assert (Q : is_quiet
                  (try_catch
                     (_ <- Server.forwardToDjango env r ;;
                      ret {| code := 200; sent := Text "Webhook processed successfully" |})
                     (fun djangoError =>
                        Server.storeFailedWebhook ev ;;;
                        ret {| code := 200;
                               sent := JsonError "Webhook received but Django processing failed"
                                         (Some (message djangoError)) |}))).
    { unfold Server.forwardToDjango, Server.storeFailedWebhook. quiet_walk. }
    specialize (Q w2).
    destruct (try_catch _ _ w2) as [[o|e''] w3]; cbn [snd] in *; [exact Q|].
    eapply quiet_trans; [exact Q|].
    assert (Q' : is_quiet (console_error "❌ Webhook processing error:" [Some (message e'')] ;;;
                           if JsString.includes "Invalid webhook signature" (message e'')
                           then ret {| code := 403; sent := JsonError (message e'') None |}
                           else ret {| code := 200;
                                       sent := JsonError (message e'')
                                                 (Some "Webhook received but encountered processing error") |}))
      by quiet_walk.
    exact (Q' w3).
  - assert (Q' : is_quiet (console_error "❌ Webhook processing error:" [Some (message e')] ;;;
                           if JsString.includes "Invalid webhook signature" (message e')
                           then ret {| code := 403; sent := JsonError (message e') None |}
                           else ret {| code := 200;
                                       sent := JsonError (message e')
                                                 (Some "Webhook received but encountered processing error") |}))
      by quiet_walk.
    exact (Q' w2).
Qed.

End Endpoints.

(** C3, on the smaller server: the digest is genuine and the event well
    formed, the downstream times out, and the caller is answered 400, with
    either revision of the client. *)
Lemma smaller_server_answers_400_on_timeout :
  fst (verifyWebhookSignature env_down (rawBody inbound_signed)
         (x_payload_digest inbound_signed) (SUMSUB_WEBHOOK_SECRET env_down) world0)
  = Return true /\
  fst (Server2.sumsub_webhook env_down (Client2.handleWebhookEvent env_down)
         inbound_signed world0)
  = Return {| code := 400;
              sent := JsonError "timeout of 40000ms exceeded"
                        (Some "Check server logs for more info") |} /\
  fst (Server2.sumsub_webhook env_down (Client1.handleWebhookEvent env_down)
         inbound_signed world0)
  = Return {| code := 400;
              sent := JsonError "Webhook processing failed: timeout of 40000ms exceeded"
                        (Some "Check server logs for more info") |} /\
  fst (Server.sumsub_webhook env_down (Client1.handleWebhookEvent env_down)
         inbound_signed world0)
  = Return {| code := 200;
              sent := JsonError "Webhook processing failed: timeout of 40000ms exceeded"
                        (Some "Webhook received but encountered processing error") |}.
Proof. vm_compute. repeat split; reflexivity. Qed.

(** C4, on server.js: the digest is forged and verification throws, yet
    the handler answers 200 "Webhook processed successfully" (with either
    revision of the client), the event has been forwarded twice and cached,
    and the rejection is left unhandled. *)
Lemma forged_digest_is_processed :
  let out := Server.sumsub_webhook env_up (Client1.handleWebhookEvent env_up)
               inbound_forged world0 in
  fst (verifyWebhookSignature env_up (rawBody inbound_forged)
         (x_payload_digest inbound_forged) (SUMSUB_WEBHOOK_SECRET env_up) world0)
  = Throw (new_Error "Invalid webhook signature") /\
  fst out = Return {| code := 200; sent := Text "Webhook processed successfully" |} /\
  cached_type (verificationCache (snd out) !! Some "user_42") = Some "applicantReviewed" /\
  length (requests (snd out)) = 2%nat /\
  unhandledRejections (snd out) = [new_Error "Invalid webhook signature"] /\
  fst (Server.sumsub_webhook env_up (Client2.handleWebhookEvent env_up) inbound_forged world0)
  = Return {| code := 200; sent := Text "Webhook processed successfully" |}.
Proof. vm_compute. repeat split; reflexivity. Qed.


(* ===================================================================== *)
(** * Further properties of the code *)
(* ===================================================================== *)

(** ** Signature verification *)

(** X1.  With a secret configured, [verifyWebhookSignature] returns true
    exactly when the claimed signature is the lower-case hex HMAC-SHA256,
    under that secret, of the body read as text ([rawBody.toString()]): of
    the body itself when it is a string or a Buffer of well-formed UTF-8, of
    its decoding with U+FFFD for what is not UTF-8 otherwise. *)
Theorem verify_accepts_exactly_the_digest
    (env : Env) (payload : string) (sig secret : option string) (w : World) :
  falsy (default_param secret (SUMSUB_WEBHOOK_SECRET env)) = false ->
  let key := show (default_param secret (SUMSUB_WEBHOOK_SECRET env)) in
  (fst (verifyWebhookSignature env payload sig secret w) = Return true <->
   sig = Some (Crypto.createHmac_sha256_hex key (Buffer.toString payload))) /\
  (Buffer.is_utf8 payload = true ->
   (fst (verifyWebhookSignature env payload sig secret w) = Return true <->
    sig = Some (Crypto.createHmac_sha256_hex key payload))).
Proof.
  intros Hk key.
  assert (T : fst (verifyWebhookSignature env payload sig secret w) = Return true <->
              sig = Some (Crypto.createHmac_sha256_hex key (Buffer.toString payload))).
  { subst key. split.
    - intros Hv. destruct (falsy sig) eqn:Hs.
      + rewrite verify_missing in Hv by assumption. discriminate.
      + destruct sig as [s|]; [|discriminate]. f_equal.
        destruct (String.string_dec s
                    (Crypto.createHmac_sha256_hex
                       (show (default_param secret (SUMSUB_WEBHOOK_SECRET env)))
                       (Buffer.toString payload)))
          as [E|Hne]; [exact E|].
        rewrite verify_mismatch in Hv by assumption. discriminate.
    - intros ->. now rewrite (verify_match env payload _ secret w Hk eq_refl). }
  split; [exact T|]. intros U. rewrite (toString_utf8 payload U) in T. exact T.
Qed.

(** At a body that is not UTF-8 the digest that is accepted is the one of
    the decoded text. *)
Lemma verify_accepts_exactly_the_digest_witness :
  fst (verifyWebhookSignature env_up body_not_utf8
         (Some (Crypto.createHmac_sha256_hex "s3cret" (Buffer.toString body_not_utf8)))
         None world0)
  = Return true.
Proof.
  exact (proj2 (proj1 (verify_accepts_exactly_the_digest env_up body_not_utf8
                         (Some (Crypto.createHmac_sha256_hex "s3cret"
                                  (Buffer.toString body_not_utf8)))
                         None world0 eq_refl))
           eq_refl).
Defined.

(** The digest of the bytes of that body is turned away. *)
Lemma digest_of_raw_bytes_is_rejected :
  Buffer.toString body_not_utf8 = "{" +:+ Buffer.replacement +:+ "}" /\
  fst (verifyWebhookSignature env_up body_not_utf8
         (Some (Crypto.createHmac_sha256_hex "s3cret" body_not_utf8)) None world0)
  = Throw (new_Error "Invalid webhook signature").
Proof. vm_compute. split; reflexivity. Qed.

(** X2.  Verification is local: whatever its outcome, it issues no request,
    leaves the cache, the clock and the unhandled rejections alone, and only
    adds lines to the console. *)
Theorem verify_is_local
    (env : Env) (payload : string) (sig secret : option string) (w : World) :
  let w' := snd (verifyWebhookSignature env payload sig secret w) in
  verificationCache w' = verificationCache w /\
  requests w' = requests w /\
  now w' = now w /\
  unhandledRejections w' = unhandledRejections w /\
  console w `prefix_of` console w'.
Proof.
  pose proof (verify_world env payload sig secret w) as (Hc & Hr & Hn).
  pose proof (quiet_verifyWebhookSignature env payload sig secret w) as (_ & _ & Hl).
  repeat split; try assumption.
  unfold verifyWebhookSignature.
  destruct (falsy (default_param secret (SUMSUB_WEBHOOK_SECRET env))); [reflexivity|].
  destruct (falsy sig); [reflexivity|].
  unfold try_catch. now destruct (negb _ || negb _).
Qed.

(** ** What the endpoints answer *)

Lemma yields_ret {A} (P : A -> Prop) (a : A) : P a -> yields P (ret a).
Proof. intros H w. exact H. Qed.

Lemma yields_throw {A} (P : A -> Prop) (e : JsError) : yields P (@throw A e).
Proof. intros w. exact I. Qed.

Lemma yields_bind {A B} (P : B -> Prop) (m : Js A) (k : A -> Js B) :
  (forall a, yields P (k a)) -> yields P (bind m k).
Proof.
  intros Hk w. unfold bind. destruct (m w) as [[a|e] w1]; [apply Hk | exact I].
Qed.

Lemma yields_try_catch {A} (P : A -> Prop) (m : Js A) (h : JsError -> Js A) :
  yields P m -> (forall e, yields P (h e)) -> yields P (try_catch m h).
Proof.
  intros Hm Hh w. unfold try_catch. specialize (Hm w).
  destruct (m w) as [[a|e] w1]; [exact Hm | apply Hh].
Qed.

Lemma yields_if {A} (P : A -> Prop) (b : bool) (m1 m2 : Js A) :
  yields P m1 -> yields P m2 -> yields P (if b then m1 else m2).
Proof. now destruct b. Qed.

Lemma answers_ret {A} (P : A -> Prop) (a : A) : P a -> answers P (ret a).
Proof. intros H w. exact H. Qed.

Lemma answers_after_console {A} (P : A -> Prop) (lvl : Level) (msg : string)
    (vals : list (option string)) (m : Js A) :
  answers P m -> answers P (console_emit lvl msg vals ;;; m).
Proof. intros Hm w. apply Hm. Qed.

Lemma answers_if {A} (P : A -> Prop) (b : bool) (m1 m2 : Js A) :
  answers P m1 -> answers P m2 -> answers P (if b then m1 else m2).
Proof. now destruct b. Qed.

Lemma answers_try_catch {A} (P : A -> Prop) (m : Js A) (h : JsError -> Js A) :
  yields P m -> (forall e, answers P (h e)) -> answers P (try_catch m h).
Proof.
  intros Hm Hh w. unfold try_catch. specialize (Hm w).
  destruct (m w) as [[a|e] w1]; [exact Hm | apply Hh].
Qed.

(** Walks a handler body: every [ret] in it must satisfy the goal. *)
Ltac yields_walk :=
  repeat
    (intros;
     lazymatch goal with
     | |- yields _ (throw _) => apply yields_throw
     | |- yields _ (ret _) => apply yields_ret
     | |- yields _ (bind _ _) => apply yields_bind
     | |- yields _ (try_catch _ _) => apply yields_try_catch
     | |- yields _ (if _ then _ else _) => apply yields_if
     end).

(** In the model every request settles and a rejection nobody handles is
    only put on record, so the handler of server.js runs to an answer, with
    status 200 or 403. *)
Lemma server_handler_completes
    (env : Env) (client : Event -> Js HandlerResult) (req : Inbound) :
  answers (fun r => code r = 200%nat \/ code r = 403%nat)
          (Server.sumsub_webhook env client req).
Proof.
  unfold Server.sumsub_webhook, Server.sumsub_webhook_with.
  apply answers_try_catch.
  - apply yields_if; [apply yields_throw|].
    apply yields_if.
    + yields_walk; now left.
    + apply yields_bind. intros isValid. cbn [not_promise].
      yields_walk; now left.
  - intros e. apply answers_after_console.
    apply answers_if; apply answers_ret; [now right | now left].
Qed.

(** X3.  The handler of the webhook route of server.js sends no status but
    200 and 403: whenever it answers, whatever the request, the environment
    and the client's handler, the status is one of the two.  Whether it
    answers at all is not stated: a request that never settles, or a host
    that ends the process on the rejection line 102 leaves unhandled, leaves
    the caller without an answer. *)
Theorem server_answers_200_or_403
    (env : Env) (client : Event -> Js HandlerResult) (req : Inbound) (w : World)
    (r : Outbound) :
  fst (Server.sumsub_webhook env client req w) = Return r ->
  code r = 200%nat \/ code r = 403%nat.
Proof.
  intros Hr. pose proof (server_handler_completes env client req w) as H.
  rewrite Hr in H. exact H.
Qed.

Lemma server_answers_200_or_403_witness :
  code {| code := 200; sent := Text "Webhook processed successfully" |} = 200%nat \/
  code {| code := 200; sent := Text "Webhook processed successfully" |} = 403%nat.
Proof.
  refine (server_answers_200_or_403 env_up (Client1.handleWebhookEvent env_up)
            inbound_signed world0
            {| code := 200; sent := Text "Webhook processed successfully" |} _).
  vm_compute. reflexivity.
Defined.

(** In the model the handler of the smaller server runs to an answer as
    well, with status 200 or 400. *)
Lemma server2_handler_completes
    (env : Env) (client : Event -> Js HandlerResult) (req : Inbound) :
  answers (fun r => code r = 200%nat \/ code r = 400%nat)
          (Server2.sumsub_webhook env client req).
Proof.
  unfold Server2.sumsub_webhook, Server2.sumsub_webhook_with.
  apply answers_try_catch.
  - yields_walk; now left.
  - intros e. apply answers_after_console. apply answers_ret. now right.
Qed.

(** X4.  The handler of the webhook route of the smaller server sends no
    status but 200 and 400: whenever it answers, the status is one of the
    two.  Whether it answers at all is not stated: its posts set no timeout
    and may never settle, and what [express.raw] refuses does not reach the
    handler. *)
Theorem server2_answers_200_or_400
    (env : Env) (client : Event -> Js HandlerResult) (req : Inbound) (w : World)
    (r : Outbound) :
  fst (Server2.sumsub_webhook env client req w) = Return r ->
  code r = 200%nat \/ code r = 400%nat.
Proof.
  intros Hr. pose proof (server2_handler_completes env client req w) as H.
  rewrite Hr in H. exact H.
Qed.

Lemma server2_answers_200_or_400_witness :
  code {| code := 400;
          sent := JsonError "Invalid webhook signature"
                    (Some "Check server logs for more info") |} = 200%nat \/
  code {| code := 400;
          sent := JsonError "Invalid webhook signature"
                    (Some "Check server logs for more info") |} = 400%nat.
Proof.
  refine (server2_answers_200_or_400 env_up (Client2.handleWebhookEvent env_up)
            inbound_forged world0
            {| code := 400;
               sent := JsonError "Invalid webhook signature"
                         (Some "Check server logs for more info") |} _).
  vm_compute. reflexivity.
Defined.

(** ** handleWebhookEvent, second revision *)

Section Client2Facts.
Variable env : Env.

(** The three ways the second revision's handler ends once the event has an
    applicant identifier. *)
Lemma handleWebhookEvent2_cases (ev : Event) (a : string) (w : World) :
  ev_applicantId ev = Some a ->
  let rp := network env (length (requests w)) (forward2 env ev a) in
  let out := Client2.handleWebhookEvent env ev w in
  requests (snd out) = (requests w ++ [forward2 env ev a])%list /\
  match settled rp with
  | Rejected msg r =>
      fst out = Throw {| name := Error; message := msg; err_response := r |} /\
      verificationCache (snd out) = verificationCache w
  | Fulfilled resp =>
      if (res_status resp =? 200)%nat then
        fst out = Return (Processed2 (res_data resp)) /\
        verificationCache (snd out) =
          <[ Some (Client2.externalUserId_of a) :=
               Verified2 (verificationData2 ev a (now w + elapsed rp)%N) ]>
            (verificationCache w)
      else
        fst out = Return NoResult /\
        verificationCache (snd out) = verificationCache w
  end.
Proof.
  intros Ha rp out. subst out rp.
  unfold Client2.handleWebhookEvent, Client2.storeFailedWebhook, forward2, verificationData2.
  rewrite Ha.
  cbv beta iota zeta delta
    [bind ret throw try_catch console_log console_warn console_error Date_now receiver].
  unfold console_emit, axios_post, cache_set.
  cbn [logged issued cached now requests console verificationCache fst snd].
  destruct (settled _) as [resp|msg r].
  - cbn [logged issued cached now requests console verificationCache fst snd].
    destruct (res_status resp =? 200)%nat.
    + cbn [logged issued cached now requests console verificationCache fst snd].
      repeat (destruct (bool_decide _)); repeat split; reflexivity.
    + repeat split; reflexivity.
  - repeat split; reflexivity.
Qed.

End Client2Facts.

(** X5.  In the second revision the cache is written exactly when the forward is
    fulfilled with status 200: then the record is stored under the
    externalUserId and the handler resolves to "processed"; a fulfilled forward
    with another status resolves to nothing and writes nothing; a rejected
    forward rethrows the same error and writes nothing.  One request is
    issued in every case. *)
Theorem client2_caches_only_on_status_200
    (env : Env) (ev : Event) (a : string) (w : World) :
  ev_applicantId ev = Some a ->
  let rp := network env (length (requests w)) (forward2 env ev a) in
  let out := Client2.handleWebhookEvent env ev w in
  requests (snd out) = (requests w ++ [forward2 env ev a])%list /\
  match settled rp with
  | Rejected msg r =>
      fst out = Throw {| name := Error; message := msg; err_response := r |} /\
      verificationCache (snd out) = verificationCache w
  | Fulfilled resp =>
      if (res_status resp =? 200)%nat then
        fst out = Return (Processed2 (res_data resp)) /\
        verificationCache (snd out) =
          <[ Some (Client2.externalUserId_of a) :=
               Verified2 (verificationData2 ev a (now w + elapsed rp)%N) ]>
            (verificationCache w)
      else
        fst out = Return NoResult /\
        verificationCache (snd out) = verificationCache w
  end.
Proof. exact (handleWebhookEvent2_cases env ev a w). Qed.

Lemma client2_caches_only_on_status_200_witness :
  fst (Client2.handleWebhookEvent env_up event_reviewed world0) = Return (Processed2 "ok") /\
  verificationCache (snd (Client2.handleWebhookEvent env_up event_reviewed world0))
  = <[ Some "user_42" :=
         Verified2 (verificationData2 event_reviewed "app_1;externalUserId=user_42" 1007) ]>
      (verificationCache world0).
Proof.
  exact (proj2 (client2_caches_only_on_status_200 env_up event_reviewed
                  "app_1;externalUserId=user_42" world0 eq_refl)).
Defined.

(** ** handleWebhookEvent, first revision: which events it can finish *)

Section Client1Outcomes.
Variable env : Env.

(** [processWebhookEvent] returns only for the two types whose handlers are
    declared. *)
Lemma processWebhookEvent_returns (type eid rs : option string) (ev : Event) (w w' : World) :
  Client1.processWebhookEvent env type eid rs ev w = (Return tt, w') ->
  type = Some "applicantReviewed" \/ type = Some "applicantCreated".
Proof.
  unfold Client1.processWebhookEvent. destruct type as [t|]; [|discriminate].
  cbn [receiver]. unfold bind at 1. cbn [ret].
  destruct (String.eqb_spec t "applicantReviewed") as [->|_]; [now left|].
  destruct (String.eqb_spec t "applicantPending") as [->|_].
  { unfold try_catch, bind, console_log, console_error, console_emit, not_defined, throw.
    discriminate. }
  destruct (String.eqb_spec t "applicantCreated") as [->|_]; [now right|].
  destruct (String.eqb_spec t "applicantOnHold") as [->|_];
    unfold try_catch, bind, console_log, console_warn, console_error, console_emit,
      not_defined, throw; discriminate.
Qed.

(** For a reviewed event [processWebhookEvent] returns, issues no request
    and writes nothing but console lines. *)
Lemma processWebhookEvent_reviewed (eid rs : option string) (ev : Event) (w : World) :
  exists w', Client1.processWebhookEvent env (Some "applicantReviewed") eid rs ev w
             = (Return tt, w') /\
             requests w' = requests w /\
             verificationCache w' = verificationCache w /\
             now w' = now w /\
             unhandledRejections w' = unhandledRejections w.
Proof.
  unfold Client1.processWebhookEvent. cbn [receiver String.eqb Ascii.eqb Bool.eqb].
  unfold bind at 1. cbn [ret].
  unfold Client1.handleCompletedVerification, Client1.handleRejectedVerification.
  unfold try_catch, bind, console_log, console_error, console_emit, ret.
  destruct (bool_decide (rs = Some "completed")); [eexists; repeat split|].
  destruct (bool_decide (rs = Some "rejected")); eexists; repeat split.
Qed.

End Client1Outcomes.

(** X6.  The first revision's handler resolves only for applicantReviewed and
    applicantCreated events: for every other type (applicantPending and
    applicantOnHold included, whose handlers are declared nowhere) it throws,
    whatever the downstream answers. *)
Theorem client1_resolves_only_reviewed_or_created
    (env : Env) (ev : Event) (w : World) (r : HandlerResult) :
  fst (Client1.handleWebhookEvent env ev w) = Return r ->
  ev_type ev = Some "applicantReviewed" \/ ev_type ev = Some "applicantCreated".
Proof.
  destruct (ev_applicantId ev) as [a|] eqn:Ha.
  - destruct (settled (network env (length (requests w)) (forward1 env ev a (now w))))
      as [resp|msg rr] eqn:Hr.
    + rewrite (handleWebhookEvent1_fulfilled env ev a resp w Ha Hr).
      destruct (Client1.processWebhookEvent _ _ _ _ _ _) as [[[]|e] w4] eqn:P;
        [|discriminate].
      intros _. exact (processWebhookEvent_returns env _ _ _ _ _ _ P).
    + rewrite (handleWebhookEvent1_rejected env ev a msg rr w Ha Hr). discriminate.
  - unfold Client1.handleWebhookEvent. rewrite Ha.
    unfold bind, console_log, console_emit, receiver, throw. discriminate.
Qed.

Lemma client1_resolves_only_reviewed_or_created_witness :
  ev_type event_reviewed = Some "applicantReviewed" \/
  ev_type event_reviewed = Some "applicantCreated".
Proof.
  refine (client1_resolves_only_reviewed_or_created env_up event_reviewed world0
            (Processed1 "ok"
               (verificationData1 event_reviewed "app_1;externalUserId=user_42" 1000
                  {| res_status := 200; res_data := "ok" |} 1007)) _).
  vm_compute. reflexivity.
Defined.

(** X7.  Whatever happens, either revision of the handler leaves the records of
    all other subjects alone: only the key it derives from the event's
    applicant identifier can change. *)
Theorem handlers_touch_one_key
    (env : Env) (ev : Event) (a : string) (w : World) (k : option string) :
  ev_applicantId ev = Some a ->
  (k <> Client1.externalUserId_of a ->
   verificationCache (snd (Client1.handleWebhookEvent env ev w)) !! k
   = verificationCache w !! k) /\
  (k <> Some (Client2.externalUserId_of a) ->
   verificationCache (snd (Client2.handleWebhookEvent env ev w)) !! k
   = verificationCache w !! k).
Proof.
  intros Ha. split; intros Hk.
  - destruct (settled (network env (length (requests w)) (forward1 env ev a (now w))))
      as [resp|msg rr] eqn:Hr.
    + destruct (handleWebhookEvent1_fulfilled_world env ev a resp w Ha Hr) as (-> & _).
      unfold stored1, cached, logged. cbn [verificationCache].
      rewrite lookup_insert_ne by congruence. reflexivity.
    + rewrite (handleWebhookEvent1_rejected env ev a msg rr w Ha Hr). reflexivity.
  - pose proof (handleWebhookEvent2_cases env ev a w Ha) as (_ & H). cbv zeta in H.
    destruct (settled _) as [resp|msg rr].
    + destruct (res_status resp =? 200)%nat; destruct H as (_ & ->);
        [now rewrite lookup_insert_ne by congruence | reflexivity].
    + destruct H as (_ & ->). reflexivity.
Qed.

Lemma handlers_touch_one_key_witness :
  verificationCache (snd (Client1.handleWebhookEvent env_up event_reviewed world0))
    !! Some "user_7" = verificationCache world0 !! Some "user_7".
Proof.
  refine (proj1 (handlers_touch_one_key env_up event_reviewed "app_1;externalUserId=user_42"
                   world0 (Some "user_7") eq_refl) _).
  vm_compute. discriminate.
Defined.

(** X8.  An event without an applicant identifier is refused by either revision
    with a TypeError thrown outside the try block: nothing is forwarded,
    cached or handed to storeFailedWebhook; the only trace is the first
    console line. *)
Theorem missing_applicantId_throws_early (env : Env) (ev : Event) (w : World) :
  ev_applicantId ev = None ->
  Client1.handleWebhookEvent env ev w =
    (Throw {| name := TypeError;
              message := "Cannot read properties of undefined (reading 'includes')";
              err_response := None |},
     logged LOG "Processing SumSub webhook event:" [ev_type ev; None] w) /\
  Client2.handleWebhookEvent env ev w =
    (Throw {| name := TypeError;
              message := "Cannot read properties of undefined (reading 'split')";
              err_response := None |},
     logged LOG "Processing SumSub webhook event:" [ev_type ev] w).
Proof.
  intros Ha. unfold Client1.handleWebhookEvent, Client2.handleWebhookEvent.
  rewrite Ha. split; reflexivity.
Qed.

Lemma missing_applicantId_throws_early_witness :
  fst (Client1.handleWebhookEvent env_up
         {| ev_type := Some "applicantReviewed"; ev_applicantId := None;
            ev_reviewResult := None; ev_inspectionId := None |} world0)
  = Throw {| name := TypeError;
             message := "Cannot read properties of undefined (reading 'includes')";
             err_response := None |}.
Proof.
  exact (f_equal fst
           (proj1 (missing_applicantId_throws_early env_up
                     {| ev_type := Some "applicantReviewed"; ev_applicantId := None;
                        ev_reviewResult := None; ev_inspectionId := None |}
                     world0 eq_refl))).
Defined.

(** ** server.js on a delivery it accepts *)

(** X9.  A reviewed event with the genuine digest whose forward is fulfilled is
    answered 200 by server.js and reaches the downstream twice: first as the
    payload posted by the client's handler, then as the handler's result
    (which embeds the first response) posted by the route; the record is in
    the cache whether or not the second post succeeds. *)
Theorem server_posts_accepted_event_twice
    (env : Env) (req : Inbound) (ev : Event) (a : string) (resp : AxiosResponse) (w : World) :
  falsy (SUMSUB_WEBHOOK_SECRET env) = false ->
  DEBUG_WEBHOOK env <> Some "true" ->
  x_payload_digest req
  = Some (Crypto.createHmac_sha256_hex (show (SUMSUB_WEBHOOK_SECRET env)) (rawBody req)) ->
  parsed req = Some ev ->
  ev_type ev = Some "applicantReviewed" ->
  ev_applicantId ev = Some a ->
  settled (network env (length (requests w)) (forward1 env ev a (now w))) = Fulfilled resp ->
  let out := Server.sumsub_webhook env (Client1.handleWebhookEvent env) req w in
  let vd := verificationData1 ev a (now w) resp
              (now w + elapsed (network env (length (requests w))
                                  (forward1 env ev a (now w))))%N in
  (exists s, fst out = Return {| code := 200; sent := s |}) /\
  requests (snd out)
  = (requests w ++ [forward1 env ev a (now w);
                    forward_result (Processed1 (res_data resp) vd)])%list /\
  verificationCache (snd out)
  = <[ Client1.externalUserId_of a := Verified1 vd ]> (verificationCache w).
Proof.
  intros Hs Hd Hsig Hp Ht Ha Hr out vd. subst out.
  assert (Hv : exists p w0,
             call_without_await
               (verifyWebhookSignature env (rawBody req) (x_payload_digest req)
                  (SUMSUB_WEBHOOK_SECRET env)) w = (Return p, w0) /\
             verificationCache w0 = verificationCache w /\
             requests w0 = requests w /\ now w0 = now w).
  { pose proof (verify_world env (rawBody req) (x_payload_digest req)
                  (SUMSUB_WEBHOOK_SECRET env) w) as (Vc & Vq & Vn).
    unfold call_without_await.
    destruct (verifyWebhookSignature env (rawBody req) (x_payload_digest req)
                (SUMSUB_WEBHOOK_SECRET env) w) as [[b|e] wv];
      cbn [snd] in Vc, Vq, Vn; eexists _, _; (split; [reflexivity|]);
      cbn [dropped verificationCache requests now]; auto. }
  destruct Hv as (p & w0 & Hv & Fc & Fq & Fn).
  set (w1 := logged LOG "Received webhook:" [ev_type ev; ev_applicantId ev] w0).
  assert (Hr1 : settled (network env (length (requests w1)) (forward1 env ev a (now w1)))
                = Fulfilled resp).
  { subst w1. cbn [logged requests now]. rewrite Fq, Fn. exact Hr. }
  assert (Hvd : verificationData1 ev a (now w1) resp (now (forwarded1 env ev a w1)) = vd).
  { subst w1 vd. unfold forwarded1. cbn [logged issued requests now]. now rewrite Fq, Fn. }
  pose proof (handleWebhookEvent1_fulfilled env ev a resp w1 Ha Hr1) as Hh.
  cbv zeta in Hh. rewrite Ht, Hvd in Hh.
  destruct (processWebhookEvent_reviewed env (Client1.externalUserId_of a)
              (rr_reviewStatus (default empty_object (ev_reviewResult ev))) ev
              (stored1 env ev a resp w1)) as (w4 & Hp4 & Hq4 & Hc4 & Hn4 & Hu4).
  rewrite Hp4 in Hh.
  assert (Hreq : requests w4 = (requests w ++ [forward1 env ev a (now w)])%list).
  { rewrite Hq4. subst w1. unfold stored1, forwarded1.
    cbn [logged issued cached requests now]. now rewrite Fq, Fn. }
  assert (Hcache : verificationCache w4
                   = <[ Client1.externalUserId_of a := Verified1 vd ]> (verificationCache w)).
  { rewrite Hc4. unfold stored1. cbn [logged cached verificationCache]. fold w1.
    rewrite Hvd. unfold forwarded1. subst w1.
    cbn [logged issued cached verificationCache]. now rewrite Fc. }
  assert (Hout : exists s w',
             Server.sumsub_webhook env (Client1.handleWebhookEvent env) req w
             = (Return {| code := 200; sent := s |}, w') /\
             requests w' = (requests w4 ++ [forward_result (Processed1 (res_data resp) vd)])%list /\
             verificationCache w' = verificationCache w4).
  { unfold Server.sumsub_webhook, Server.sumsub_webhook_with.
    rewrite Hs, bool_decide_eq_false_2 by exact Hd.
    unfold try_catch at 1.
    erewrite bind_Return by exact Hv.
    cbn [not_promise]. unfold JSON_parse. rewrite Hp.
    erewrite bind_Return by reflexivity.
    erewrite bind_Return by reflexivity.
    fold w1. erewrite bind_Return by exact Hh.
    unfold Server.forwardToDjango, forward_result.
    unfold try_catch, bind, axios_post, console_log, console_error, console_emit, ret, throw,
      Server.storeFailedWebhook, console_warn.
    destruct (settled (network env (length (requests w4)) _)) as [resp2|msg2 rr2];
      eexists _, _; (split; [reflexivity|]); split; reflexivity. }
  destruct Hout as (s & w' & -> & Hq & Hc). cbn [fst snd].
  rewrite Hq, Hc, Hreq, Hcache, <- app_assoc.
  split; [eexists; reflexivity|]. split; reflexivity.
Qed.

Lemma server_posts_accepted_event_twice_witness :
  length (requests (snd (Server.sumsub_webhook env_up (Client1.handleWebhookEvent env_up)
                           inbound_signed world0))) = 2%nat.
Proof.
  pose proof (server_posts_accepted_event_twice env_up inbound_signed event_reviewed
                "app_1;externalUserId=user_42" {| res_status := 200; res_data := "ok" |}
                world0 eq_refl ltac:(discriminate) eq_refl eq_refl eq_refl eq_refl eq_refl)
    as (_ & H & _).
  exact (f_equal (@length Request) H).
Defined.

(** ** The endpoints on bodies that do not parse, and in debug mode *)

(** X10.  A body that [JSON.parse] refuses never reaches the client's handler on
    either server: nothing is cached and no request is issued; the smaller
    server answers 400. *)
Theorem unparsable_body_reaches_nothing
    (env : Env) (client : Event -> Js HandlerResult) (req : Inbound) (w : World) :
  parsed req = None ->
  let out1 := Server.sumsub_webhook env client req w in
  let out2 := Server2.sumsub_webhook env client req w in
  verificationCache (snd out1) = verificationCache w /\
  requests (snd out1) = requests w /\
  verificationCache (snd out2) = verificationCache w /\
  requests (snd out2) = requests w /\
  exists s, fst out2 = Return {| code := 400; sent := s |}.
Proof.
  intros Hp out1 out2. subst out1 out2.
  pose proof (verify_world env (rawBody req) (x_payload_digest req)
                (SUMSUB_WEBHOOK_SECRET env) w) as (Vc & Vr & _).
  assert (S1 : verificationCache
                 (snd (Server.sumsub_webhook env client req w)) = verificationCache w /\
               requests (snd (Server.sumsub_webhook env client req w)) = requests w).
  { unfold Server.sumsub_webhook, Server.sumsub_webhook_with, JSON_parse. rewrite Hp.
    destruct (falsy (SUMSUB_WEBHOOK_SECRET env)).
    { unfold try_catch, throw, bind, console_error, console_emit.
      destruct (JsString.includes _ _); split; reflexivity. }
    destruct (bool_decide (DEBUG_WEBHOOK env = Some "true")).
    { unfold try_catch, throw, bind, console_error, console_warn, console_emit.
      cbn [fst snd]. destruct (JsString.includes _ _); split; reflexivity. }
    unfold try_catch, bind, call_without_await.
    destruct (verifyWebhookSignature env (rawBody req) (x_payload_digest req)
                (SUMSUB_WEBHOOK_SECRET env) w) as [[b|e] w1];
      cbn [snd not_promise] in *; unfold throw, console_error, console_emit;
      destruct (JsString.includes _ _); cbn [snd logged dropped verificationCache requests];
      split; assumption. }
  destruct S1 as (S1c & S1r).
  assert (S2 : verificationCache
                 (snd (Server2.sumsub_webhook env client req w)) = verificationCache w /\
               requests (snd (Server2.sumsub_webhook env client req w)) = requests w /\
               exists s, fst (Server2.sumsub_webhook env client req w)
                         = Return {| code := 400; sent := s |}).
  { unfold Server2.sumsub_webhook, Server2.sumsub_webhook_with, JSON_parse. rewrite Hp.
    destruct (bool_decide (DEBUG_WEBHOOK env = Some "true")).
    { unfold try_catch, throw, bind, console_error, console_warn, console_emit, ret.
      cbn [fst snd]. repeat split; eauto. }
    unfold try_catch, bind.
    destruct (verifyWebhookSignature env (rawBody req) (x_payload_digest req)
                (SUMSUB_WEBHOOK_SECRET env) w) as [[b|e] w1];
      cbn [snd] in *; [destruct b|];
      unfold throw, console_error, console_emit, ret;
      cbn [fst snd negb logged verificationCache requests]; repeat split; eauto. }
  tauto.
Qed.

Lemma unparsable_body_reaches_nothing_witness :
  requests (snd (Server.sumsub_webhook env_up (Client1.handleWebhookEvent env_up)
                   {| rawBody := "{"; x_payload_digest := None; parsed := None |} world0))
  = requests world0.
Proof.
  exact (proj1 (proj2 (unparsable_body_reaches_nothing env_up
                         (Client1.handleWebhookEvent env_up)
                         {| rawBody := "{"; x_payload_digest := None; parsed := None |}
                         world0 eq_refl))).
Defined.



(** ** split and join *)

Lemma split_nonempty (c : ascii) (m s : string) : JsString.split (String c m) s <> [].
Proof.
  rewrite split_unfold. now destruct (JsString.cut (String c m) s) as [[p r]|].
Qed.

Lemma concat_cons (sep x : string) (xs : list string) :
  xs <> [] -> String.concat sep (x :: xs) = x +:+ sep +:+ String.concat sep xs.
Proof. destruct xs; [contradiction | reflexivity]. Qed.

(** For a non-empty separator, joining the pieces of [s.split(sep)] with the
    separator gives [s] back: splitting loses nothing. *)
Theorem split_then_join (sep s : string) :
  sep <> "" -> String.concat sep (JsString.split sep s) = s.
Proof.
  intros Hsep. destruct sep as [|c m]; [contradiction|]. clear Hsep.
  remember (String.length s) as n eqn:Hn. revert s Hn.
  induction n as [n IH] using lt_wf_ind. intros s Hn.
  rewrite split_unfold.
  destruct (JsString.cut (String c m) s) as [[p r]|] eqn:C; [|reflexivity].
  destruct (cut_Some _ _ _ _ C) as [Hs _].
  rewrite concat_cons by apply split_nonempty.
  rewrite (IH (String.length r)) with (s := r); [now symmetry| |reflexivity].
  subst n. rewrite Hs, append_length. simpl. rewrite append_length. lia.
Qed.

Lemma split_then_join_witness :
  String.concat marker (JsString.split marker "a;externalUserId=b;externalUserId=c")
  = "a;externalUserId=b;externalUserId=c".
Proof. apply split_then_join. discriminate. Defined.

(** ** Witnesses for the endpoint lemmas *)

Lemma server2_halts_on_failed_check_witness :
  fst (Server2.sumsub_webhook env_up (Client2.handleWebhookEvent env_up)
         inbound_forged world0)
  = Return {| code := 400;
              sent := JsonError "Invalid webhook signature"
                        (Some "Check server logs for more info") |}.
Proof.
  refine (f_equal fst
            (proj1 (server2_halts_on_failed_check env_up (Client2.handleWebhookEvent env_up)
                      inbound_forged (new_Error "Invalid webhook signature") world0
                      (snd (verifyWebhookSignature env_up (rawBody inbound_forged)
                              (x_payload_digest inbound_forged)
                              (SUMSUB_WEBHOOK_SECRET env_up) world0))
                      _ _))).
  - discriminate.
  - vm_compute. reflexivity.
Defined.

Lemma server_accepts_client_failure_witness :
  fst (Server.sumsub_webhook env_down (Client1.handleWebhookEvent env_down)
         inbound_signed world0)
  = Return {| code := 200;
              sent := JsonError "Webhook processing failed: timeout of 40000ms exceeded"
                        (Some "Webhook received but encountered processing error") |}.
Proof.
  refine (f_equal fst
            (server_accepts_client_failure env_down (Client1.handleWebhookEvent env_down)
               inbound_signed event_reviewed
               (new_Error "Webhook processing failed: timeout of 40000ms exceeded")
               world0 world0
               (snd (Client1.handleWebhookEvent env_down event_reviewed
                       (logged LOG "Received webhook:"
                          [ev_type event_reviewed; ev_applicantId event_reviewed] world0)))
               eq_refl _ _ eq_refl _ _)).
  - discriminate.
  - vm_compute. reflexivity.
  - vm_compute. reflexivity.
  - vm_compute. reflexivity.
Defined.

(* ===================================================================== *)
(** * The provider API and the other routes *)
(* ===================================================================== *)

(** ** The provider API: one request *)

Section ApiRequest.
Import Api.
Variable env : Api.Env.

Ltac run_step :=
  unfold sumsubRequest, createSignature, fetch, json, text_after_json, Date_now,
    console_log, console_error, console_emit, cache_set, cache_delete, cache_get, called,
    run_bind, run_try, run_ret, run_throw;
  cbn [fst snd Api.verificationCache Api.console Api.fetches Api.clock].

(** A request leaves the cache alone, never turns the clock back, and
    either makes one call or throws without making any. *)
Lemma sumsubRequest_frame (url method : string) (body : option RequestBody) (w : State) :
  let out := sumsubRequest env url method body w in
  Api.verificationCache (snd out) = Api.verificationCache w /\
  (Api.clock w <= Api.clock (snd out))%N /\
  ((Api.fetches (snd out) = Api.fetches w /\ exists e, fst out = Raise e) \/
   exists c, Api.fetches (snd out) = (Api.fetches w ++ [c])%list).
Proof.
  run_step. destruct (falsy (Some url)); [cbn; split; [|split]; [reflexivity|lia|left; eauto]|].
  destruct (SUMSUB_SECRET_KEY env) as [key|]; [|cbn; split; [|split]; [reflexivity|lia|left; eauto]].
  cbn [fst snd Api.verificationCache Api.console Api.fetches Api.clock].
  match goal with |- context [provider env ?n ?c] => generalize (provider env n c) end.
  intros [t [r|e]]; cbn [fetched took].
  - destruct (ok r); cbn [negb]; destruct (r_json r); cbn; (split; [|split]; [reflexivity|lia|right; eauto]).
  - cbn; split; [|split]; [reflexivity|lia|right; eauto].
Qed.

Lemma sumsubRequest_cache (url method : string) (body : option RequestBody) (w : State) :
  Api.verificationCache (snd (sumsubRequest env url method body w)) = Api.verificationCache w.
Proof. apply sumsubRequest_frame. Qed.

Lemma sumsubRequest_calls (url method : string) (body : option RequestBody) (w : State) :
  length (Api.fetches w) <= length (Api.fetches (snd (sumsubRequest env url method body w)))
    <= S (length (Api.fetches w)).
Proof.
  destruct (sumsubRequest_frame url method body w) as (_ & _ & [[E _]|[c E]]); rewrite E.
  - lia.
  - rewrite length_app. simpl. lia.
Qed.

Lemma ok_range (r : Response) : ok r = true <-> 200 <= r_status r < 300.
Proof.
  unfold ok. rewrite andb_true_iff, Nat.leb_le, Nat.ltb_lt. tauto.
Qed.

(** Whether a call is made depends on the path and on the secret alone; the
    call is [call_of]. *)
Lemma sumsubRequest_sent (url method : string) (body : option RequestBody) (w : State) :
  Api.fetches (snd (sumsubRequest env url method body w))
  = match url, SUMSUB_SECRET_KEY env with
    | String _ _, Some key => (Api.fetches w ++ [call_of env key url method body w])%list
    | _, _ => Api.fetches w
    end.
Proof.
  run_step. destruct url as [|a url]; [reflexivity|]. cbn [falsy].
  destruct (SUMSUB_SECRET_KEY env) as [key|]; [|reflexivity].
  cbn [fst snd Api.verificationCache Api.console Api.fetches Api.clock].
  assert (E : (let now := Api.clock w in
               let ts := (now / 1000)%N in
               {| c_url := show (SUMSUB_BASE_URL env) +:+ String a url;
                  c_method := method;
                  c_headers :=
                    {| X_App_Access_Ts := ts;
                       X_App_Access_Sig :=
                         Crypto.createHmac_sha256_hex key
                           (pretty ts +:+ toUpperCase method +:+ String a url
                              +:+ match body with
                                  | Some d => JSON_stringify d
                                  | None => ""
                                  end);
                       X_App_Token := SUMSUB_APP_TOKEN env |};
                  c_body := JSON_stringify <$> body;
                  c_timeout := 15000 |}) = call_of env key (String a url) method body w).
  { unfold call_of, signed_text. destruct body; reflexivity. }
  cbv zeta in E. rewrite E.
  generalize (call_of env key (String a url) method body w). intros c.
  destruct (provider env (length (Api.fetches w)) c) as [t [r|f]]; cbn [fetched took].
  - destruct (ok r); cbn [negb]; destruct (r_json r); reflexivity.
  - reflexivity.
Qed.

Lemma sumsubRequest_ok_sent (url method : string) (body : option RequestBody)
    (w w' : State) (j : Json) :
  sumsubRequest env url method body w = (Ok j, w') ->
  exists key, SUMSUB_SECRET_KEY env = Some key /\
    Api.fetches w' = (Api.fetches w ++ [call_of env key url method body w])%list.
Proof.
  intros R. pose proof (sumsubRequest_sent url method body w) as S. rewrite R in S.
  pose proof (sumsubRequest_frame url method body w) as (_ & _ & F). rewrite R in F.
  cbn [fst snd] in *.
  destruct url as [|a url], (SUMSUB_SECRET_KEY env) as [key|]; eauto;
    destruct F as [[_ [e F]]|[c F]]; try discriminate;
    rewrite S in F; apply (f_equal length) in F; rewrite length_app in F;
    simpl in F; lia.
Qed.

End ApiRequest.

Ltac unfold_request :=
  unfold Api.sumsubRequest, Api.createSignature, Api.fetch, Api.json, Api.text_after_json,
    Api.Date_now, Api.console_log, Api.console_error, Api.console_emit, Api.called,
    run_bind, run_try, run_ret, run_throw.

(** X12.  [sumsubRequest] returns only what a 2xx response carried as JSON: its
    value is the parsed body of the answer to the one call it made. *)
Theorem sumsubRequest_returns_2xx_json
    (env : Api.Env) (url method : string) (body : option Api.RequestBody)
    (w w' : Api.State) (j : Api.Json) :
  Api.sumsubRequest env url method body w = (Ok j, w') ->
  exists c r,
    Api.fetches w' = (Api.fetches w ++ [c])%list /\
    Api.fetched (Api.provider env (length (Api.fetches w)) c) = Api.Responded r /\
    200 <= Api.r_status r < 300 /\
    Api.r_json r = Api.IsJson j.
Proof.
  unfold_request.
  destruct (falsy (Some url)); [discriminate|].
  destruct (Api.SUMSUB_SECRET_KEY env) as [key|]; [|discriminate].
  cbn [fst snd Api.verificationCache Api.console Api.fetches Api.clock].
  match goal with |- context [Api.provider env ?n ?c] =>
    set (call := c); destruct (Api.provider env n call) as [t [r|f]] eqn:P end;
    cbn [Api.fetched Api.took]; [|discriminate].
  destruct (Api.ok r) eqn:K; cbn [negb];
    destruct (Api.r_json r) as [j'|f] eqn:J; try discriminate.
  intros [= <- <-]. exists call, r. cbn [Api.fetches].
  rewrite P. cbn [Api.fetched]. repeat split; trivial; apply ok_range in K; lia.
Qed.

(** X13.  Whatever [sumsubRequest] sends is signed: the call goes to the base
    URL followed by the path, its time stamp is the second the request was
    made in, and its signature is the HMAC, under SUMSUB_SECRET_KEY, of
    that time stamp, the method in upper case, the path and the body that
    is sent. *)
Theorem sumsubRequest_signs_what_it_sends
    (env : Api.Env) (url method : string) (body : option Api.RequestBody)
    (w : Api.State) (c : Api.Call) :
  Api.fetches (snd (Api.sumsubRequest env url method body w)) = (Api.fetches w ++ [c])%list ->
  exists key,
    Api.SUMSUB_SECRET_KEY env = Some key /\
    Api.c_url c = show (Api.SUMSUB_BASE_URL env) +:+ url /\
    Api.X_App_Access_Ts (Api.c_headers c) = (Api.clock w / 1000)%N /\
    Api.X_App_Access_Sig (Api.c_headers c)
    = Crypto.createHmac_sha256_hex key
        (signed_text (Api.X_App_Access_Ts (Api.c_headers c)) (Api.c_method c) url
           (Api.c_body c)).
Proof.
  assert (Hnil : forall l : list Api.Call, l = (l ++ [c])%list -> False).
  { intros l E. apply (f_equal length) in E. rewrite length_app in E. simpl in E. lia. }
  unfold_request.
  destruct (falsy (Some url)); [intros E; destruct (Hnil _ E)|].
  destruct (Api.SUMSUB_SECRET_KEY env) as [key|]; [|intros E; destruct (Hnil _ E)].
  cbn [fst snd Api.verificationCache Api.console Api.fetches Api.clock].
  match goal with |- context [Api.provider env ?n ?c] =>
    set (call := c); destruct (Api.provider env n call) as [t [r|f]] end;
    cbn [Api.fetched Api.took].
  - assert (E : forall x : Outcome Api.ApiError Api.Json * Api.State,
               Api.fetches (snd x) = (Api.fetches w ++ [call])%list ->
               Api.fetches (snd x) = (Api.fetches w ++ [c])%list -> call = c).
    { intros x E1 E2. rewrite E1 in E2. apply app_inj_tail in E2. tauto. }
    intros H. eapply E in H.
    + subst c. exists key. unfold signed_text.
      destruct body; repeat split; reflexivity.
    + destruct (Api.ok r); cbn [negb]; destruct (Api.r_json r); reflexivity.
  - cbn [snd Api.fetches]. intros E. apply app_inj_tail in E. destruct E as [_ <-].
    exists key. unfold signed_text. destruct body; repeat split; reflexivity.
Qed.

Ltac no_status :=
  unfold Api.new_Error, Api.invalid_key, Api.library_error; cbn [Api.e_status];
  discriminate.

(** X14.  An error of [sumsubRequest] carries a [status] only when the provider
    answered outside 2xx with a JSON body, which is then the error's
    [response]; when that body is not JSON the error is the one of the
    second read of the body, and the status is lost. *)
Theorem error_status_needs_json_body
    (env : Api.Env) (url method : string) (body : option Api.RequestBody)
    (w w' : Api.State) (e : Api.ApiError) (s : nat) :
  Api.sumsubRequest env url method body w = (Raise e, w') ->
  Api.e_status e = Some s ->
  exists c r j,
    Api.fetched (Api.provider env (length (Api.fetches w)) c) = Api.Responded r /\
    Api.r_status r = s /\ ~ 200 <= s < 300 /\
    Api.r_json r = Api.IsJson j /\ Api.e_response e = Some j.
Proof.
  unfold_request.
  destruct (falsy (Some url)); [intros [= <- <-]; no_status|].
  destruct (Api.SUMSUB_SECRET_KEY env) as [key|]; [|intros [= <- <-]; no_status].
  cbn [fst snd Api.verificationCache Api.console Api.fetches Api.clock].
  match goal with |- context [Api.provider env ?n ?c] =>
    set (call := c); destruct (Api.provider env n call) as [t [r|f]] eqn:P end;
    cbn [Api.fetched Api.took]; [|intros [= <- <-]; no_status].
  destruct (Api.ok r) eqn:K; cbn [negb];
    destruct (Api.r_json r) as [j'|f] eqn:J; intros [= <- <-]; try no_status.
  cbn [Api.e_status Api.e_response]. intros [= <-].
  exists call, r, j'. rewrite P. repeat split; trivial.
  intros R. apply ok_range in R. congruence.
Qed.

(** ** The provider API: links, resets and status checks *)

Section ApiCache.
Variable env : Api.Env.

Ltac unfold_api :=
  unfold Api.getWebSDKLink, Api.resetUserProfile, Api.checkUserStatus,
    Api.getVerificationStatus, Api.generate, Api.reGenerate,
    Api.Date_now, Api.console_log, Api.console_error, Api.console_emit,
    Api.cache_set, Api.cache_delete, Api.cache_get,
    run_bind, run_try, run_ret, run_throw;
  cbn [fst snd Api.verificationCache Api.console Api.fetches Api.clock].

Ltac request_in R :=
  match goal with
  | |- context [Api.sumsubRequest env ?u ?m ?b ?st] =>
      let C := fresh "C" in
      let N := fresh "N" in
      pose proof (sumsubRequest_cache env u m b st) as C;
      pose proof (sumsubRequest_calls env u m b st) as N;
      cbn [Api.verificationCache Api.console Api.fetches Api.clock] in C, N;
      destruct (Api.sumsubRequest env u m b st) as [[?j|?e] ?w] eqn:R;
      cbn [fst snd Api.verificationCache Api.console Api.fetches Api.clock] in *
  end.

Lemma getWebSDKLink_cases (levelName userId : option string) (options : Api.Options)
    (w : Api.State) :
  let out := Api.getWebSDKLink env levelName userId options w in
  length (Api.fetches w) <= length (Api.fetches (snd out)) <= S (length (Api.fetches w)) /\
  match fst out with
  | Ok j =>
      Api.verificationCache (snd out)
      = <[ userId := Api.Link (Api.j_url j) (Api.clock (snd out)) levelName ]>
          (Api.verificationCache w)
  | Raise _ => Api.verificationCache (snd out) = Api.verificationCache w
  end.
Proof.
  unfold_api. request_in R.
  - split; [exact N|]. now rewrite C.
  - split; [exact N|exact C].
Qed.

Lemma resetUserProfile_cases (userId : option string) (w : Api.State) :
  let out := Api.resetUserProfile env userId w in
  length (Api.fetches w) <= length (Api.fetches (snd out)) <= S (length (Api.fetches w)) /\
  match fst out with
  | Ok _ => Api.verificationCache (snd out) = delete userId (Api.verificationCache w)
  | Raise _ => Api.verificationCache (snd out) = Api.verificationCache w
  end.
Proof.
  unfold_api. destruct (falsy userId); [cbn; split; [lia|reflexivity]|].
  request_in R.
  - split; [exact N|]. now rewrite C.
  - split; [exact N|exact C].
Qed.

Lemma checkUserStatus_cases (userId : option string) (w : Api.State) :
  let out := Api.checkUserStatus env userId w in
  length (Api.fetches w) <= length (Api.fetches (snd out)) <= S (length (Api.fetches w)) /\
  match fst out, Api.verificationCache w !! userId with
  | Ok j, Some old =>
      Api.verificationCache (snd out)
      = <[ userId := Api.restamp old (or_else (Api.j_reviewStatus j) "unknown")
                       (Api.clock (snd out)) ]> (Api.verificationCache w)
  | _, _ => Api.verificationCache (snd out) = Api.verificationCache w
  end.
Proof.
  unfold_api. request_in R.
  - rewrite C. destruct (Api.verificationCache w !! userId) as [old|] eqn:L;
      cbn [fst snd Api.verificationCache Api.console Api.fetches Api.clock].
    + split; [exact N|]. now rewrite C.
    + split; [exact N|exact C].
  - split; [exact N|]. destruct (Api.verificationCache w !! userId); exact C.
Qed.

End ApiCache.

(** X15.  [getWebSDKLink] writes the cache exactly when the provider's answer
    came back: the entry of [userId] then holds the link, the time after the
    call and the level; when the request fails the cache is as it was. *)
Theorem getWebSDKLink_caches_on_success_only
    (env : Api.Env) (levelName userId : option string) (options : Api.Options)
    (w : Api.State) :
  let out := Api.getWebSDKLink env levelName userId options w in
  match fst out with
  | Ok j =>
      Api.verificationCache (snd out)
      = <[ userId := Api.Link (Api.j_url j) (Api.clock (snd out)) levelName ]>
          (Api.verificationCache w)
  | Raise _ => Api.verificationCache (snd out) = Api.verificationCache w
  end.
Proof. apply getWebSDKLink_cases. Qed.

(** X16.  [resetUserProfile] drops the user's cache entry only once the provider
    has confirmed the reset; a failed reset, or a missing user id, leaves the
    cache as it was. *)
Theorem resetUserProfile_evicts_on_success_only
    (env : Api.Env) (userId : option string) (w : Api.State) :
  let out := Api.resetUserProfile env userId w in
  match fst out with
  | Ok _ => Api.verificationCache (snd out) = delete userId (Api.verificationCache w)
  | Raise _ => Api.verificationCache (snd out) = Api.verificationCache w
  end.
Proof. apply resetUserProfile_cases. Qed.

(** X17.  [checkUserStatus] refreshes an entry that is there and never makes one:
    with an answer and an entry for [userId], the entry keeps its fields and
    gets the reported status ('unknown' when there is none) and the time of
    the check; without an answer, or without an entry, the cache is as it
    was. *)
Theorem checkUserStatus_refreshes_known_users_only
    (env : Api.Env) (userId : option string) (w : Api.State) :
  let out := Api.checkUserStatus env userId w in
  match fst out, Api.verificationCache w !! userId with
  | Ok j, Some old =>
      Api.verificationCache (snd out)
      = <[ userId := Api.restamp old (or_else (Api.j_reviewStatus j) "unknown")
                       (Api.clock (snd out)) ]> (Api.verificationCache w)
  | _, _ => Api.verificationCache (snd out) = Api.verificationCache w
  end.
Proof. apply checkUserStatus_cases. Qed.

(** X18.  [getVerificationStatus] never writes the cache.  For a cached user it
    answers with the entry and asks nobody; for any other user it asks the
    provider, and the answer is not remembered. *)
Theorem getVerificationStatus_never_writes
    (env : Api.Env) (userId : option string) (w : Api.State) :
  let out := Api.getVerificationStatus env userId w in
  Api.verificationCache (snd out) = Api.verificationCache w /\
  match Api.verificationCache w !! userId with
  | Some entry => out = (Ok (inl entry), w)
  | None => match fst out with
            | Ok (inl _) => False
            | Ok (inr j) => fst (Api.checkUserStatus env userId w) = Ok j
            | Raise e => fst (Api.checkUserStatus env userId w) = Raise e
            end
  end.
Proof.
  intros out. subst out.
  pose proof (checkUserStatus_cases env userId w) as (_ & H).
  unfold Api.getVerificationStatus, Api.cache_get, run_bind, run_ret.
  destruct (Api.verificationCache w !! userId) as [entry|] eqn:L.
  - split; reflexivity.
  - destruct (Api.checkUserStatus env userId w) as [[j|e] w1];
      cbn [fst snd] in *; split; trivial.
Qed.

(** ** The provider API: generate and reGenerate *)

Section ApiLinks.
Variable env : Api.Env.

Ltac unfold_links :=
  unfold Api.generate, Api.reGenerate, Api.getApplicantDocs, Api.getVerificationHistory,
    Api.console_log, Api.console_error, Api.console_emit,
    run_bind, run_try, run_ret, run_throw;
  cbn [fst snd Api.verificationCache Api.console Api.fetches Api.clock].

Lemma generate_cases (userId levelName : option string) (w : Api.State) :
  let out := Api.generate env userId levelName w in
  length (Api.fetches w) <= length (Api.fetches (snd out)) <= S (length (Api.fetches w)) /\
  match fst out with
  | Ok u =>
      Api.verificationCache (snd out)
      = <[ generated_key userId := Api.Link u (Api.clock (snd out)) (level_of levelName) ]>
          (Api.verificationCache w)
  | Raise _ => Api.verificationCache (snd out) = Api.verificationCache w
  end.
Proof.
  unfold_links. fold (level_of levelName). fold (generated_key userId).
  pose proof (getWebSDKLink_cases env (level_of levelName) (generated_key userId)
                {| Api.lang := Some "en"; Api.fixedFlow := Some true |} w) as H.
  cbv zeta in H.
  destruct (Api.getWebSDKLink env (level_of levelName) (generated_key userId) _ w)
    as [[j|e] w1]; cbn [fst snd Api.verificationCache Api.fetches Api.clock] in *; exact H.
Qed.

(** The link request: its call, when it is made. *)
Lemma getWebSDKLink_sent (levelName userId : option string) (options : Api.Options)
    (w : Api.State) :
  Api.fetches (snd (Api.getWebSDKLink env levelName userId options w))
  = match Api.SUMSUB_SECRET_KEY env with
    | Some key =>
        (Api.fetches w ++
           [call_of env key (link_path levelName) "POST"
              (Some {| Api.externalUserId := userId; Api.options := options |})
              w])%list
    | None => Api.fetches w
    end.
Proof.
  unfold Api.getWebSDKLink, Api.console_log, Api.console_emit, Api.Date_now, Api.cache_set,
    run_bind, run_ret.
  fold (link_path levelName).
  match goal with
  | |- context [Api.sumsubRequest env ?u ?m ?b ?st] =>
      pose proof (sumsubRequest_sent env u m b st) as S;
      destruct (Api.sumsubRequest env u m b st) as [[j|e] w1]
  end; cbn [fst snd Api.fetches] in *; rewrite S; unfold link_path; cbn [append];
    destruct (Api.SUMSUB_SECRET_KEY env); reflexivity.
Qed.

Lemma resetUserProfile_ok_sent (userId : option string) (w w' : Api.State) (j : Api.Json) :
  Api.resetUserProfile env userId w = (Ok j, w') ->
  exists key, Api.SUMSUB_SECRET_KEY env = Some key /\
    Api.fetches w' = (Api.fetches w ++ [call_of env key (reset_path userId) "POST" None w])%list.
Proof.
  unfold Api.resetUserProfile, Api.cache_delete, run_bind, run_ret, run_throw.
  destruct (falsy userId); [discriminate|]. fold (reset_path userId).
  destruct (Api.sumsubRequest env (reset_path userId) "POST" None w) as [[j1|e1] w1] eqn:R;
    [|discriminate].
  intros [= <- <-]. cbn [Api.fetches]. exact (sumsubRequest_ok_sent env _ _ _ _ _ _ R).
Qed.

Lemma reGenerate_cases (userId levelName : option string) (w : Api.State) :
  let out := Api.reGenerate env userId levelName w in
  match fst out with
  | Ok u =>
      Api.verificationCache (snd out)
      = <[ userId := Api.Link u (Api.clock (snd out)) (level_of levelName) ]>
          (Api.verificationCache w) /\
      exists c1 c2,
        Api.fetches (snd out) = (Api.fetches w ++ [c1; c2])%list /\
        Api.c_url c1 = show (Api.SUMSUB_BASE_URL env) +:+ reset_path userId /\
        Api.c_body c1 = None /\
        Api.c_url c2 = show (Api.SUMSUB_BASE_URL env) +:+ link_path (level_of levelName) /\
        Api.c_body c2
        = Some (Api.JSON_stringify {| Api.externalUserId := userId;
                                      Api.options := Api.no_options |})
  | Raise _ =>
      (Api.verificationCache (snd out) = Api.verificationCache w /\
       length (Api.fetches (snd out)) <= S (length (Api.fetches w))) \/
      (Api.verificationCache (snd out) = delete userId (Api.verificationCache w) /\
       length (Api.fetches (snd out)) = S (S (length (Api.fetches w))))
  end.
Proof.
  unfold_links. fold (level_of levelName).
  destruct (falsy userId) eqn:F; [cbn; left; split; [reflexivity|lia]|].
  cbn [fst snd Api.verificationCache Api.console Api.fetches Api.clock].
  match goal with |- context [Api.resetUserProfile env userId ?st] => set (w0 := st) end.
  pose proof (resetUserProfile_cases env userId w0) as (N1 & C1).
  destruct (Api.resetUserProfile env userId w0) as [[j1|e1] w1] eqn:R1;
    cbn [fst snd Api.verificationCache Api.console Api.fetches Api.clock] in *.
  2:{ left. split; [exact C1|exact (proj2 N1)]. }
  destruct (resetUserProfile_ok_sent _ _ _ _ R1) as (key & K & S1).
  match goal with |- context [Api.getWebSDKLink env ?l ?u ?o ?st] =>
    pose proof (getWebSDKLink_cases env l u o st) as (_ & C2);
    pose proof (getWebSDKLink_sent l u o st) as S2;
    destruct (Api.getWebSDKLink env l u o st) as [[j2|e2] w2]
  end; rewrite K in S2;
    cbn [fst snd Api.verificationCache Api.console Api.fetches Api.clock] in *.
  - split.
    + rewrite C2, C1, insert_delete_eq. reflexivity.
    + eexists _, _. split; [|split; [|split; [|split]]].
      * rewrite S2, S1, <- app_assoc. reflexivity.
      * reflexivity.
      * reflexivity.
      * reflexivity.
      * reflexivity.
  - right. split; [rewrite C2; exact C1|]. rewrite S2, S1, !length_app. simpl. lia.
Qed.

Lemma generated_key_is_not_the_id (userId : option string) : generated_key userId <> userId.
Proof.
  unfold generated_key. destruct userId as [s|]; [|discriminate].
  intros [= E]. apply (f_equal String.length) in E.
  rewrite append_length in E. simpl in E. lia.
Qed.

End ApiLinks.

Section ApiRefusals.
Variable env : Api.Env.
Hypothesis no_key : Api.SUMSUB_SECRET_KEY env = None.

Lemma sumsubRequest_refused (url method : string) (body : option Api.RequestBody)
    (w : Api.State) :
  refused (Api.sumsubRequest env url method body) w.
Proof.
  pose proof (sumsubRequest_sent env url method body w) as S.
  destruct (sumsubRequest_frame env url method body w) as (C & _ & [[F E]|[c F]]).
  - repeat split; assumption.
  - rewrite no_key in S. rewrite S in F.
    apply (f_equal length) in F. rewrite length_app in F. simpl in F.
    destruct url; lia.
Qed.

Ltac refuse :=
  match goal with
  | |- context [Api.sumsubRequest env ?u ?m ?b ?st] =>
      destruct (sumsubRequest_refused u m b st) as ([e E] & F & C);
      destruct (Api.sumsubRequest env u m b st) as [[j|e'] w1];
      cbn [fst snd Api.verificationCache Api.console Api.fetches Api.clock] in *;
      [discriminate|]; repeat split; eauto
  end.

Lemma getWebSDKLink_refused (levelName userId : option string) (options : Api.Options)
    (w : Api.State) :
  refused (Api.getWebSDKLink env levelName userId options) w.
Proof.
  unfold refused, Api.getWebSDKLink, Api.console_log, Api.console_emit, Api.Date_now,
    Api.cache_set, run_bind, run_ret. refuse.
Qed.

Lemma resetUserProfile_refused (userId : option string) (w : Api.State) :
  refused (Api.resetUserProfile env userId) w.
Proof.
  unfold refused, Api.resetUserProfile, Api.cache_delete, run_bind, run_ret, run_throw.
  destruct (falsy userId); [cbn; eauto|]. refuse.
Qed.

Lemma checkUserStatus_refused (userId : option string) (w : Api.State) :
  refused (Api.checkUserStatus env userId) w.
Proof.
  unfold refused, Api.checkUserStatus, Api.cache_get, Api.cache_set, Api.Date_now,
    run_bind, run_ret. refuse.
Qed.

End ApiRefusals.

(** X19.  Without SUMSUB_SECRET_KEY nothing leaves the process: every function
    that would ask the provider throws instead, before any call, and the
    cache is as it was. *)
Theorem missing_secret_key_sends_nothing
    (env : Api.Env) (userId levelName : option string) (w : Api.State) :
  Api.SUMSUB_SECRET_KEY env = None ->
  refused (Api.generate env userId levelName) w /\
  refused (Api.reGenerate env userId levelName) w /\
  refused (Api.checkUserStatus env userId) w /\
  refused (Api.resetUserProfile env userId) w /\
  refused (Api.getApplicantDocs env userId) w /\
  refused (Api.getVerificationHistory env userId) w.
Proof.
  intros K. split; [|split; [|split; [|split; [|split]]]].
  - unfold refused, Api.generate, Api.console_error, Api.console_emit,
      run_try, run_bind, run_ret, run_throw.
    match goal with |- context [Api.getWebSDKLink env ?l ?u ?o w] =>
      destruct (getWebSDKLink_refused env K l u o w) as ([e E] & F & C);
      destruct (Api.getWebSDKLink env l u o w) as [[j|e'] w1] end;
      cbn [fst snd Api.verificationCache Api.console Api.fetches Api.clock] in *;
      [discriminate|]. repeat split; eauto.
  - unfold refused, Api.reGenerate, Api.console_log, Api.console_error, Api.console_emit,
      run_try, run_bind, run_ret, run_throw.
    destruct (falsy userId); [cbn; eauto|].
    cbn [fst snd Api.verificationCache Api.console Api.fetches Api.clock].
    match goal with |- context [Api.resetUserProfile env userId ?st] =>
      destruct (resetUserProfile_refused env K userId st) as ([e E] & F & C);
      destruct (Api.resetUserProfile env userId st) as [[j|e'] w1] end;
      cbn [fst snd Api.verificationCache Api.console Api.fetches Api.clock] in *;
      [discriminate|]. repeat split; eauto.
  - apply checkUserStatus_refused, K.
  - apply resetUserProfile_refused, K.
  - apply sumsubRequest_refused, K.
  - apply sumsubRequest_refused, K.
Qed.

Lemma missing_secret_key_sends_nothing_witness :
  refused (Api.generate api_no_key (Some "42") None) state0.
Proof.
  exact (proj1 (missing_secret_key_sends_nothing api_no_key (Some "42") None state0
                  eq_refl)).
Defined.

(** X20.  A successful [reGenerate] has reset the applicant and then asked for a
    link, in this order and with nothing else sent; the user's cache entry
    is the new link. *)
Theorem reGenerate_resets_then_links
    (env : Api.Env) (userId levelName : option string) (w w' : Api.State)
    (u : option string) :
  Api.reGenerate env userId levelName w = (Ok u, w') ->
  Api.verificationCache w'
  = <[ userId := Api.Link u (Api.clock w') (level_of levelName) ]>
      (Api.verificationCache w) /\
  exists c1 c2,
    Api.fetches w' = (Api.fetches w ++ [c1; c2])%list /\
    Api.c_url c1 = show (Api.SUMSUB_BASE_URL env) +:+ reset_path userId /\
    Api.c_body c1 = None /\
    Api.c_url c2 = show (Api.SUMSUB_BASE_URL env) +:+ link_path (level_of levelName) /\
    Api.c_body c2
    = Some (Api.JSON_stringify {| Api.externalUserId := userId;
                                  Api.options := Api.no_options |}).
Proof.
  intros R. pose proof (reGenerate_cases env userId levelName w) as H.
  cbv zeta in H. rewrite R in H. exact H.
Qed.

Lemma reGenerate_resets_then_links_witness :
  Api.verificationCache (snd (Api.reGenerate api_up (Some "42") None state_linked))
  = <[ Some "42" := Api.Link (Some "https://in.sumsub.com/websdk/p/abc") 1700000000363
                      (Some "kyc_verification") ]>
      (Api.verificationCache state_linked).
Proof.
  refine (proj1 (reGenerate_resets_then_links api_up (Some "42") None state_linked
                   (snd (Api.reGenerate api_up (Some "42") None state_linked))
                   (Some "https://in.sumsub.com/websdk/p/abc") _)).
  vm_compute. reflexivity.
Defined.

(** X21.  [reGenerate] is not undone when its second step fails: if it throws
    after two calls, the reset went through and the link did not, and the
    user's cache entry is gone. *)
Theorem failed_link_after_reset_forgets_the_user
    (env : Api.Env) (userId levelName : option string) (w w' : Api.State)
    (e : Api.ApiError) :
  Api.reGenerate env userId levelName w = (Raise e, w') ->
  length (Api.fetches w') = 2 + length (Api.fetches w) ->
  Api.verificationCache w' = delete userId (Api.verificationCache w).
Proof.
  intros R L. pose proof (reGenerate_cases env userId levelName w) as H.
  cbv zeta in H. rewrite R in H. cbn [fst snd] in H.
  destruct H as [[_ H]|[H _]]; [lia|exact H].
Qed.

Lemma failed_link_after_reset_forgets_the_user_witness :
  Api.verificationCache (snd (Api.reGenerate api_flaky (Some "42") None state_linked))
  = delete (Some "42") (Api.verificationCache state_linked).
Proof.
  refine (failed_link_after_reset_forgets_the_user api_flaky (Some "42") None state_linked
            (snd (Api.reGenerate api_flaky (Some "42") None state_linked))
            (Api.library_error {| Api.f_name := "TypeError";
                                  Api.f_message := "body used already for: https://api.sumsub.com/" |})
            _ _).
  - vm_compute. reflexivity.
  - vm_compute. reflexivity.
Defined.

(** X22.  What [generate] caches for [userId] is filed under 'user_' followed by
    the id, and the functions that take the same [userId] look under the id
    itself: a status check, a reset or a regeneration for that user leaves
    the generated entry where it is, and [generate] leaves the entry of the
    id itself as it found it. *)
Theorem generated_entry_is_out_of_reach
    (env : Api.Env) (userId levelName levelName' : option string) (w w1 : Api.State)
    (u : option string) :
  Api.generate env userId levelName w = (Ok u, w1) ->
  let entry := Some (Api.Link u (Api.clock w1) (level_of levelName)) in
  Api.verificationCache w1 !! generated_key userId = entry /\
  Api.verificationCache w1 !! userId = Api.verificationCache w !! userId /\
  Api.verificationCache (snd (Api.checkUserStatus env userId w1)) !! generated_key userId
  = entry /\
  Api.verificationCache (snd (Api.resetUserProfile env userId w1)) !! generated_key userId
  = entry /\
  Api.verificationCache (snd (Api.reGenerate env userId levelName' w1))
    !! generated_key userId = entry.
Proof.
  intros G entry.
  pose proof (generated_key_is_not_the_id userId) as D.
  pose proof (generate_cases env userId levelName w) as (_ & H).
  rewrite G in H. cbn [fst snd] in H.
  assert (E : Api.verificationCache w1 !! generated_key userId = entry).
  { rewrite H. apply lookup_insert_eq. }
  split; [exact E|]. split; [rewrite H; now apply lookup_insert_ne|].
  split; [|split].
  - pose proof (checkUserStatus_cases env userId w1) as (_ & C).
    destruct (fst (Api.checkUserStatus env userId w1)),
      (Api.verificationCache w1 !! userId); rewrite C; trivial.
    rewrite lookup_insert_ne by congruence. exact E.
  - pose proof (resetUserProfile_cases env userId w1) as (_ & C).
    destruct (fst (Api.resetUserProfile env userId w1)); rewrite C; trivial.
    rewrite lookup_delete_ne by congruence. exact E.
  - pose proof (reGenerate_cases env userId levelName' w1) as C. cbv zeta in C.
    destruct (fst (Api.reGenerate env userId levelName' w1)).
    + destruct C as [C _]. rewrite C, lookup_insert_ne by congruence. exact E.
    + destruct C as [[C _]|[C _]]; rewrite C; trivial.
      rewrite lookup_delete_ne by congruence. exact E.
Qed.

Lemma generated_entry_is_out_of_reach_witness :
  Api.verificationCache
    (snd (Api.reGenerate api_up (Some "42") None
            (snd (Api.generate api_up (Some "42") None state0))))
    !! Some "user_42"
  = Some (Api.Link (Some "https://in.sumsub.com/websdk/p/abc") 1700000000243
            (Some "kyc_verification")).
Proof.
  refine (proj2 (proj2 (proj2 (proj2
            (generated_entry_is_out_of_reach api_up (Some "42") None None state0
               (snd (Api.generate api_up (Some "42") None state0))
               (Some "https://in.sumsub.com/websdk/p/abc") _))))).
  vm_compute. reflexivity.
Defined.

Lemma sumsubRequest_returns_2xx_json_witness :
  exists c r,
    Api.fetches (snd (Api.sumsubRequest api_up "/resources/applicants/42/reset" "POST"
                        None state0))
    = (Api.fetches state0 ++ [c])%list /\
    Api.fetched (Api.provider api_up (length (Api.fetches state0)) c) = Api.Responded r /\
    200 <= Api.r_status r < 300 /\
    Api.r_json r = Api.IsJson link_json.
Proof.
  refine (sumsubRequest_returns_2xx_json api_up "/resources/applicants/42/reset" "POST"
            None state0 _ link_json _).
  vm_compute. reflexivity.
Defined.

Lemma sumsubRequest_signs_what_it_sends_witness :
  exists key,
    Api.SUMSUB_SECRET_KEY api_up = Some key /\
    Api.c_url (call_of api_up "k3y" "/resources/applicants/42/reset" "post" None state0)
    = show (Api.SUMSUB_BASE_URL api_up) +:+ "/resources/applicants/42/reset" /\
    Api.X_App_Access_Ts
      (Api.c_headers (call_of api_up "k3y" "/resources/applicants/42/reset" "post" None
                        state0))
    = (Api.clock state0 / 1000)%N /\
    Api.X_App_Access_Sig
      (Api.c_headers (call_of api_up "k3y" "/resources/applicants/42/reset" "post" None
                        state0))
    = Crypto.createHmac_sha256_hex key
        (signed_text 1700000000 "post" "/resources/applicants/42/reset" None).
Proof.
  refine (sumsubRequest_signs_what_it_sends api_up "/resources/applicants/42/reset" "post"
            None state0
            (call_of api_up "k3y" "/resources/applicants/42/reset" "post" None state0) _).
  vm_compute. reflexivity.
Defined.

Lemma error_status_needs_json_body_witness :
  exists c r j,
    Api.fetched (Api.provider api_404 (length (Api.fetches state0)) c) = Api.Responded r /\
    Api.r_status r = 404 /\ ~ 200 <= 404 < 300 /\
    Api.r_json r = Api.IsJson j /\
    Api.e_response
      {| Api.e_name := "Error";
         Api.e_message := "Sumsub API error: 404 - Applicant not found";
         Api.e_status := Some 404;
         Api.e_response := Some error_json |} = Some j.
Proof.
  refine (error_status_needs_json_body api_404
            "/resources/applicants/-;externalUserId=42/one" "GET" None state0
            (snd (Api.sumsubRequest api_404 "/resources/applicants/-;externalUserId=42/one"
                    "GET" None state0))
            {| Api.e_name := "Error";
               Api.e_message := "Sumsub API error: 404 - Applicant not found";
               Api.e_status := Some 404;
               Api.e_response := Some error_json |}
            404 _ eq_refl).
  vm_compute. reflexivity.
Defined.

(** ** encodeURIComponent *)

Section Encoding.

Lemma percent_digits (c : ascii) :
  let n := Z.of_nat (nat_of_ascii c) in
  let hi := upper (Crypto.hex_digit (n / 16)) in
  let lo := upper (Crypto.hex_digit (n mod 16)) in
  from_hex hi lo = c /\ Api.unreserved hi = true /\ Api.unreserved lo = true.
Proof.
  destruct c as [[] [] [] [] [] [] [] []]; vm_compute; repeat split; reflexivity.
Qed.

Lemma percent_inj (c c' : ascii) (r r' : string) :
  Api.percent c r = Api.percent c' r' -> c = c' /\ r = r'.
Proof.
  unfold Api.percent. intros [= H L R].
  destruct (percent_digits c) as (E & _), (percent_digits c') as (E' & _).
  cbv zeta in E, E'. rewrite H, L in E. split; [congruence|exact R].
Qed.

End Encoding.

(** X23.  What [encodeURIComponent] puts out consists of unreserved characters
    and percent signs only: no slash, semicolon, equals sign, question mark
    or hash, so an id cannot add a segment or a parameter to the path it is
    put in. *)
Theorem encodeURIComponent_is_url_safe (s : string) :
  all_chars url_safe (Api.encodeURIComponent s) = true /\
  forallb (fun c => negb (url_safe c)) ["/"; ";"; "="; "?"; "#"; "&"; " "]%char = true.
Proof.
  split; [|reflexivity].
  induction s as [|c s IH]; [reflexivity|].
  cbn [Api.encodeURIComponent]. destruct (Api.unreserved c) eqn:U.
  - cbn [all_chars]. unfold url_safe at 1. rewrite U. exact IH.
  - unfold Api.percent. destruct (percent_digits c) as (_ & H & L). cbv zeta in H, L.
    cbn [all_chars]. unfold url_safe at 1 2 3. rewrite H, L, IH. reflexivity.
Qed.

(** X24.  [encodeURIComponent] loses nothing: two ids with the same encoding are
    the same id, so two users never share a request path. *)
Theorem encodeURIComponent_is_injective (s t : string) :
  Api.encodeURIComponent s = Api.encodeURIComponent t -> s = t.
Proof.
  revert t. induction s as [|c s IH]; intros [|d t]; cbn [Api.encodeURIComponent].
  - reflexivity.
  - unfold Api.percent. destruct (Api.unreserved d); discriminate.
  - unfold Api.percent. destruct (Api.unreserved c); discriminate.
  - destruct (Api.unreserved c) eqn:Uc, (Api.unreserved d) eqn:Ud.
    + intros [= -> E]. f_equal. apply IH, E.
    + unfold Api.percent. intros [= -> _]. discriminate.
    + unfold Api.percent. intros [= <- _]. discriminate.
    + intros E. apply percent_inj in E as [-> E]. f_equal. apply IH, E.
Qed.

Lemma encodeURIComponent_is_injective_witness : "user 42/a" = "user 42/a".
Proof. exact (encodeURIComponent_is_injective "user 42/a" "user 42/a" eq_refl). Defined.

(** ** The link routes of the smaller server *)

Section LinkRoutes.
Variable env : Api.Env.

(** POST /api/generate-sumsub-link on the smaller server always answers:
    with the link, which is then cached under 'user_' followed by the id, or
    with status 500 and the cache as it was. *)
Lemma generate_sumsub_link_cases (userId levelName : option string) (w : Api.State) :
  let out := Links2.generate_sumsub_link (Api.generate env) userId levelName w in
  match fst out with
  | Ok (Links2.LinkUrl u) =>
      Api.verificationCache (snd out)
      = <[ generated_key userId := Api.Link u (Api.clock (snd out)) (level_of levelName) ]>
          (Api.verificationCache w)
  | Ok (Links2.LinkError code _) =>
      code = 500 /\ Api.verificationCache (snd out) = Api.verificationCache w
  | Raise _ => False
  end.
Proof.
  pose proof (generate_cases env userId levelName w) as (_ & H).
  unfold Links2.generate_sumsub_link, Api.console_error, Api.console_emit,
    run_try, run_bind, run_ret.
  destruct (Api.generate env userId levelName w) as [[u|e] w1];
    cbn [fst snd Api.verificationCache Api.clock] in *; [exact H|split; [reflexivity|exact H]].
Qed.

End LinkRoutes.

(** X25.  The generate route of the smaller server turns no request away: with a
    secret key configured it asks the provider for a link whatever the body
    holds, for the user 'user_undefined' when there is no [userId]. *)
Theorem generate_route_asks_for_any_id
    (env : Api.Env) (key : string) (userId levelName : option string) (w : Api.State) :
  Api.SUMSUB_SECRET_KEY env = Some key ->
  Api.fetches (snd (Links2.generate_sumsub_link (Api.generate env) userId levelName w))
  = (Api.fetches w ++
       [call_of env key (link_path (level_of levelName)) "POST"
          (Some {| Api.externalUserId := Some ("user_" +:+ show userId);
                   Api.options := {| Api.lang := Some "en"; Api.fixedFlow := Some true |} |})
          w])%list.
Proof.
  intros K.
  unfold Links2.generate_sumsub_link, Api.generate, Api.console_error, Api.console_emit,
    run_try, run_bind, run_ret, run_throw. fold (level_of levelName).
  match goal with |- context [Api.getWebSDKLink env ?l ?u ?o w] =>
    pose proof (getWebSDKLink_sent env l u o w) as S;
    destruct (Api.getWebSDKLink env l u o w) as [[j|e] w1] end;
    rewrite K in S; cbn [fst snd Api.fetches] in *; exact S.
Qed.

Lemma generate_route_asks_for_any_id_witness :
  Api.c_body <$> Api.fetches
    (snd (Links2.generate_sumsub_link (Api.generate api_up) None None state0))
  = [Some ("{" +:+ member "externalUserId" "user_undefined" +:+ ","
              +:+ member "lang" "en" +:+ ","
              +:+ dquote +:+ "fixedFlow" +:+ dquote +:+ ":true}")].
Proof.
  rewrite (generate_route_asks_for_any_id api_up "k3y" None None state0 eq_refl).
  vm_compute. reflexivity.
Defined.

(** The regenerate route of the smaller server asks nobody when the body
    has no [userId] (or an empty one): it answers 500 with the message of
    [reGenerate], and the cache is as it was. *)
Theorem regenerate_route_needs_an_id
    (env : Api.Env) (userId levelName : option string) (w : Api.State) :
  falsy userId = true ->
  let out := Links2.regenerate_sumsub_link (Api.reGenerate env) userId levelName w in
  fst out = Ok (Links2.LinkError 500 "User ID is required for regeneration") /\
  Api.fetches (snd out) = Api.fetches w /\
  Api.verificationCache (snd out) = Api.verificationCache w.
Proof.
  intros F. unfold Links2.regenerate_sumsub_link, Api.reGenerate, Api.console_error,
    Api.console_emit, run_try, run_bind, run_ret, run_throw.
  rewrite F. cbn. repeat split.
Qed.

Lemma regenerate_route_needs_an_id_witness :
  fst (Links2.regenerate_sumsub_link (Api.reGenerate api_up) None None state0)
  = Ok (Links2.LinkError 500 "User ID is required for regeneration").
Proof.
  exact (proj1 (regenerate_route_needs_an_id api_up None None state0 eq_refl)).
Defined.

(** The generate route of the smaller server always answers: with the
    link, which is then cached under 'user_' followed by the id, or with
    status 500 and the cache as it was. *)
Theorem generate_route_answers_link_or_500
    (env : Api.Env) (userId levelName : option string) (w : Api.State) :
  let out := Links2.generate_sumsub_link (Api.generate env) userId levelName w in
  match fst out with
  | Ok (Links2.LinkUrl u) =>
      Api.verificationCache (snd out)
      = <[ generated_key userId := Api.Link u (Api.clock (snd out)) (level_of levelName) ]>
          (Api.verificationCache w)
  | Ok (Links2.LinkError code _) =>
      code = 500 /\ Api.verificationCache (snd out) = Api.verificationCache w
  | Raise _ => False
  end.
Proof. apply generate_sumsub_link_cases. Qed.

(** ** server.js: the Authorization header *)

Section Bearer.

Lemma cut_bearer (rest : string) :
  JsString.cut " " ("Bearer " +:+ rest) = Some ("Bearer", rest).
Proof. reflexivity. Qed.

(** The piece before the first separator holds no separator. *)
Lemma cut_prefix_absent (m s p r : string) :
  m <> "" -> JsString.cut m s = Some (p, r) -> absent m p.
Proof.
  intros Hm C. destruct (cut_Some _ _ _ _ C) as [E Hmin].
  intros p' r' Hp. subst p.
  specialize (Hmin p' (r' +:+ m +:+ r)).
  rewrite E, !append_assoc in Hmin. specialize (Hmin eq_refl).
  rewrite !append_length in Hmin. destruct m; [contradiction|]. simpl in Hmin. lia.
Qed.

Lemma bearer_token (h : string) :
  JsString.startsWith "Bearer " h = true ->
  exists tok rest,
    JsString.split " " h !! 1%nat = Some tok /\
    h = "Bearer " +:+ tok +:+ rest /\
    absent " " tok /\
    (rest = "" \/ JsString.startsWith " " rest = true).
Proof.
  intros B. apply startsWith_inv in B.
  assert (H : exists r0, h = "Bearer " +:+ r0) by eauto. clear B.
  destruct H as [r0 ->]. rewrite split_second, cut_bearer.
  destruct (JsString.cut " " r0) as [[q r]|] eqn:C.
  - exists q, (" " +:+ r). split; [reflexivity|].
    destruct (cut_Some _ _ _ _ C) as [E _].
    split; [rewrite E; reflexivity|].
    split; [exact (cut_prefix_absent " " r0 q r ltac:(discriminate) C)|].
    right. reflexivity.
  - exists r0, "". split; [reflexivity|].
    split; [rewrite append_empty_r; reflexivity|].
    split; [exact (cut_None _ _ C)|]. left. reflexivity.
Qed.

End Bearer.

(** X26.  The middleware of the second copy of the server lets a request through
    only with a token in hand: the header is then 'Bearer ', the token, and
    nothing or a space and more; the token is not empty and holds no
    space. *)
Theorem local_authentication_attaches_second_word
    (authorization : option string) (token : string) :
  Gateway.authenticateUser_local authorization = Gateway.Next token ->
  exists rest,
    authorization = Some ("Bearer " +:+ token +:+ rest) /\
    token <> "" /\ absent " " token /\
    (rest = "" \/ JsString.startsWith " " rest = true).
Proof.
  unfold Gateway.authenticateUser_local, Gateway.no_bearer.
  destruct authorization as [h|]; [|discriminate].
  destruct (JsString.startsWith "Bearer " h) eqn:B; cbn [negb show]; [|discriminate].
  destruct (bearer_token h B) as (tok & rest & S & E & A & R). rewrite S.
  destruct tok as [|c tok]; [discriminate|]. cbn [falsy show].
  intros [= <-]. exists rest.
  split; [now rewrite E|]. split; [discriminate|]. split; assumption.
Qed.

Lemma local_authentication_attaches_second_word_witness :
  exists rest,
    Some "Bearer abc def" = Some ("Bearer " +:+ "abc" +:+ rest) /\
    "abc" <> "" /\ absent " " "abc" /\
    (rest = "" \/ JsString.startsWith " " rest = true).
Proof.
  exact (local_authentication_attaches_second_word (Some "Bearer abc def") "abc" eq_refl).
Defined.


(** When Django never answers, a request with a Bearer header is left
    without an answer. *)
Lemma silent_django_leaves_the_caller_waiting :
  fst (Gateway.authenticateUser gateway_silent (Some "Bearer abc") gateway0)
  = Raise Gateway.Pending.
Proof. vm_compute. reflexivity. Qed.

(** ** server.js: the admin routes and their cache *)

Section AdminCache.
Variable env : Gateway.Env.

Ltac unfold_gateway :=
  unfold Gateway.through_cache, Gateway.handleDjangoError, Gateway.axios_get,
    Gateway.cache_get, Gateway.cache_set, Gateway.Date_now, Gateway.console_error,
    Gateway.asked, Gateway.left_waiting, Gateway.never_settles, Gateway.try_catch,
    Gateway.throw, run_try, run_bind, run_ret, run_throw;
  cbn [fst snd Gateway.verificationCache Gateway.console Gateway.gets Gateway.clock
       Gateway.g_timeout admin_get].

Ltac answered :=
  cbn [fst snd Gateway.verificationCache Gateway.gets Gateway.clock];
  (split; [reflexivity|]); right; (split; [reflexivity|]); (split; [reflexivity|]).

Ltac asks U :=
  match goal with
  | |- context [Gateway.unanswered env ?k ?g] =>
      destruct (Gateway.unanswered env k g) eqn:U
  end;
  [ split; [reflexivity|]; left; repeat split
  | match goal with
    | |- context [settled ?reply] => destruct (settled reply) as [?r|?msg [?r|]]
    end;
    unfold_gateway; cbn [err_response message relayed_status];
    [ answered; split; reflexivity
    | match goal with
      | |- context [(res_status ?x =? 404)%nat] =>
          destruct (Nat.eqb_spec (res_status x) 404) as [?E|?E]
      end;
      answered; (split; [|reflexivity]); eexists; (split; [reflexivity|]);
      cbn [Gateway.status Gateway.content]; (split; [congruence|discriminate])
    | answered; (split; [|reflexivity]); eexists; (split; [reflexivity|]);
      cbn [Gateway.status Gateway.content]; (split; [reflexivity|discriminate]) ] ].

Lemma admin_route_cases (key url context : string) (w : Gateway.State) :
  let out := admin_route env key url context w in
  let g := admin_get env url in
  let reply := Gateway.django env (length (Gateway.gets w)) g in
  (exists c, Gateway.verificationCache w !! key = Some c /\
             Gateway.fresh (Gateway.clock w) c = true /\
             out = (Ok {| Gateway.status := 200;
                          Gateway.content := Gateway.Payload (Gateway.data c) |}, w)) \/
  ((forall c, Gateway.verificationCache w !! key = Some c ->
              Gateway.fresh (Gateway.clock w) c = false) /\
   Gateway.gets (snd out) = (Gateway.gets w ++ [g])%list /\
   ((Gateway.unanswered env (length (Gateway.gets w)) g = true /\
     fst out = Raise Gateway.Pending /\
     Gateway.verificationCache (snd out) = Gateway.verificationCache w) \/
    (Gateway.unanswered env (length (Gateway.gets w)) g = false /\
     Gateway.clock (snd out) = (Gateway.clock w + elapsed reply)%N /\
     match settled reply with
     | Fulfilled r =>
         fst out = Ok {| Gateway.status := 200;
                         Gateway.content := Gateway.Payload (res_data r) |} /\
         Gateway.verificationCache (snd out)
         = <[ key := {| Gateway.data := res_data r;
                        Gateway.timestamp := Gateway.clock (snd out) |} ]>
             (Gateway.verificationCache w)
     | Rejected msg r =>
         (exists a, fst out = Ok a /\ Gateway.status a = relayed_status r /\
                    forall d, Gateway.content a <> Gateway.Payload d) /\
         Gateway.verificationCache (snd out) = Gateway.verificationCache w
     end))).
Proof.
  unfold admin_route. unfold_gateway. fold (admin_get env url).
  destruct (Gateway.verificationCache w !! key) as [c|] eqn:L;
    cbn [fst snd Gateway.verificationCache Gateway.console Gateway.gets Gateway.clock].
  - destruct (Gateway.fresh (Gateway.clock w) c) eqn:F.
    + left. exists c. repeat split; trivial.
    + right. split; [intros c' [= <-]; exact F|]. asks U.
  - right. split; [discriminate|]. asks U.
Qed.

End AdminCache.
(** X28.  What an admin route has fetched it sends again for the next 30
    seconds without asking Django: after a call that asked Django and sent
    its data, a call made while the entry is in the cache and less than
    30000 ms have passed sends the same data and leaves the state as it
    is. *)
Theorem admin_answer_is_served_again_for_30s
    (env : Gateway.Env) (userId : string) (w w1 w2 : Gateway.State)
    (a : Gateway.Answer) (d : string) :
  Gateway.admin_verification env userId w = (Ok a, w1) ->
  sends a d ->
  length (Gateway.gets w1) = S (length (Gateway.gets w)) ->
  Gateway.verificationCache w2 !! verification_key userId
  = Gateway.verificationCache w1 !! verification_key userId ->
  (Gateway.clock w1 <= Gateway.clock w2 < Gateway.clock w1 + 30000)%N ->
  exists a', sends a' d /\ Gateway.admin_verification env userId w2 = (Ok a', w2).
Proof.
  intros R -> G C T.
  set (url := Server.DJANGO_API_BASE_URL +:+ "/kyc/verifications/" +:+ userId +:+ "/").
  pose proof (admin_route_cases env (verification_key userId) url
                "fetching verification" w) as H1.
  pose proof (admin_route_cases env (verification_key userId) url
                "fetching verification" w2) as H2.
  change (admin_route env (verification_key userId) url "fetching verification")
    with (Gateway.admin_verification env userId) in H1, H2.
  cbv zeta in H1, H2. rewrite R in H1. cbn [fst snd] in H1.
  destruct H1 as [(c & _ & _ & E)|(_ & _ & [(_ & E & _)|(_ & K & H1)])].
  { injection E as _ <-. lia. }
  { discriminate. }
  destruct (settled _) as [r|msg r] in H1.
  2:{ destruct H1 as [(a & [= <-] & _ & N) _]. destruct (N d eq_refl). }
  destruct H1 as ([= <-] & E1).
  assert (L : Gateway.verificationCache w2 !! verification_key userId
              = Some {| Gateway.data := d;
                        Gateway.timestamp := Gateway.clock w1 |}).
  { rewrite C, E1. apply lookup_insert_eq. }
  destruct H2 as [(c & L2 & _ & E)|(F & _)].
  - rewrite L in L2. injection L2 as <-. eexists. split; [reflexivity|exact E].
  - specialize (F _ L). unfold Gateway.fresh in F. cbn [Gateway.timestamp] in F.
    apply Z.ltb_ge in F. lia.
Qed.

Lemma admin_answer_is_served_again_for_30s_witness :
  exists a',
    sends a' "[]" /\
    Gateway.admin_verification gateway_up "42"
      (snd (Gateway.admin_verification gateway_up "42" gateway0))
    = (Ok a', snd (Gateway.admin_verification gateway_up "42" gateway0)).
Proof.
  refine (admin_answer_is_served_again_for_30s gateway_up "42" gateway0
            (snd (Gateway.admin_verification gateway_up "42" gateway0))
            (snd (Gateway.admin_verification gateway_up "42" gateway0))
            {| Gateway.status := 200; Gateway.content := Gateway.Payload "[]" |}
            "[]" _ eq_refl _ eq_refl _).
  - vm_compute. reflexivity.
  - vm_compute. reflexivity.
  - vm_compute. split; [discriminate|reflexivity].
Defined.

(** X29.  An admin route asks Django exactly when the cache has no entry
    younger than 30 seconds for its key.  Its GET sets no timeout: when
    Django never answers it the route sends nothing, and this is the only
    way it fails to answer; it never throws.  When Django is asked and
    fails, the answer carries Django's status (500 when there was no
    response at all), never Django's data, and the cache is as it was: an
    entry that has expired stays where it is. *)
Theorem admin_failure_relays_status_and_keeps_cache
    (env : Gateway.Env) (userId : string) (w : Gateway.State) :
  let out := Gateway.admin_verification env userId w in
  let g := admin_get env (Server.DJANGO_API_BASE_URL +:+ "/kyc/verifications/"
                            +:+ userId +:+ "/") in
  let k := length (Gateway.gets w) in
  (Gateway.gets (snd out) = Gateway.gets w <->
   exists c, Gateway.verificationCache w !! verification_key userId = Some c /\
             (Z.of_N (Gateway.clock w) - Z.of_N (Gateway.timestamp c) < 30000)%Z) /\
  ((exists a, fst out = Ok a) \/ fst out = Raise Gateway.Pending) /\
  (fst out = Raise Gateway.Pending <->
   Gateway.gets (snd out) <> Gateway.gets w /\ Gateway.unanswered env k g = true) /\
  (fst out = Raise Gateway.Pending ->
   Gateway.verificationCache (snd out) = Gateway.verificationCache w) /\
  (Gateway.gets (snd out) <> Gateway.gets w ->
   Gateway.unanswered env k g = false ->
   forall msg r, settled (Gateway.django env k g) = Rejected msg r ->
     Gateway.verificationCache (snd out) = Gateway.verificationCache w /\
     exists a, fst out = Ok a /\ Gateway.status a = relayed_status r /\
               forall d, ~ sends a d).
Proof.
  intros out g k. subst out g k.
  set (url := Server.DJANGO_API_BASE_URL +:+ "/kyc/verifications/" +:+ userId +:+ "/").
  pose proof (admin_route_cases env (verification_key userId) url
                "fetching verification" w) as H.
  change (admin_route env (verification_key userId) url "fetching verification")
    with (Gateway.admin_verification env userId) in H.
  cbv zeta in H.
  assert (Grow : forall l : list Gateway.Get, (l ++ [admin_get env url])%list <> l).
  { intros l E. apply (f_equal length) in E. rewrite length_app in E. simpl in E. lia. }
  destruct H as [(c & L & F & E)|(F & G & H)].
  - rewrite E. cbn [fst snd]. split; [|split; [|split; [|split]]].
    + split; [intros _|reflexivity]. exists c. split; [exact L|].
      unfold Gateway.fresh in F. now apply Z.ltb_lt in F.
    + left. eauto.
    + split; [discriminate|]. intros [N _]. destruct (N eq_refl).
    + discriminate.
    + intros N. destruct (N eq_refl).
  - assert (Asked : Gateway.gets (snd (Gateway.admin_verification env userId w))
                    <> Gateway.gets w) by (rewrite G; apply Grow).
    split; [|split; [|split; [|split]]].
    + split; [intros E; destruct (Asked E)|].
      intros (c & L & T). specialize (F _ L). unfold Gateway.fresh in F.
      apply Z.ltb_ge in F. lia.
    + destruct H as [(_ & E & _)|(_ & _ & H)]; [right; exact E|left].
      destruct (settled _) as [r|msg r] in H.
      * destruct H as [E _]. eauto.
      * destruct H as [(a & E & _) _]. eauto.
    + destruct H as [(U & E & _)|(U & _ & H)].
      * split; [intros _; split; assumption|intros _; exact E].
      * split; [|intros [_ U']; congruence].
        intros E. destruct (settled _) as [r|msg r] in H.
        -- destruct H as [E' _]. congruence.
        -- destruct H as [(a & E' & _) _]. congruence.
    + intros E. destruct H as [(_ & _ & C)|(_ & _ & H)]; [exact C|].
      destruct (settled _) as [r|msg r] in H.
      * destruct H as [E' _]. congruence.
      * destruct H as [(a & E' & _) _]. congruence.
    + intros _ U msg r S. destruct H as [(U' & _)|(_ & _ & H)]; [congruence|].
      rewrite S in H. destruct H as [(a & E & St & N) C].
      split; [exact C|]. exists a. split; [exact E|]. split; [exact St|].
      intros d Hs. unfold sends in Hs. subst a. exact (N d eq_refl).
Qed.

Lemma admin_failure_relays_status_and_keeps_cache_witness :
  Gateway.verificationCache (snd (Gateway.admin_verification gateway_503 "42" gateway0))
  = Gateway.verificationCache gateway0 /\
  exists a,
    fst (Gateway.admin_verification gateway_503 "42" gateway0) = Ok a /\
    Gateway.status a = 503 /\ forall d, ~ sends a d.
Proof.
  refine (proj2 (proj2 (proj2 (proj2
            (admin_failure_relays_status_and_keeps_cache gateway_503 "42" gateway0))))
            _ eq_refl "Request failed with status code 503"
            (Some {| res_status := 503; res_data := "down" |}) eq_refl).
  vm_compute. discriminate.
Defined.

(** When Django never answers, the admin route sends nothing. *)
Lemma silent_django_leaves_the_admin_waiting :
  fst (Gateway.admin_verification gateway_silent "42" gateway0) = Raise Gateway.Pending.
Proof. vm_compute. reflexivity. Qed.

(** The two admin routes keep their cache entries apart: the key of a user
    is never the key of the list, so neither route reads or replaces what
    the other has cached. *)
Theorem admin_routes_keep_their_entries_apart
    (env : Gateway.Env) (userId : string) (w : Gateway.State) :
  verification_key userId <> "all_verifications" /\
  Gateway.verificationCache (snd (Gateway.admin_verification env userId w))
    !! "all_verifications"
  = Gateway.verificationCache w !! "all_verifications" /\
  Gateway.verificationCache (snd (Gateway.admin_verifications env w))
    !! verification_key userId
  = Gateway.verificationCache w !! verification_key userId.
Proof.
  assert (D : verification_key userId <> "all_verifications") by discriminate.
  split; [exact D|]. split.
  - pose proof (admin_route_cases env (verification_key userId)
                  (Server.DJANGO_API_BASE_URL +:+ "/kyc/verifications/" +:+ userId +:+ "/")
                  "fetching verification" w) as H.
    change (admin_route env (verification_key userId) _ "fetching verification")
      with (Gateway.admin_verification env userId) in H.
    cbv zeta in H.
    destruct H as [(c & _ & _ & ->)|(_ & _ & [(_ & _ & ->)|(_ & _ & H)])];
      [reflexivity|reflexivity|].
    destruct (settled _) in H; destruct H as [_ ->]; [|reflexivity].
    now apply lookup_insert_ne.
  - pose proof (admin_route_cases env "all_verifications"
                  (Server.DJANGO_API_BASE_URL +:+ "/kyc/verifications/")
                  "fetching verifications" w) as H.
    change (admin_route env "all_verifications" _ "fetching verifications")
      with (Gateway.admin_verifications env) in H.
    cbv zeta in H.
    destruct H as [(c & _ & _ & ->)|(_ & _ & [(_ & _ & ->)|(_ & _ & H)])];
      [reflexivity|reflexivity|].
    destruct (settled _) in H; destruct H as [_ ->]; [|reflexivity].
    apply lookup_insert_ne. congruence.
Qed.

(** X30.  GET /health answers 200 whatever Django does, with one GET and the
    cache as it was; it reports Django healthy exactly when Django answered
    that GET with status 200, and the webhook configured exactly when
    SUMSUB_WEBHOOK_SECRET is a non-empty string. *)
Theorem health_is_always_200 (env : Gateway.Env) (w : Gateway.State) :
  let out := Gateway.health env w in
  let g := {| Gateway.g_url := Server.DJANGO_API_BASE_URL +:+ "/kyc/health/";
              Gateway.g_authorization := None;
              Gateway.g_timeout := Some 3000%N |} in
  exists django webhook cache,
    fst out = Ok {| Gateway.status := 200;
                    Gateway.content := Gateway.Health django webhook cache |} /\
    Gateway.gets (snd out) = (Gateway.gets w ++ [g])%list /\
    Gateway.verificationCache (snd out) = Gateway.verificationCache w /\
    (django = "healthy" <->
     exists r, settled (Gateway.django env (length (Gateway.gets w)) g) = Fulfilled r /\
               res_status r = 200) /\
    (webhook = "configured" <-> falsy (Gateway.SUMSUB_WEBHOOK_SECRET env) = false).
Proof.
  unfold Gateway.health, Gateway.axios_get, Gateway.cache_size, Gateway.asked,
    Gateway.never_settles, Gateway.try_catch, run_try, run_bind, run_ret, run_throw.
  cbn [Gateway.g_timeout].
  match goal with |- context [settled ?reply] => destruct (settled reply) as [r|msg r] eqn:S end;
    cbn [fst snd Gateway.verificationCache Gateway.gets].
  - eexists _, _, _. split; [reflexivity|]. split; [reflexivity|]. split; [reflexivity|].
    split.
    + destruct (Nat.eqb_spec (res_status r) 200) as [E|E].
      * split; [intros _; eauto|reflexivity].
      * split; [discriminate|]. intros (r' & [= <-] & E'). contradiction.
    + destruct (falsy _); split; (reflexivity || discriminate).
  - eexists _, _, _. split; [reflexivity|]. split; [reflexivity|]. split; [reflexivity|].
    split.
    + cbn. split; [discriminate|]. intros (r' & E' & _). discriminate.
    + destruct (falsy _); split; (reflexivity || discriminate).
Qed.
